(** * Cluster membership (lxd/cluster/membership.go)

    A shallow embedding of the membership operations of the LXD cluster
    package: [Bootstrap], [Accept], [Join], [Rebalance], [Handover],
    [isMemberOnline], [List] and the precondition checks, together with
    the properties of the membership specification that concern them.

    Go values are embedded as follows.
    - [int], [int64], [uint64], [time.Time], [time.Duration]: [Z]
      (the only conversion, [uint64(id)], has its wrap-around written out);
      [len] and the loop counters bounded by it: [nat].
    - [error]: [option string], [None] being [nil].
    - a slice that may be [nil] in a return value: [option (list _)].
    - a call that returns [(value, error)]: a pair.
    - the two databases ([db.NodeTx], [db.ClusterTx]) live in package [db],
      outside this file: they are interfaces ([NodeTx], [ClusterTx]) over an
      abstract database value, so every theorem holds for every
      implementation.
    - the gateway, the dqlite client and the network probes: their
      outcomes are read from an environment [Env]; the calls that act on
      the outside world are recorded in the [trace] of the state. *)

From Stdlib Require Import ZArith.
From stdpp Require Import base strings list gmap.

Local Open Scope string_scope.
Local Open Scope list_scope.

(** ** Go errors and github.com/pkg/errors *)

Definition error := option string.

Definition fmt_Errorf (msg : string) : error := Some msg.

(** [errors.Wrap(err, msg)]: "If err is nil, Wrap returns nil." *)
Definition errors_Wrap (err : error) (msg : string) : error :=
  match err with
  | None => None
  | Some e => Some (msg +:+ ": " +:+ e)
  end.

(** [errors.Wrapf(err, format, args...)], the format already applied. *)
Definition errors_Wrapf (err : error) (msg : string) : error :=
  errors_Wrap err msg.

(** ** Data model *)

(** [db.RaftRole] (go-dqlite [client.NodeRole]). *)
Inductive RaftRole := RaftVoter | RaftStandBy | RaftSpare.

#[global] Instance RaftRole_eq_dec : EqDecision RaftRole.
Proof. solve_decision. Defined.

(** [db.RaftNode] (go-dqlite [client.NodeInfo]). *)
Record RaftNode := mkRaftNode {
  ID : Z;
  Address : string;
  Role : RaftRole
}.

#[global] Instance RaftNode_eq_dec : EqDecision RaftNode.
Proof. solve_decision. Defined.

Definition set_Role (n : RaftNode) (r : RaftRole) : RaftNode :=
  mkRaftNode (ID n) (Address n) r.

(** The zero value of [db.RaftNode]; [RaftVoter] is role 0. *)
Definition RaftNode_zero : RaftNode := mkRaftNode 0 "" RaftVoter.

(** [db.ClusterRole]; only [db.ClusterRoleDatabase] is used here. *)
Definition ClusterRole := string.
Definition ClusterRoleDatabase : ClusterRole := "database".

Module NodeInfo.
(** Modelled from the spec: [db.NodeInfo], the registry member of the
    data model (package [db] is outside this file). *)
Record t := mk {
  ID : Z;
  Name : string;
  Address : string;
  Schema : Z;
  APIExtensions : Z;
  Heartbeat : Z;
  Roles : list string;
  Architecture : Z
}.

Definition zero : t := mk 0 "" "" 0 0 0 [] 0.

(** Modelled from the spec: [NodeInfo.IsOffline(threshold)] of package
    [db]; a member whose last heartbeat is older than the offline
    threshold is classified offline. [now] is [time.Now()]. *)
Definition IsOffline (now : Z) (n : t) (threshold : Z) : bool :=
  bool_decide (Heartbeat n < now - threshold)%Z.
End NodeInfo.

(** We currently aim at having 3 voter nodes and 2 stand-by. *)
Definition MaxVoters : nat := 3.
Definition MaxStandBys : nat := 2.

(** [uint64(id)] for [id : int64]. *)
Definition uint64 (id : Z) : Z := (id mod 2 ^ 64)%Z.

(** ** Outcomes *)

(** How a call ends: it returns its values with a nil error, returns a
    non-nil error, or panics. *)
Inductive outcome (A : Type) : Type :=
| Ok (a : A)
| Err (e : string)
| Panic (m : string).
Arguments Ok {A} a.
Arguments Err {A} e.
Arguments Panic {A} m.

(** A Go [return vals, err]. *)
Definition go_return {A} (vals : A) (err : error) : outcome A :=
  match err with
  | None => Ok vals
  | Some e => Err e
  end.

(** ** The databases (package db) *)

(** [node.Config] of the local database: what [node.ConfigLoad] yields. *)
Record NodeConfig := { ClusterAddress : string }.

(** [cluster.Config] of the replicated database ([ConfigLoad] of this
    package, defined in another file). *)
Record ClusterConfig := { OfflineThreshold : Z }.

(** The methods of [db.NodeTx] used by this file. A read yields
    [(value, error)]; a write yields the database after it and an error. *)
Class NodeTx (NodeDB : Type) := {
  node_ConfigLoad : NodeDB → NodeConfig * error;
  RaftNodes : NodeDB → list RaftNode * error;
  RaftNodeFirst : NodeDB → string → NodeDB * error;
  RaftNodesReplace : NodeDB → list RaftNode → NodeDB * error
}.

(** What [Join] snapshots before it reconfigures the gateway:
    [StoragePoolsNodeConfig], [NetworksNodeConfig], [Operations]. *)
Record JoinSnapshot := {
  pools : gmap string (gmap string string);
  networks : gmap string (gmap string string);
  operations : list (string * Z)
}.

(** The methods of [db.ClusterTx] used by this file. *)
Class ClusterTx (ClusterDB : Type) := {
  ConfigLoad : ClusterDB → ClusterConfig * error;
  Nodes : ClusterDB → list NodeInfo.t * error;
  NodeOfflineThreshold : ClusterDB → Z * error;
  NodeByAddress : ClusterDB → string → NodeInfo.t * error;
  NodePendingByAddress : ClusterDB → string → NodeInfo.t * error;
  StoragePoolsNodeConfig : ClusterDB → gmap string (gmap string string) * error;
  NetworksNodeConfig : ClusterDB → gmap string (gmap string string) * error;
  Operations : ClusterDB → list (string * Z) * error;
  NodeUpdate : ClusterDB → Z → string → string → ClusterDB * error;
  NodeAddRole : ClusterDB → Z → ClusterRole → ClusterDB * error;
  NodeRemoveRole : ClusterDB → Z → ClusterRole → ClusterDB * error;
  NodeAddWithArch : ClusterDB → string → string → Z → (Z * ClusterDB) * error;
  NodePending : ClusterDB → Z → bool → ClusterDB * error;
  (** The three migration loops of [Join]'s closing transaction (storage
      pools, networks, outstanding operations) for the node with the given
      id, as one write. *)
  JoinMigrate : ClusterDB → Z → JoinSnapshot → ClusterDB * error
}.

(** ** The filesystem *)

Inductive FsEntry := RegularFile | Directory | Symlink (target : string).

(** [shared.PathExists]: an entry of that name exists (the link itself,
    for a symbolic link). *)
Definition PathExists (f : gmap string FsEntry) (name : string) : bool :=
  bool_decide (is_Some (f !! name)).

(** ** The outside world *)

(** Modelled from the spec: [shared.CertInfo], the keypair and CA material
    of package [shared]; the material is identified by a name. *)
Definition CertInfo : Type := string.

(** [api.ClusterMember], as filled in by [List]. *)
Record ClusterMember := mkClusterMember {
  ServerName : string;
  URL : string;
  Database : bool;
  Status : string;
  Message : string;
  MemberRoles : list string;
  MemberArchitecture : string
}.

(** Calls that act outside the two databases and the filesystem. *)
Inductive Event :=
| EvEnterExclusive
| EvGatewayShutdown
| EvGatewayInit
| EvWaitLeadership
| EvFindLeader
| EvGetClient
| EvClientAdd (info : RaftNode)
| EvClientAssign (id : Z) (role : RaftRole)
| EvConnect (address : string)
| EvHasConnectivity (address : string)
| EvHeartbeatNode (address : string).

(** The outcome of each call to an external collaborator. *)
Record Env := {
  now : Z;
  gateway_currentRaftNodes : list RaftNode * error;
  cluster_EnterExclusive : error;
  gateway_Shutdown : error;
  gateway_init : error;
  gateway_waitLeadership : error;
  gateway_getClient : error;
  client_FindLeader : error;
  client_Add : RaftNode → error;
  client_Assign : Z → RaftRole → error;
  (** [Connect(address, cert, true)] followed by [client.GetServer()]. *)
  Connect_GetServer : string → CertInfo → error;
  hasConnectivity : CertInfo → string → bool;
  (** What [os.Symlink(oldname, newname)] returns when [newname] is free. *)
  os_Symlink : string → string → error;
  os_RemoveAll : string → error
}.

(** Pure helpers of the Go library and of other packages. *)
Class Platform := {
  filepath_Join : string → string → string;
  (** [state.OS.GlobalDatabaseDir()], from [state.OS.VarDir]. *)
  GlobalDatabaseDir : string → string;
  version_Version : string;
  (** The [%v] rendering of an [int] and the [%s] one of a duration. *)
  fmt_v : Z → string;
  fmt_duration : Z → string;
  osarch_ArchitectureName : Z → string * error;
  (** [NodeInfo.Version()], a [[2]int]. *)
  NodeInfo_Version : NodeInfo.t → Z * Z;
  util_CompareVersions : Z * Z → Z * Z → Z * error
}.

Section Model.

Context {NodeDB ClusterDB : Type} `{!NodeTx NodeDB} `{!ClusterTx ClusterDB}.
Context `{!Platform}.

(** What an operation can see and change: [state.OS.VarDir] and the
    files, the local and the replicated database, the certificate bound
    to the gateway, and the calls made to the outside so far. *)
Record State := mkState {
  VarDir : string;
  fs : gmap string FsEntry;
  node_db : NodeDB;
  cluster_db : ClusterDB;
  gateway_cert : CertInfo;
  trace : list Event
}.

Definition set_fs (s : State) (f : gmap string FsEntry) : State :=
  mkState (VarDir s) f (node_db s) (cluster_db s) (gateway_cert s) (trace s).
Definition set_node_db (s : State) (d : NodeDB) : State :=
  mkState (VarDir s) (fs s) d (cluster_db s) (gateway_cert s) (trace s).
Definition set_cluster_db (s : State) (d : ClusterDB) : State :=
  mkState (VarDir s) (fs s) (node_db s) d (gateway_cert s) (trace s).
Definition set_gateway_cert (s : State) (c : CertInfo) : State :=
  mkState (VarDir s) (fs s) (node_db s) (cluster_db s) c (trace s).
Definition log (s : State) (ev : Event) : State :=
  mkState (VarDir s) (fs s) (node_db s) (cluster_db s) (gateway_cert s)
          (trace s ++ [ev]).

(** ** State and error monad *)

Definition M (A : Type) : Type := State → State * outcome A.

Definition ret {A} (a : A) : M A := λ s, (s, Ok a).
Definition fail {A} (e : string) : M A := λ s, (s, Err e).
Definition panic {A} (m : string) : M A := λ s, (s, Panic m).

Definition bind {A B} (m : M A) (k : A → M B) : M B := λ s,
  match m s with
  | (s', Ok a) => k a s'
  | (s', Err e) => (s', Err e)
  | (s', Panic p) => (s', Panic p)
  end.

Notation "x <~ m ;; k" := (bind m (λ x, k))
  (at level 100, m at next level, right associativity).
Notation "m ;;; k" := (bind m (λ _, k))
  (at level 100, right associativity).

(** [if err != nil { return errors.Wrap(err, msg) }] around a call. *)
Definition wrap {A} (msg : string) (m : M A) : M A := λ s,
  match m s with
  | (s', Err e) => (s', Err (msg +:+ ": " +:+ e))
  | r => r
  end.

(** A call [v, err := f()] followed by [if err != nil { return err }]. *)
Definition call {A} (r : A * error) : M A := λ s, (s, go_return r.1 r.2).

(** A call to the outside world, recorded in the trace. *)
Definition extern (ev : Event) (err : error) : M unit := λ s,
  (log s ev, go_return tt err).

(** Reads and writes of a transaction on the replicated database. *)
Definition tx_read {A} (op : ClusterDB → A * error) : M A := λ s,
  call (op (cluster_db s)) s.
Definition tx_write (op : ClusterDB → ClusterDB * error) : M unit := λ s,
  let '(d, err) := op (cluster_db s) in
  (set_cluster_db s d, go_return tt err).
Definition tx_insert {A} (op : ClusterDB → (A * ClusterDB) * error) : M A := λ s,
  let '((a, d), err) := op (cluster_db s) in
  (set_cluster_db s d, go_return a err).
Definition tx_check (op : ClusterDB → error) : M unit := λ s,
  (s, go_return tt (op (cluster_db s))).

(** [state.Cluster.Transaction(f)] and [state.Cluster.ExitExclusive(f)]:
    the writes of [f] are kept when it returns nil and rolled back
    otherwise. *)
Definition Cluster_Transaction {A} (f : M A) : M A := λ s,
  match f s with
  | (s', Ok a) => (s', Ok a)
  | (s', r) => (set_cluster_db s' (cluster_db s), r)
  end.

(** Reads and writes of a transaction on the local database. *)
Definition ntx_read {A} (op : NodeDB → A * error) : M A := λ s,
  call (op (node_db s)) s.
Definition ntx_write (op : NodeDB → NodeDB * error) : M unit := λ s,
  let '(d, err) := op (node_db s) in
  (set_node_db s d, go_return tt err).
Definition ntx_check (op : NodeDB → error) : M unit := λ s,
  (s, go_return tt (op (node_db s))).

(** [state.Node.Transaction(f)]. *)
Definition Node_Transaction {A} (f : M A) : M A := λ s,
  match f s with
  | (s', Ok a) => (s', Ok a)
  | (s', r) => (set_node_db s' (node_db s), r)
  end.

(** [os.Symlink(oldname, newname)]: fails when [newname] exists. *)
Definition Symlink_at (E : Env) (oldname newname : string) : M unit := λ s,
  if PathExists (fs s) newname then (s, Err "file exists")
  else match os_Symlink E oldname newname with
       | Some e => (s, Err e)
       | None => (set_fs s (<[newname := Symlink oldname]> (fs s)), Ok tt)
       end.

(** [os.RemoveAll(path)]: removes [path] and everything below it. *)
Definition RemoveAll_at (E : Env) (path : string) : M unit := λ s,
  match os_RemoveAll E path with
  | Some e => (s, Err e)
  | None =>
    (set_fs s (filter (λ kv, ¬ (kv.1 = path ∨ String.prefix (path +:+ "/") kv.1 = true))
                      (fs s)), Ok tt)
  end.

Variable E : Env.

(** ** Preconditions *)

(** Check that node-related preconditions are met for bootstrapping or
    joining a cluster. *)
Definition membershipCheckNodeStateForBootstrapOrJoin
    (tx : NodeDB) (address : string) : error :=
  let '(nodes, err) := RaftNodes tx in
  match err with
  | Some _ => errors_Wrap err "failed to fetch current raft nodes"
  | None =>
    let hasClusterAddress := bool_decide (address ≠ "") in
    let hasRaftNodes := bool_decide (0 < length nodes) in
    if negb hasClusterAddress && hasRaftNodes then
      fmt_Errorf "inconsistent state: found leftover entries in raft_nodes"
    else if negb hasClusterAddress then
      fmt_Errorf "no cluster.https_address config is set on this node"
    else if hasRaftNodes then
      fmt_Errorf "the node is already part of a cluster"
    else None
  end.

(** Check that cluster-related preconditions are met for bootstrapping or
    joining a cluster. *)
Definition membershipCheckClusterStateForBootstrapOrJoin (tx : ClusterDB) : error :=
  let '(nodes, err) := Nodes tx in
  match err with
  | Some _ => errors_Wrap err "failed to fetch current cluster nodes"
  | None =>
    if bool_decide (length nodes ≠ 1) then
      fmt_Errorf "inconsistent state: found leftover entries in nodes"
    else None
  end.

(** Check that cluster-related preconditions are met for accepting a new
    node: the loop over the registry rows. *)
Fixpoint membershipCheckClusterStateForAccept_loop
    (nodes : list NodeInfo.t) (name address : string) (schema api : Z) : error :=
  match nodes with
  | [] => None
  | node :: rest =>
    if decide (NodeInfo.Name node = name) then
      fmt_Errorf ("The cluster already has a member with name: " +:+ name)
    else if decide (NodeInfo.Address node = address) then
      fmt_Errorf ("The cluster already has a member with address: " +:+ address)
    else if decide (NodeInfo.Schema node ≠ schema) then
      fmt_Errorf ("The joining server version doesn't (expected " +:+ version_Version
                  +:+ " with DB schema " +:+ fmt_v schema +:+ ")")
    else if decide (NodeInfo.APIExtensions node ≠ api) then
      fmt_Errorf ("The joining server version doesn't (expected " +:+ version_Version
                  +:+ " with API count " +:+ fmt_v api +:+ ")")
    else membershipCheckClusterStateForAccept_loop rest name address schema api
  end.

Definition membershipCheckClusterStateForAccept
    (tx : ClusterDB) (name address : string) (schema api : Z) : error :=
  let '(nodes, err) := Nodes tx in
  match err with
  | Some _ => errors_Wrap err "Failed to fetch current cluster nodes"
  | None =>
    if bool_decide (length nodes = 1) &&
       bool_decide (NodeInfo.Address <$> nodes !! 0 = Some "0.0.0.0")
    then fmt_Errorf "Clustering isn't enabled"
    else membershipCheckClusterStateForAccept_loop nodes name address schema api
  end.

(** Check that there is no left-over cluster certificate in the LXD var
    dir of this node. *)
Fixpoint membershipCheckNoLeftoverClusterCert_loop
    (f : gmap string FsEntry) (dir : string) (basenames : list string) : error :=
  match basenames with
  | [] => None
  | basename :: rest =>
    if PathExists f (filepath_Join dir basename) then
      fmt_Errorf "inconsistent state: found leftover cluster certificate"
    else membershipCheckNoLeftoverClusterCert_loop f dir rest
  end.

Definition membershipCheckNoLeftoverClusterCert
    (f : gmap string FsEntry) (dir : string) : error :=
  membershipCheckNoLeftoverClusterCert_loop f dir
    ["cluster.crt"; "cluster.key"; "cluster.ca"].

(** ** Bootstrap *)

(** The loop of [Bootstrap] that creates the cluster certificates as
    symlinks against the regular node certificate. *)
Fixpoint Bootstrap_symlinks (exts : list string) : M unit :=
  match exts with
  | [] => ret tt
  | ext :: rest => λ s,
    if bool_decide (ext = ".ca") &&
       negb (PathExists (fs s) (filepath_Join (VarDir s) "server.ca"))
    then Bootstrap_symlinks rest s
    else
      (wrap "failed to create cluster cert symlink"
         (Symlink_at E ("server" +:+ ext) (filepath_Join (VarDir s) ("cluster" +:+ ext))) ;;;
       Bootstrap_symlinks rest) s
  end.

(** Bootstrap turns a non-clustered LXD instance into the first (and
    leader) node of a new LXD cluster. *)
Definition Bootstrap (name : string) : M unit :=
  if decide (name = "") then fail "node name must not be empty" else
  (λ s, (s, go_return tt (membershipCheckNoLeftoverClusterCert (fs s) (VarDir s)))) ;;;
  address <~ Node_Transaction (
    config <~ wrap "failed to fetch node configuration" (ntx_read node_ConfigLoad) ;;
    let address := ClusterAddress config in
    ntx_check (λ tx, membershipCheckNodeStateForBootstrapOrJoin tx address) ;;;
    wrap "failed to insert first raft node"
      (ntx_write (λ tx, RaftNodeFirst tx address)) ;;;
    ret address) ;;
  Cluster_Transaction (
    tx_check membershipCheckClusterStateForBootstrapOrJoin ;;;
    wrap "failed to update cluster node"
      (tx_write (λ tx, NodeUpdate tx 1 name address)) ;;;
    wrap "Failed to add database role for the node"
      (tx_write (λ tx, NodeAddRole tx 1 ClusterRoleDatabase))) ;;;
  wrap "failed to acquire cluster database lock"
    (extern EvEnterExclusive (cluster_EnterExclusive E)) ;;;
  wrap "failed to shutdown gRPC SQL gateway"
    (extern EvGatewayShutdown (gateway_Shutdown E)) ;;;
  wrap "failed to re-initialize gRPC SQL gateway"
    (extern EvGatewayInit (gateway_init E)) ;;;
  extern EvWaitLeadership (gateway_waitLeadership E) ;;;
  Bootstrap_symlinks [".crt"; ".key"; ".ca"] ;;;
  wrap "cluster database initialization failed"
    (Cluster_Transaction (tx_read Nodes ;;; ret tt)).

(** ** Accept *)

(** The counting loop of [Accept]: [voters++] and [standbys++]. *)
Fixpoint Accept_count (nodes : list RaftNode) (voters standbys : nat) : nat * nat :=
  match nodes with
  | [] => (voters, standbys)
  | node :: rest =>
    match Role node with
    | RaftVoter => Accept_count rest (S voters) standbys
    | RaftStandBy => Accept_count rest voters (S standbys)
    | RaftSpare => Accept_count rest voters standbys
    end
  end.

(** Accept a new node and add it to the cluster. *)
Definition Accept (name address : string) (schema api arch : Z) : M (list RaftNode) :=
  if decide (name = "") then fail "node name must not be empty" else
  if decide (address = "") then fail "node address must not be empty" else
  id <~ Cluster_Transaction (
    tx_check (λ tx, membershipCheckClusterStateForAccept tx name address schema api) ;;;
    id <~ wrap "Failed to insert new node into the database"
            (tx_insert (λ tx, NodeAddWithArch tx name address arch)) ;;
    wrap "Failed to mark the new node as pending"
      (tx_write (λ tx, NodePending tx id true)) ;;;
    ret id) ;;
  nodes <~ wrap "Failed to get raft nodes from the log"
             (call (gateway_currentRaftNodes E)) ;;
  let count := length nodes in
  let '(voters, standbys) := Accept_count nodes 0 0 in
  let node := mkRaftNode (uint64 id) address RaftSpare in
  let node :=
    if bool_decide (1 < count) && bool_decide (voters < MaxVoters)
    then set_Role node RaftVoter
    else if bool_decide (standbys < MaxStandBys)
    then set_Role node RaftStandBy
    else node in
  ret (nodes ++ [node]).

(** ** Join *)

(** Attempt to send a heartbeat to all other nodes to notify them of a
    new or changed member: one [go HeartbeatNode(...)] per other node. *)
Fixpoint notifyNodesUpdate (raftNodes : list RaftNode) (id : Z) (cert : CertInfo) : M unit :=
  match raftNodes with
  | [] => ret tt
  | node :: rest =>
    if decide (ID node = id) then notifyNodesUpdate rest id cert
    else (λ s, (log s (EvHeartbeatNode (Address node)), Ok tt)) ;;;
         notifyNodesUpdate rest id cert
  end.

(** The variables of the loop of [Join] that looks for the joining node.
    This code base predates Go 1.22: [for _, node := range raftNodes]
    declares [node] once for the whole loop and copies each element into
    it, so [info = &node] points at that one variable and not into
    [raftNodes]. *)
Inductive Join_ptr := AddrOf_node.

Record Join_frame := mkJoin_frame {
  var_node : RaftNode;
  var_info : option Join_ptr
}.

Definition Join_deref (fr : Join_frame) (p : Join_ptr) : RaftNode :=
  match p with AddrOf_node => var_node fr end.

Fixpoint Join_find (raftNodes : list RaftNode) (address : string)
    (fr : Join_frame) : Join_frame :=
  match raftNodes with
  | [] => fr
  | elem :: rest =>
    let fr := mkJoin_frame elem (var_info fr) in
    let fr :=
      if decide (Address (var_node fr) = address)
      then mkJoin_frame (var_node fr) (Some AddrOf_node)
      else fr in
    Join_find rest address fr
  end.

(** Join makes a non-clustered LXD node join an existing cluster. *)
Definition Join (cert : CertInfo) (name : string) (raftNodes : list RaftNode) : M unit :=
  if decide (name = "") then fail "node name must not be empty" else
  address <~ Node_Transaction (
    config <~ wrap "failed to fetch node configuration" (ntx_read node_ConfigLoad) ;;
    let address := ClusterAddress config in
    ntx_check (λ tx, membershipCheckNodeStateForBootstrapOrJoin tx address) ;;;
    wrap "failed to set raft nodes"
      (ntx_write (λ tx, RaftNodesReplace tx raftNodes)) ;;;
    ret address) ;;
  snapshot <~ Cluster_Transaction (
    pools <~ tx_read StoragePoolsNodeConfig ;;
    networks <~ tx_read NetworksNodeConfig ;;
    operations <~ tx_read Operations ;;
    ret (Build_JoinSnapshot pools networks operations)) ;;
  wrap "failed to acquire cluster database lock"
    (extern EvEnterExclusive (cluster_EnterExclusive E)) ;;;
  wrap "failed to shutdown gRPC SQL gateway"
    (extern EvGatewayShutdown (gateway_Shutdown E)) ;;;
  wrap "failed to remove existing raft data"
    (λ s, RemoveAll_at E (GlobalDatabaseDir (VarDir s)) s) ;;;
  (λ s, (set_gateway_cert s cert, Ok tt)) ;;;
  wrap "failed to re-initialize gRPC SQL gateway"
    (extern EvGatewayInit (gateway_init E)) ;;;
  let fr := Join_find raftNodes address (mkJoin_frame RaftNode_zero None) in
  match var_info fr with
  | None => panic "joining node not found"
  | Some info =>
    wrap "Failed to connect to cluster leader"
      (extern EvFindLeader (client_FindLeader E)) ;;;
    wrap "Failed to join cluster"
      (extern (EvClientAdd (Join_deref fr info)) (client_Add E (Join_deref fr info))) ;;;
    wrap "cluster database initialization failed" (Cluster_Transaction (
      node <~ wrap "failed to get ID of joining node"
                (tx_read (λ tx, NodePendingByAddress tx address)) ;;
      tx_write (λ tx, JoinMigrate tx (NodeInfo.ID node) snapshot) ;;;
      wrap "failed to unmark the node as pending"
        (tx_write (λ tx, NodePending tx (NodeInfo.ID node) false)) ;;;
      (if decide (Role (Join_deref fr info) = RaftVoter) then
         wrap "Failed to add database role for the node"
           (tx_write (λ tx, NodeAddRole tx (NodeInfo.ID node) ClusterRoleDatabase))
       else ret tt) ;;;
      notifyNodesUpdate raftNodes (ID (Join_deref fr info)) cert))
  end.

(** ** Liveness *)

(** Check if the member with the given address is online. *)
Definition isMemberOnline (cert : CertInfo) (address : string) : M bool :=
  online <~ Cluster_Transaction (
    offlineThreshold <~ tx_read NodeOfflineThreshold ;;
    node <~ tx_read (λ tx, NodeByAddress tx address) ;;
    ret (if NodeInfo.IsOffline (now E) node offlineThreshold then false else true)) ;;
  if negb online then
    (λ s, (log s (EvHasConnectivity address), Ok (hasConnectivity E cert address))) ;;;
    ret (if hasConnectivity E cert address then true else online)
  else ret online.

(** ** Rebalance *)

(** The map [nodesByAddress] built from the registry rows. *)
Definition Rebalance_nodesByAddress (nodes : list NodeInfo.t) : gmap string NodeInfo.t :=
  foldl (λ m node, <[NodeInfo.Address node := node]> m) ∅ nodes.

(** [nodesByAddress[address]]: the zero value when the key is absent. *)
Definition Rebalance_lookup (nodesByAddress : gmap string NodeInfo.t)
    (address : string) : NodeInfo.t :=
  default NodeInfo.zero (nodesByAddress !! address).

(** The variables of the grouping loop. *)
Record Rebalance_groups := mkGroups {
  g_voters : list string;
  g_standbys : list string;
  g_candidates : list string;
  g_nodes : list RaftNode
}.

(** The grouping loop of [Rebalance], from index [i] on. An offline member
    that is not a spare and cannot be reached is demoted right away. *)
Fixpoint Rebalance_group (nodesByAddress : gmap string NodeInfo.t)
    (offlineThreshold : Z) (i : nat) (rest : list RaftNode)
    (g : Rebalance_groups) : M Rebalance_groups :=
  match rest with
  | [] => ret g
  | info :: rest' =>
    let node := Rebalance_lookup nodesByAddress (Address info) in
    demoted <~
      (if NodeInfo.IsOffline (now E) node offlineThreshold &&
          bool_decide (Role info ≠ RaftSpare)
       then
         err <~ (λ s, (log s (EvConnect (NodeInfo.Address node)),
                       Ok (Connect_GetServer E (NodeInfo.Address node) (gateway_cert s)))) ;;
         match err with
         | None => ret false
         | Some _ =>
           wrap "Failed to connect to local dqlite node"
             (extern EvGetClient (gateway_getClient E)) ;;;
           wrap "Failed to demote offline node"
             (extern (EvClientAssign (ID info) RaftSpare)
                     (client_Assign E (ID info) RaftSpare)) ;;;
           wrap "Failed to update node role"
             (Cluster_Transaction
                (tx_write (λ tx, NodeRemoveRole tx (NodeInfo.ID node) ClusterRoleDatabase))) ;;;
           ret true
         end
       else ret false) ;;
    if demoted : bool then
      Rebalance_group nodesByAddress offlineThreshold (S i) rest'
        (mkGroups (g_voters g) (g_standbys g) (g_candidates g)
                  (alter (λ n, set_Role n RaftSpare) i (g_nodes g)))
    else
      Rebalance_group nodesByAddress offlineThreshold (S i) rest'
        match Role info with
        | RaftVoter =>
          mkGroups (g_voters g ++ [Address info]) (g_standbys g) (g_candidates g)
                   (g_nodes g)
        | RaftStandBy =>
          mkGroups (g_voters g) (g_standbys g ++ [Address info]) (g_candidates g)
                   (g_nodes g)
        | RaftSpare =>
          mkGroups (g_voters g) (g_standbys g) (g_candidates g ++ [Address info])
                   (g_nodes g)
        end
  end.

(** The loop over the candidates: it looks at the first one only. *)
Definition Rebalance_pick (nodesByAddress : gmap string NodeInfo.t)
    (candidates : list string) : string :=
  match candidates with
  | [] => ""
  | candidate :: _ => NodeInfo.Address (Rebalance_lookup nodesByAddress candidate)
  end.

(** The loop that sets the new role of the first member with the chosen
    address. *)
Fixpoint Rebalance_assign (nodes : list RaftNode) (address : string)
    (role : RaftRole) : list RaftNode :=
  match nodes with
  | [] => []
  | node :: rest =>
    if decide (Address node = address) then set_Role node role :: rest
    else node :: Rebalance_assign rest address role
  end.

(** Rebalance the raft cluster, trying to see if we have a spare online
    node that we can promote. *)
Definition Rebalance : M (string * option (list RaftNode)) :=
  currentRaftNodes <~ wrap "failed to get current raft nodes"
                        (call (gateway_currentRaftNodes E)) ;;
  loaded <~ Cluster_Transaction (
    config <~ wrap "failed load cluster configuration" (tx_read ConfigLoad) ;;
    nodes <~ wrap "failed to get cluster nodes" (tx_read Nodes) ;;
    ret (Rebalance_nodesByAddress nodes, OfflineThreshold config)) ;;
  let '(nodesByAddress, offlineThreshold) := loaded in
  g <~ Rebalance_group nodesByAddress offlineThreshold 0 currentRaftNodes
         (mkGroups [] [] [] currentRaftNodes) ;;
  let promote (role : RaftRole) (candidates : list string) :=
    let address := Rebalance_pick nodesByAddress candidates in
    if decide (address = "") then ret ("", Some (g_nodes g))
    else ret (address, Some (Rebalance_assign (g_nodes g) address role)) in
  if bool_decide (length (g_voters g) < MaxVoters) && bool_decide (1 < length (g_voters g))
  then promote RaftVoter (g_standbys g ++ g_candidates g)
  else if bool_decide (length (g_standbys g) < MaxStandBys)
  then promote RaftStandBy (g_candidates g)
  else ret ("", None).

(** ** Handover *)

(** The first loop of [Handover]: [None] when it returns early because
    the leaving member is not a voter, otherwise the value of [found]. *)
Fixpoint Handover_find (nodes : list RaftNode) (address : string) : option bool :=
  match nodes with
  | [] => Some false
  | node :: rest =>
    if decide (Address node ≠ address) then Handover_find rest address
    else if decide (Role node ≠ RaftVoter) then None
    else Some true
  end.

(** The second loop of [Handover], from index [i] on. *)
Fixpoint Handover_scan (cert : CertInfo) (nodes : list RaftNode) (address : string)
    (i : nat) (rest : list RaftNode) : M (string * option (list RaftNode)) :=
  match rest with
  | [] => ret ("", None)
  | node :: rest' =>
    if bool_decide (Role node = RaftVoter) || bool_decide (Address node = address)
    then Handover_scan cert nodes address (S i) rest'
    else
      online <~ wrap ("Failed to check if " +:+ Address node +:+ " is online")
                  (isMemberOnline cert (Address node)) ;;
      if negb online then Handover_scan cert nodes address (S i) rest'
      else ret (Address node, Some (alter (λ n, set_Role n RaftVoter) i nodes))
  end.

(** Handover looks for a non-voter member that can be promoted to replace
    the member with the given address, which is shutting down. *)
Definition Handover (address : string) : M (string * option (list RaftNode)) :=
  let '(nodes, err) := gateway_currentRaftNodes E in
  match err with
  | Some _ => λ s, (s, go_return ("", None)
                        (errors_Wrap err "Failed to get current raft nodes"))
  | None =>
    match Handover_find nodes address with
    | None => ret ("", None)
    | Some false => λ s,
      (s, go_return ("", None)
            (errors_Wrapf err ("No dqlite node has address " +:+ address)))
    | Some true => λ s, Handover_scan (gateway_cert s) nodes address 0 nodes s
    end
  end.

(** ** List *)

(** The first loop of [List]: fills one entry per row and tracks the
    lowest version seen. *)
Fixpoint List_fill (offlineThreshold : Z) (nodes : list NodeInfo.t)
    (version : Z * Z) (result : list ClusterMember)
    : outcome (list ClusterMember * (Z * Z)) :=
  match nodes with
  | [] => Ok (result, version)
  | node :: rest =>
    let '(arch, err) := osarch_ArchitectureName (NodeInfo.Architecture node) in
    match err with
    | Some e => Err e
    | None =>
      let '(status, message) :=
        if NodeInfo.IsOffline (now E) node offlineThreshold
        then ("Offline", "no heartbeat since " +:+
                         fmt_duration (now E - NodeInfo.Heartbeat node))
        else ("Online", "fully operational") in
      let entry status message :=
        mkClusterMember (NodeInfo.Name node) ("https://" +:+ NodeInfo.Address node)
          (bool_decide (ClusterRoleDatabase ∈ NodeInfo.Roles node))
          status message (NodeInfo.Roles node) arch in
      let '(n, err) := util_CompareVersions version (NodeInfo_Version node) in
      match err with
      | Some _ =>
        List_fill offlineThreshold rest version
          (result ++ [entry "Broken" "inconsistent version"])
      | None =>
        List_fill offlineThreshold rest
          (if decide (n = 1%Z) then NodeInfo_Version node else version)
          (result ++ [entry status message])
      end
    end
  end.

(** The second loop of [List]: online members ahead of the rest are
    blocked. *)
Fixpoint List_block (nodes : list NodeInfo.t) (version : Z * Z)
    (result : list ClusterMember) : list ClusterMember :=
  match nodes, result with
  | node :: nodes', r :: result' =>
    (if decide (Status r ≠ "Online") then r
     else
       let '(n, err) := util_CompareVersions version (NodeInfo_Version node) in
       match err with
       | Some _ => r
       | None =>
         if decide (n = 2%Z) then
           mkClusterMember (ServerName r) (URL r) (Database r) "Blocked"
             "waiting for other nodes to be upgraded" (MemberRoles r)
             (MemberArchitecture r)
         else r
       end) :: List_block nodes' version result'
  | _, _ => result
  end.

(** List the nodes of the cluster. *)
Definition List : M (list ClusterMember) :=
  loaded <~ Cluster_Transaction (
    nodes <~ tx_read Nodes ;;
    offlineThreshold <~ tx_read NodeOfflineThreshold ;;
    ret (nodes, offlineThreshold)) ;;
  let '(nodes, offlineThreshold) := loaded in
  match nodes !! 0 with
  | None => panic "runtime error: index out of range [0] with length 0"
  | Some first =>
    let version := NodeInfo_Version first in
    filled <~ (λ s, (s, List_fill offlineThreshold nodes version [])) ;;
    let '(result, version) := filled in
    ret (List_block nodes version result)
  end.

End Model.

(** ** An in-memory implementation of the two databases

    Package [db] is outside this file. The implementation below follows
    the data model of the specification; it gives the claims concrete
    states to run on. *)

Module Mem.

(** Modelled from the spec: the local node config ([cluster_address] and
    the [raft_nodes] cache), which package [db] stores. *)
Record NodeDB := mkNodeDB {
  cluster_address : string;
  raft_nodes : list RaftNode
}.

(** Modelled from the spec: a row of the replicated [nodes] table of
    package [db], a registry member with its [pending] flag. *)
Record Row := mkRow {
  info : NodeInfo.t;
  pending : bool
}.

(** Modelled from the spec: the replicated database of package [db], the
    registry rows and the cluster-wide offline threshold. *)
Record ClusterDB := mkClusterDB {
  rows : list Row;
  offline_threshold : Z
}.

Definition set_rows (d : ClusterDB) (r : list Row) : ClusterDB :=
  mkClusterDB r (offline_threshold d).

Definition with_roles (n : NodeInfo.t) (roles : list string) : NodeInfo.t :=
  NodeInfo.mk (NodeInfo.ID n) (NodeInfo.Name n) (NodeInfo.Address n)
    (NodeInfo.Schema n) (NodeInfo.APIExtensions n) (NodeInfo.Heartbeat n)
    roles (NodeInfo.Architecture n).

Definition on_row (id : Z) (f : Row → Row) (d : ClusterDB) : ClusterDB * error :=
  if existsb (λ r, bool_decide (NodeInfo.ID (info r) = id)) (rows d)
  then (set_rows d (map (λ r, if decide (NodeInfo.ID (info r) = id) then f r else r)
                        (rows d)), None)
  else (d, Some "No such object").

Definition by_address (want_pending : bool) (d : ClusterDB) (address : string)
    : NodeInfo.t * error :=
  match List.find (λ r, bool_decide (pending r = want_pending) &&
                        bool_decide (NodeInfo.Address (info r) = address)) (rows d) with
  | Some r => (info r, None)
  | None => (NodeInfo.zero, Some "No such object")
  end.

Definition fresh_id (d : ClusterDB) : Z :=
  (foldr Z.max 0 (map (λ r, NodeInfo.ID (info r)) (rows d)) + 1)%Z.

(** Modelled from the spec: the local database API of package [db]
    ([ConfigLoad], [RaftNodes], [RaftNodeFirst], [RaftNodesReplace]). *)
#[global] Instance node_tx : NodeTx NodeDB := {
  node_ConfigLoad d := (Build_NodeConfig (cluster_address d), None);
  RaftNodes d := (raft_nodes d, None);
  RaftNodeFirst d address :=
    (mkNodeDB (cluster_address d) [mkRaftNode 1 address RaftVoter], None);
  RaftNodesReplace d nodes := (mkNodeDB (cluster_address d) nodes, None)
}.

(** Modelled from the spec: the replicated database API of package [db].
    [Nodes] and [NodeByAddress] see the rows that are not pending,
    [NodePendingByAddress] the pending ones; a lookup or an update of a
    row that does not exist fails. *)
#[global] Instance cluster_tx : ClusterTx ClusterDB := {
  ConfigLoad d := (Build_ClusterConfig (offline_threshold d), None);
  Nodes d := (map info (filter (λ r, pending r = false) (rows d)), None);
  NodeOfflineThreshold d := (offline_threshold d, None);
  NodeByAddress := by_address false;
  NodePendingByAddress := by_address true;
  StoragePoolsNodeConfig d := (∅, None);
  NetworksNodeConfig d := (∅, None);
  Operations d := ([], None);
  NodeUpdate d id name address :=
    on_row id (λ r,
      mkRow (NodeInfo.mk id name address (NodeInfo.Schema (info r))
               (NodeInfo.APIExtensions (info r)) (NodeInfo.Heartbeat (info r))
               (NodeInfo.Roles (info r)) (NodeInfo.Architecture (info r)))
            (pending r)) d;
  NodeAddRole d id role :=
    on_row id (λ r, mkRow (with_roles (info r) (NodeInfo.Roles (info r) ++ [role]))
                          (pending r)) d;
  NodeRemoveRole d id role :=
    on_row id (λ r,
      mkRow (with_roles (info r) (filter (λ x, x ≠ role) (NodeInfo.Roles (info r))))
            (pending r)) d;
  NodeAddWithArch d name address arch :=
    let id := fresh_id d in
    ((id, set_rows d (rows d ++
            [mkRow (NodeInfo.mk id name address 0 0 0 [] arch) false])), None);
  NodePending d id p := on_row id (λ r, mkRow (info r) p) d;
  JoinMigrate d id snapshot := (d, None)
}.

(** Modelled from the spec: the helpers of the Go library and of the
    packages [osarch], [util] and [version]. *)
#[global] Instance platform : Platform := {
  filepath_Join dir name := dir +:+ "/" +:+ name;
  GlobalDatabaseDir dir := dir +:+ "/database/global";
  version_Version := "4.0.0";
  fmt_v n := "";
  fmt_duration d := "";
  osarch_ArchitectureName a := ("x86_64", None);
  NodeInfo_Version n := (NodeInfo.Schema n, NodeInfo.APIExtensions n);
  util_CompareVersions v1 v2 :=
    if bool_decide (v1 = v2) then (0%Z, None)
    else if bool_decide (v2.1 ≤ v1.1)%Z && bool_decide (v2.2 ≤ v1.2)%Z then (1%Z, None)
    else if bool_decide (v1.1 ≤ v2.1)%Z && bool_decide (v1.2 ≤ v2.2)%Z then (2%Z, None)
    else ((-1)%Z, Some "nodes have inconsistent versions")
}.

(** A world in which every call to the outside succeeds, no member can be
    reached by a probe, and the roster in the raft log is [roster]. *)
Definition env (roster : list RaftNode) : Env := {|
  now := 1000;
  gateway_currentRaftNodes := (roster, None);
  cluster_EnterExclusive := None;
  gateway_Shutdown := None;
  gateway_init := None;
  gateway_waitLeadership := None;
  gateway_getClient := None;
  client_FindLeader := None;
  client_Add := λ _, None;
  client_Assign := λ _ _, None;
  Connect_GetServer := λ _ _, Some "connection refused";
  hasConnectivity := λ _ _, false;
  os_Symlink := λ _ _, None;
  os_RemoveAll := λ _, None
|}.

(** A registry row, with heartbeat [hb], of a member at schema 1 and API
    count 1. *)
Definition member (id : Z) (name address : string) (hb : Z) : Row :=
  mkRow (NodeInfo.mk id name address 1 1 hb [] 0) false.

Definition state (files : gmap string FsEntry) (local : NodeDB)
    (registry : list Row) : State :=
  mkState "/var/lib/lxd" files local (mkClusterDB registry 20) "server" [].

End Mem.

(** * Assign, Leave and Purge

    The three operations below need more of the outside than the ones
    above: further methods of [db.ClusterTx], the [info] field of the
    gateway and the [Remove] call of the dqlite client. *)

(** The methods of [db.ClusterTx] that only [Assign], [Leave] and [Purge]
    use. *)
Class ClusterTxMembers (ClusterDB : Type) := {
  NodeAddress : ClusterDB → string * error;
  NodeByName : ClusterDB → string → NodeInfo.t * error;
  NodeIsEmpty : ClusterDB → Z → string * error;
  NodeClear : ClusterDB → Z → ClusterDB * error;
  NodeRemove : ClusterDB → Z → ClusterDB * error
}.

(** [fmt.Sprintf(format)] without operands: what [fmt.Errorf(message)]
    makes of a message that it is given as its format. *)
Class Fmt := {
  fmt_Sprintf : string → string
}.

(** The outcome of the further calls to the gateway, to the cluster
    handle and to the dqlite client. *)
Record GatewayEnv := {
  gateway_IsDqliteNode : bool;
  (** [state.Cluster.GetNodeID()]. *)
  cluster_GetNodeID : Z;
  client_Remove : Z → error
}.

Section Registry.

Context {NodeDB ClusterDB : Type} `{!NodeTx NodeDB} `{!ClusterTx ClusterDB}.
Context {members : ClusterTxMembers ClusterDB}.
Context `{!Platform} `{!Fmt}.

Notation "x <~ m ;; k" := (bind m (λ x, k))
  (at level 100, m at next level, right associativity).
Notation "m ;;; k" := (bind m (λ _, k))
  (at level 100, right associativity).

(** Check that cluster-related preconditions are met for leaving a
    cluster. *)
Definition membershipCheckClusterStateForLeave (tx : ClusterDB) (nodeID : Z) : error :=
  let '(message, err) := NodeIsEmpty tx nodeID in
  match err with
  | Some _ => err
  | None =>
    if decide (message ≠ "") then fmt_Errorf (fmt_Sprintf message)
    else
      let '(nodes, err) := Nodes tx in
      match err with
      | Some _ => err
      | None =>
        if decide (length nodes = 1) then
          fmt_Errorf "node is the only node in the cluster"
        else None
      end
  end.

(** The transaction of [Leave]: check if the node can be deleted and
    track its address. *)
Definition Leave_check (name : string) (force : bool) : @M NodeDB ClusterDB string :=
  node <~ tx_read (λ tx, NodeByName tx name) ;;
  (if negb force
   then tx_check (λ tx, membershipCheckClusterStateForLeave tx (NodeInfo.ID node))
   else ret tt) ;;;
  ret (NodeInfo.Address node).

(** Purge removes a node entirely from the cluster database. *)
Definition Purge (name : string) : @M NodeDB ClusterDB unit :=
  Cluster_Transaction (
    node <~ wrap ("failed to get node " +:+ name)
              (tx_read (λ tx, NodeByName tx name)) ;;
    wrap ("failed to clear node " +:+ name)
      (tx_write (λ tx, NodeClear tx (NodeInfo.ID node))) ;;;
    wrap ("failed to remove node " +:+ name)
      (tx_write (λ tx, NodeRemove tx (NodeInfo.ID node)))).

End Registry.

Section Gateway.

Context {NodeDB ClusterDB : Type} `{!NodeTx NodeDB} `{!ClusterTx ClusterDB}.
Context {members : ClusterTxMembers ClusterDB}.
Context `{!Platform} `{!Fmt}.

(** [State] together with what [Assign] and [Leave] act on besides: the
    [info] field of the gateway, and the IDs that the dqlite client was
    asked to remove from the raft cluster, oldest first. *)
Record Daemon := mkDaemon {
  d_state : @State NodeDB ClusterDB;
  gateway_info : option RaftNode;
  client_removed : list Z
}.

Definition D (A : Type) : Type := Daemon → Daemon * outcome A.

Definition retD {A} (a : A) : D A := λ d, (d, Ok a).
Definition failD {A} (e : string) : D A := λ d, (d, Err e).

Definition bindD {A B} (m : D A) (k : A → D B) : D B := λ d,
  match m d with
  | (d', Ok a) => k a d'
  | (d', Err e) => (d', Err e)
  | (d', Panic p) => (d', Panic p)
  end.

(** A step that acts on [State] only. *)
Definition lift {A} (m : @M NodeDB ClusterDB A) : D A := λ d,
  let '(s, r) := m (d_state d) in
  (mkDaemon s (gateway_info d) (client_removed d), r).

Notation "x <~ m ;; k" := (bindD m (λ x, k))
  (at level 100, m at next level, right associativity).
Notation "m ;;; k" := (bindD m (λ _, k))
  (at level 100, right associativity).

Variable E : Env.
Variable G : GatewayEnv.

(** ** Assign *)

(** The loop of [Assign] that figures out the node's identity:
    [info = &nodes[i]] for every entry with the address, so the last one
    stays. The pointer goes into the slice, which is not written to
    afterwards. *)
Fixpoint Assign_find (nodes : list RaftNode) (address : string)
    (info : option RaftNode) : option RaftNode :=
  match nodes with
  | [] => info
  | node :: rest =>
    Assign_find rest address
      (if decide (Address node = address) then Some node else info)
  end.

(** Assign a new role to the local dqlite node. *)
Definition Assign (nodes : list RaftNode) : D unit :=
  address <~ lift (Cluster_Transaction
               (wrap "Failed to fetch the address of this cluster member"
                  (tx_read NodeAddress))) ;;
  if decide (address = "") then
    failD "Cluster member is not exposed on the network"
  else
  match Assign_find nodes address None with
  | None => failD "This node is not included in the given list of database nodes"
  | Some info =>
    lift (Node_Transaction
            (wrap "Failed to set raft nodes"
               (ntx_write (λ tx, RaftNodesReplace tx nodes)))) ;;;
    (if gateway_IsDqliteNode G then retD tt
     else
       lift (wrap "Failed to acquire cluster database lock"
               (extern EvEnterExclusive (cluster_EnterExclusive E))) ;;;
       lift (wrap "Failed to remove existing raft data"
               (λ s, RemoveAll_at E (GlobalDatabaseDir (VarDir s)) s)) ;;;
       lift (wrap "failed to re-initialize gRPC SQL gateway"
               (extern EvGatewayInit (gateway_init E)))) ;;;
    lift (wrap "Failed to connect to cluster leader"
            (extern EvFindLeader (client_FindLeader E))) ;;;
    lift (wrap "Failed to assign role"
            (extern (EvClientAssign (ID info) (Role info))
                    (client_Assign E (ID info) (Role info)))) ;;;
    (λ d, (mkDaemon (d_state d) (Some info) (client_removed d), Ok tt)) ;;;
    lift (wrap "Cluster database initialization failed"
            (Cluster_Transaction
               (wrap "Failed to change role for the node"
                  (tx_write (λ tx,
                     (if decide (Role info = RaftVoter)
                      then NodeAddRole else NodeRemoveRole)
                       tx (cluster_GetNodeID G) ClusterRoleDatabase))))) ;;;
    lift (λ s, notifyNodesUpdate nodes (ID info) (gateway_cert s) s)
  end.

(** ** Leave *)

(** The loop of [Leave] that looks for the raft node to remove:
    [info = &nodes[i]] and [break] at the first entry with the address. *)
Fixpoint Leave_find (nodes : list RaftNode) (address : string) : option RaftNode :=
  match nodes with
  | [] => None
  | node :: rest =>
    if decide (Address node = address) then Some node
    else Leave_find rest address
  end.

(** Leave a cluster: the node leaves the raft cluster only, it is not
    removed from the database. Upon success, return the address of the
    leaving node. *)
Definition Leave (name : string) (force : bool) : D string :=
  address <~ lift (Cluster_Transaction (Leave_check name force)) ;;
  nodes <~ lift (call (gateway_currentRaftNodes E)) ;;
  match Leave_find nodes address with
  | None => retD address
  | Some info =>
    lift (wrap "Failed to connect to cluster leader"
            (extern EvGetClient (gateway_getClient E))) ;;;
    (λ d, (mkDaemon (d_state d) (gateway_info d) (client_removed d ++ [ID info]),
           go_return tt (errors_Wrap (client_Remove G (ID info))
                           "Failed to leave the cluster"))) ;;;
    retD address
  end.

End Gateway.

(** ** The further methods on the in-memory databases *)

Module MemMembers.

Import Mem.

Definition by_name (d : ClusterDB) (name : string) : NodeInfo.t * error :=
  match List.find (λ r, bool_decide (pending r = false) &&
                        bool_decide (NodeInfo.Name (info r) = name)) (rows d) with
  | Some r => (info r, None)
  | None => (NodeInfo.zero, Some "No such object")
  end.

(** Modelled from the spec: the replicated database API of package [db]
    that [Assign], [Leave] and [Purge] consume. The transaction acts as
    the member with ID [self] ([NodeID(id)] binds that identity);
    [NodeIsEmpty] gives the message of the members listed in [busy],
    those that still hold instances or images; [NodeRemove] deletes the
    row. *)
Definition cluster_tx_members (self : Z) (busy : list (Z * string))
    : ClusterTxMembers ClusterDB := {|
  NodeAddress d :=
    match List.find (λ r, bool_decide (NodeInfo.ID (info r) = self)) (rows d) with
    | Some r => (NodeInfo.Address (info r), None)
    | None => ("", Some "No such object")
    end;
  NodeByName := by_name;
  NodeIsEmpty d id :=
    match List.find (λ b, bool_decide (b.1 = id)) busy with
    | Some b => (b.2, None)
    | None => ("", None)
    end;
  NodeClear d id := (d, None);
  NodeRemove d id :=
    if existsb (λ r, bool_decide (NodeInfo.ID (info r) = id)) (rows d)
    then (set_rows d (filter (λ r, NodeInfo.ID (info r) ≠ id) (rows d)), None)
    else (d, Some "No such object")
|}.

(** Modelled from the spec: the messages of this registry hold no
    formatting verb, so that [fmt.Errorf] leaves them as they are. *)
#[global] Instance fmt : Fmt := {
  fmt_Sprintf message := message
}.

(** A gateway that runs a dqlite node or not, on the member with ID
    [self], with a client whose [Remove] succeeds. *)
Definition gateway_env (running : bool) (self : Z) : GatewayEnv := {|
  gateway_IsDqliteNode := running;
  cluster_GetNodeID := self;
  client_Remove := λ _, None
|}.

End MemMembers.

(** ** Definitions used to state the properties *)

(** The number of members of a roster that hold a role. *)
Definition count_role (r : RaftRole) (nodes : list RaftNode) : nat :=
  length (filter (λ n, Role n = r) nodes).

Section Frames.

Context {NodeDB ClusterDB : Type}.

(** A computation that leaves [state.OS.VarDir] and the files alone. *)
Definition keeps_files {A} (m : @M NodeDB ClusterDB A) : Prop :=
  ∀ s s' r, m s = (s', r) → VarDir s' = VarDir s ∧ fs s' = fs s.

(** Two states that differ at most in the trace of outside calls. *)
Definition same_stores (s s' : @State NodeDB ClusterDB) : Prop :=
  VarDir s' = VarDir s ∧ fs s' = fs s ∧ node_db s' = node_db s ∧
  cluster_db s' = cluster_db s ∧ gateway_cert s' = gateway_cert s.

End Frames.

#[global] Instance outcome_eq_dec {A} `{EqDecision A} : EqDecision (outcome A).
Proof. solve_decision. Defined.

Section Expected.

Context {ClusterDB : Type} `{!ClusterTx ClusterDB}.

(** What the liveness check of a member answers on a registry: online
    when the heartbeat is within the offline threshold or the probe
    succeeds, an error when the threshold or the row cannot be read. *)
Definition liveness (E : Env) (db : ClusterDB) (cert : CertInfo)
    (address : string) : outcome bool :=
  match NodeOfflineThreshold db with
  | (_, Some e) => Err e
  | (threshold, None) =>
    match NodeByAddress db address with
    | (_, Some e) => Err e
    | (node, None) =>
      Ok (bool_decide (now E - threshold ≤ NodeInfo.Heartbeat node)%Z
          || hasConnectivity E cert address)
    end
  end.

(** Where the scan of [Handover] stops: at the first entry that is not a
    voter, is not the leaving member, and whose liveness check does not
    answer offline. *)
Definition Handover_stops (E : Env) (db : ClusterDB) (cert : CertInfo)
    (address : string) (n : RaftNode) : Prop :=
  Role n ≠ RaftVoter ∧ Address n ≠ address ∧
  liveness E db cert (Address n) ≠ Ok false.

#[global] Instance Handover_stops_dec E db cert address n :
  Decision (Handover_stops E db cert address n).
Proof. unfold Handover_stops. apply _. Defined.

(** What [Handover] is to return for a leaving voter, in the words of the
    specification: the first entry that is not a voter, not the leaving
    member and online, promoted to voter in the returned roster; nothing
    when there is none; the error of the liveness check that failed on
    the way. The entries of [nodes] are numbered from [i] in [roster]. *)
Definition Handover_expected_from (E : Env) (db : ClusterDB) (cert : CertInfo)
    (address : string) (roster : list RaftNode) (i : nat) (nodes : list RaftNode)
    : outcome (string * option (list RaftNode)) :=
  match list_find (Handover_stops E db cert address) nodes with
  | None => Ok ("", None)
  | Some (k, n) =>
    match liveness E db cert (Address n) with
    | Ok _ => Ok (Address n, Some (alter (λ m, set_Role m RaftVoter) (i + k) roster))
    | Err e => Err (("Failed to check if " +:+ Address n +:+ " is online") +:+ ": " +:+ e)
    | Panic p => Panic p
    end
  end.

Definition Handover_expected (E : Env) (db : ClusterDB) (cert : CertInfo)
    (address : string) (roster : list RaftNode)
    : outcome (string * option (list RaftNode)) :=
  Handover_expected_from E db cert address roster 0 roster.

End Expected.

(** A roster member that [Rebalance] demotes: its heartbeat is stale, it
    is not a spare already, and the connection attempt fails. *)
Definition Rebalance_unreachable (E : Env) (nodesByAddress : gmap string NodeInfo.t)
    (offlineThreshold : Z) (cert : CertInfo) (info : RaftNode) : bool :=
  let node := Rebalance_lookup nodesByAddress (Address info) in
  NodeInfo.IsOffline (now E) node offlineThreshold &&
  bool_decide (Role info ≠ RaftSpare) &&
  bool_decide (Connect_GetServer E (NodeInfo.Address node) cert ≠ None).

(** The roster after the demotions. *)
Definition Rebalance_working (E : Env) (nodesByAddress : gmap string NodeInfo.t)
    (offlineThreshold : Z) (cert : CertInfo) (roster : list RaftNode)
    : list RaftNode :=
  map (λ info,
         if Rebalance_unreachable E nodesByAddress offlineThreshold cert info
         then set_Role info RaftSpare else info) roster.

(** The addresses of the members of a roster that hold a role. *)
Definition addresses_of (r : RaftRole) (nodes : list RaftNode) : list string :=
  map Address (filter (λ n, Role n = r) nodes).

(** What [Rebalance] proposes once it has settled on a role and on the
    candidates, in order of preference: the first candidate, looked up in
    the registry, and the roster with the first member at that address
    given the role; no promotion when there is no candidate or the
    registry gives no address for it. *)
Definition Rebalance_proposal (nodesByAddress : gmap string NodeInfo.t)
    (working : list RaftNode) (role : RaftRole) (candidates : list string)
    : string * option (list RaftNode) :=
  let address := Rebalance_pick nodesByAddress candidates in
  if decide (address = "") then ("", Some working)
  else (address, Some (Rebalance_assign working address role)).

(** ** Panics *)

Section Panics.

Context {NodeDB ClusterDB : Type}.

(** An operation that returns from every state. *)
Definition never_panics {A} (m : @M NodeDB ClusterDB A) : Prop :=
  ∀ s s' p, m s ≠ (s', Panic p).

End Panics.

(** ** The demotions of Rebalance *)

(** The calls that [Rebalance] makes for one member of the roster: a
    probe when the member is offline and not a spare and, when the probe
    fails, the demotion through the local dqlite client. *)
Definition Rebalance_calls (E : Env) (nodesByAddress : gmap string NodeInfo.t)
    (offlineThreshold : Z) (cert : CertInfo) (info : RaftNode) : list Event :=
  let node := Rebalance_lookup nodesByAddress (Address info) in
  if NodeInfo.IsOffline (now E) node offlineThreshold &&
     bool_decide (Role info ≠ RaftSpare)
  then EvConnect (NodeInfo.Address node) ::
       (if Rebalance_unreachable E nodesByAddress offlineThreshold cert info
        then [EvGetClient; EvClientAssign (ID info) RaftSpare] else [])
  else [].

(** The registry once the [database] role has been taken from the rows of
    the demoted members. *)
Definition Rebalance_registry `{!ClusterTx ClusterDB} (E : Env)
    (nodesByAddress : gmap string NodeInfo.t) (offlineThreshold : Z)
    (cert : CertInfo) (db : ClusterDB) (roster : list RaftNode) : ClusterDB :=
  foldl (λ db info,
           if Rebalance_unreachable E nodesByAddress offlineThreshold cert info
           then (NodeRemoveRole db
                   (NodeInfo.ID (Rebalance_lookup nodesByAddress (Address info)))
                   ClusterRoleDatabase).1
           else db) db roster.

(** ** The entries of List *)

Section Entries.

Context `{!Platform}.

(** The entry of [List] for a registry row, status left aside. *)
Definition List_entry_of (row : NodeInfo.t) (m : ClusterMember) : Prop :=
  ServerName m = NodeInfo.Name row ∧
  URL m = "https://" +:+ NodeInfo.Address row ∧
  Database m = bool_decide (ClusterRoleDatabase ∈ NodeInfo.Roles row) ∧
  MemberRoles m = NodeInfo.Roles row ∧
  osarch_ArchitectureName (NodeInfo.Architecture row) = (MemberArchitecture m, None).

(** The four statuses of an entry and what each says of the row. *)
Definition List_status_of (E : Env) (offlineThreshold : Z) (row : NodeInfo.t)
    (m : ClusterMember) : Prop :=
  (Status m = "Broken" ∧ Message m = "inconsistent version")
  ∨ (Status m = "Offline" ∧
     Message m = "no heartbeat since " +:+
                 fmt_duration (now E - NodeInfo.Heartbeat row) ∧
     NodeInfo.IsOffline (now E) row offlineThreshold = true)
  ∨ (Status m = "Online" ∧ Message m = "fully operational" ∧
     NodeInfo.IsOffline (now E) row offlineThreshold = false)
  ∨ (Status m = "Blocked" ∧ Message m = "waiting for other nodes to be upgraded" ∧
     NodeInfo.IsOffline (now E) row offlineThreshold = false).

(** A registry row whose architecture has no name. *)
Definition List_unnamed (row : NodeInfo.t) : Prop :=
  (osarch_ArchitectureName (NodeInfo.Architecture row)).2 ≠ None.

#[global] Instance List_unnamed_dec row : Decision (List_unnamed row).
Proof. unfold List_unnamed. apply _. Defined.

End Entries.

(** ** Concrete clusters *)

Module Cluster.

Import Mem.

Definition a1 : string := "10.0.0.1:8443".
Definition a2 : string := "10.0.0.2:8443".
Definition a3 : string := "10.0.0.3:8443".
Definition a4 : string := "10.0.0.4:8443".
Definition a5 : string := "10.0.0.5:8443".

(** A node that has never been clustered, with its install-time row. *)
Definition fresh : State :=
  state ∅ (mkNodeDB a1 []) [member 1 "none" "0.0.0.0" 990].

(** The same node after [Bootstrap]. *)
Definition bootstrapped : State := (Bootstrap (env []) "n1" fresh).1.

(** Two voters; the registry knows both. *)
Definition two_voters : list RaftNode :=
  [mkRaftNode 1 a1 RaftVoter; mkRaftNode 2 a2 RaftVoter].
Definition two_members : State :=
  state ∅ (mkNodeDB a1 two_voters) [member 1 "n1" a1 990; member 2 "n2" a2 990].

Definition joining : State :=
  state ∅ (mkNodeDB a2 [])
    [member 1 "n1" a1 990; mkRow (NodeInfo.mk 2 "n2" a2 1 1 0 [] 0) true].


(** A one-voter roster, asked about an address it does not hold. *)
Definition lone_voter : list RaftNode := [mkRaftNode 1 a1 RaftVoter].
Definition lone_voter_state : State :=
  state ∅ (mkNodeDB a1 lone_voter) [member 1 "n1" a1 990].

(** Two voters and two spares; the registry has no row for the first
    spare. *)
Definition spare_without_row : list RaftNode :=
  [mkRaftNode 1 a1 RaftVoter; mkRaftNode 2 a2 RaftVoter;
   mkRaftNode 3 a3 RaftSpare; mkRaftNode 4 a4 RaftSpare].
Definition spare_without_row_state : State :=
  state ∅ (mkNodeDB a1 spare_without_row)
    [member 1 "n1" a1 990; member 2 "n2" a2 990; member 4 "n4" a4 990].

(** Three voters, a stand-by and a spare; the third voter has a stale
    heartbeat and cannot be reached. *)
Definition stale_voter : list RaftNode :=
  [mkRaftNode 1 a1 RaftVoter; mkRaftNode 2 a2 RaftVoter; mkRaftNode 3 a3 RaftVoter;
   mkRaftNode 4 a4 RaftStandBy; mkRaftNode 5 a5 RaftSpare].
Definition stale_voter_state : State :=
  state ∅ (mkNodeDB a1 stale_voter)
    [member 1 "n1" a1 990; member 2 "n2" a2 990; member 3 "n3" a3 100;
     member 4 "n4" a4 990; member 5 "n5" a5 990].

(** A voter and a stand-by; the registry has no row for the stand-by. *)
Definition standby_without_row : list RaftNode :=
  [mkRaftNode 1 a1 RaftVoter; mkRaftNode 2 a2 RaftStandBy].
Definition standby_without_row_state : State :=
  state ∅ (mkNodeDB a1 standby_without_row) [member 1 "n1" a1 990].

(** A voter, a stand-by with a stale heartbeat that no probe reaches, and
    a stand-by with a recent heartbeat. *)
Definition two_standbys : list RaftNode :=
  [mkRaftNode 1 a1 RaftVoter; mkRaftNode 2 a2 RaftStandBy;
   mkRaftNode 3 a3 RaftStandBy].
Definition two_standbys_state : State :=
  state ∅ (mkNodeDB a1 two_standbys)
    [member 1 "n1" a1 990; member 2 "n2" a2 100; member 3 "n3" a3 990].

(** A member with a stale heartbeat in a world where probes succeed. *)
Definition reachable : Env := {|
  now := 1000;
  gateway_currentRaftNodes := (two_standbys, None);
  cluster_EnterExclusive := None;
  gateway_Shutdown := None;
  gateway_init := None;
  gateway_waitLeadership := None;
  gateway_getClient := None;
  client_FindLeader := None;
  client_Add := λ _, None;
  client_Assign := λ _ _, None;
  Connect_GetServer := λ _ _, None;
  hasConnectivity := λ _ _, true;
  os_Symlink := λ _ _, None;
  os_RemoveAll := λ _, None
|}.

(** A cluster database whose registry is empty. *)
Definition empty_registry : State := state ∅ (mkNodeDB a1 []) [].

End Cluster.

(** ** Further concrete clusters *)

Module Members.

Import Mem MemMembers Cluster.

(** A node that was never clustered but has a stray [cluster.key]. *)
Definition leftover_key : State :=
  state {[ "/var/lib/lxd/cluster.key" := RegularFile ]} (mkNodeDB a1 [])
    [member 1 "none" "0.0.0.0" 990].

(** A node that was never clustered and has a [server.ca]. *)
Definition with_ca : State :=
  state {[ "/var/lib/lxd/server.ca" := RegularFile ]} (mkNodeDB a1 [])
    [member 1 "none" "0.0.0.0" 990].

(** A node whose local database is clean but whose registry has a second
    row. *)
Definition leftover_row : State :=
  state ∅ (mkNodeDB a1 []) [member 1 "none" "0.0.0.0" 990; member 2 "n2" a2 990].

(** A world in which the gateway cannot read the roster. *)
Definition no_roster : Env := {|
  now := 1000;
  gateway_currentRaftNodes := ([], Some "no leader");
  cluster_EnterExclusive := None;
  gateway_Shutdown := None;
  gateway_init := None;
  gateway_waitLeadership := None;
  gateway_getClient := None;
  client_FindLeader := None;
  client_Add := λ _, None;
  client_Assign := λ _ _, None;
  Connect_GetServer := λ _ _, Some "connection refused";
  hasConnectivity := λ _ _, false;
  os_Symlink := λ _ _, None;
  os_RemoveAll := λ _, None
|}.

(** Three voters and two stand-bys, all with a recent heartbeat. *)
Definition full_roster : list RaftNode :=
  [mkRaftNode 1 a1 RaftVoter; mkRaftNode 2 a2 RaftVoter; mkRaftNode 3 a3 RaftVoter;
   mkRaftNode 4 a4 RaftStandBy; mkRaftNode 5 a5 RaftStandBy].
Definition full_state : State :=
  state ∅ (mkNodeDB a1 full_roster)
    [member 1 "n1" a1 990; member 2 "n2" a2 990; member 3 "n3" a3 990;
     member 4 "n4" a4 990; member 5 "n5" a5 990].

(** Two members, the second on an architecture that has no name. *)
Definition unnamed_architecture : Platform := {|
  filepath_Join := filepath_Join;
  GlobalDatabaseDir := GlobalDatabaseDir;
  version_Version := version_Version;
  fmt_v := fmt_v;
  fmt_duration := fmt_duration;
  osarch_ArchitectureName a :=
    if decide (a = 0%Z) then ("x86_64", None) else ("", Some "unknown architecture");
  NodeInfo_Version := NodeInfo_Version;
  util_CompareVersions := util_CompareVersions
|}.
Definition foreign_member : State :=
  state ∅ (mkNodeDB a1 two_voters)
    [member 1 "n1" a1 990; mkRow (NodeInfo.mk 2 "n2" a2 1 1 990 [] 7) false].

(** The registry as the member with ID 1 or 2 sees it, no member holding
    anything, and as the member with ID 2 sees it while it holds an
    instance. *)
Definition as_first : ClusterTxMembers ClusterDB := cluster_tx_members 1 [].
Definition as_second : ClusterTxMembers ClusterDB := cluster_tx_members 2 [].
Definition busy_second : ClusterTxMembers ClusterDB :=
  cluster_tx_members 2 [(2%Z, "Node still has the following containers: c1")].

(** The roster that makes the second member a stand-by. *)
Definition second_standby : list RaftNode :=
  [mkRaftNode 1 a1 RaftVoter; mkRaftNode 2 a2 RaftStandBy].

(** A daemon whose gateway has no identity yet. *)
Definition daemon (s : @State NodeDB ClusterDB) : @Daemon NodeDB ClusterDB :=
  mkDaemon s None [].

End Members.

Section Properties.

Context {NodeDB ClusterDB : Type} `{!NodeTx NodeDB} `{!ClusterTx ClusterDB}.
Context `{!Platform}.

Implicit Types s t : @State NodeDB ClusterDB.

(** ** Reasoning about the monad *)

Lemma bind_Ok {A B} (m : @M NodeDB ClusterDB A) (k : A → @M NodeDB ClusterDB B) s s' (b : B) :
  bind m k s = (s', Ok b) →
  ∃ s1 a, m s = (s1, Ok a) ∧ k a s1 = (s', Ok b).
Proof.
  unfold bind. destruct (m s) as [s1 [a|e|p]]; intros Hk; try discriminate.
  eauto.
Qed.

Lemma wrap_Ok {A} msg (m : @M NodeDB ClusterDB A) s s' (a : A) :
  wrap msg m s = (s', Ok a) → m s = (s', Ok a).
Proof.
  unfold wrap. destruct (m s) as [s1 [x|e|p]]; intros Hm;
    try discriminate; assumption.
Qed.

Lemma Cluster_Transaction_Ok {A} (f : @M NodeDB ClusterDB A) s s' (a : A) :
  Cluster_Transaction f s = (s', Ok a) → f s = (s', Ok a).
Proof.
  unfold Cluster_Transaction. destruct (f s) as [s1 [x|e|p]]; intros Hf;
    try discriminate; assumption.
Qed.

Lemma Node_Transaction_Ok {A} (f : @M NodeDB ClusterDB A) s s' (a : A) :
  Node_Transaction f s = (s', Ok a) → f s = (s', Ok a).
Proof.
  unfold Node_Transaction. destruct (f s) as [s1 [x|e|p]]; intros Hf;
    try discriminate; assumption.
Qed.

Lemma set_cluster_db_id s : set_cluster_db s (cluster_db s) = s.
Proof. destruct s; reflexivity. Qed.

(** ** Counting roles *)

Lemma count_role_cons r n nodes :
  count_role r (n :: nodes) =
  (if decide (Role n = r) then 1 else 0) + count_role r nodes.
Proof.
  unfold count_role. rewrite filter_cons. destruct (decide (Role n = r)); reflexivity.
Qed.

Lemma Accept_count_spec nodes voters standbys :
  Accept_count nodes voters standbys =
  (voters + count_role RaftVoter nodes, standbys + count_role RaftStandBy nodes).
Proof.
  revert voters standbys.
  induction nodes as [|n nodes IH]; intros voters standbys; simpl.
  - unfold count_role; simpl. f_equal; lia.
  - rewrite !count_role_cons.
    destruct (Role n) eqn:Hrole; rewrite IH; simpl; f_equal; lia.
Qed.

(** ** The check made by Accept *)

Lemma membershipCheckClusterStateForAccept_loop_None nodes name address schema api :
  membershipCheckClusterStateForAccept_loop nodes name address schema api = None ↔
  Forall (λ n, NodeInfo.Name n ≠ name ∧ NodeInfo.Address n ≠ address ∧
               NodeInfo.Schema n = schema ∧ NodeInfo.APIExtensions n = api) nodes.
Proof.
  induction nodes as [|n nodes IH]; simpl.
  - split; [constructor | reflexivity].
  - repeat case_decide; rewrite ?Forall_cons; unfold fmt_Errorf;
      split; try discriminate; try tauto.
Qed.

Lemma not_Forall_accept nodes name address (schema api : Z) :
  ¬ Forall (λ n, NodeInfo.Name n ≠ name ∧ NodeInfo.Address n ≠ address ∧
                 NodeInfo.Schema n = schema ∧ NodeInfo.APIExtensions n = api) nodes ↔
  Exists (λ n, NodeInfo.Name n = name) nodes
  ∨ Exists (λ n, NodeInfo.Address n = address) nodes
  ∨ Exists (λ n, NodeInfo.Schema n ≠ schema) nodes
  ∨ Exists (λ n, NodeInfo.APIExtensions n ≠ api) nodes.
Proof.
  induction nodes as [|n nodes IH].
  - rewrite !Exists_nil. split; [intros Hn; destruct Hn; constructor | tauto].
  - rewrite Forall_cons, !Exists_cons.
    destruct (decide (NodeInfo.Name n = name)); [tauto|].
    destruct (decide (NodeInfo.Address n = address)); [tauto|].
    destruct (decide (NodeInfo.Schema n = schema)); [|tauto].
    destruct (decide (NodeInfo.APIExtensions n = api)); [|tauto].
    tauto.
Qed.

(** C8. [membershipCheckClusterStateForAccept] on the registry rows
    [nodes] fails exactly when the registry is a single row with address
    0.0.0.0, or some member has the given name, or the given address, or
    another schema, or another API count; and when it fails, [Accept]
    returns that error before anything is inserted. *)
Theorem checkClusterForAccept_fails_iff
    (E : Env) s nodes name address schema api arch :
  Nodes (cluster_db s) = (nodes, None) →
  (membershipCheckClusterStateForAccept (cluster_db s) name address schema api ≠ None ↔
     (∃ n, nodes = [n] ∧ NodeInfo.Address n = "0.0.0.0")
     ∨ Exists (λ n, NodeInfo.Name n = name) nodes
     ∨ Exists (λ n, NodeInfo.Address n = address) nodes
     ∨ Exists (λ n, NodeInfo.Schema n ≠ schema) nodes
     ∨ Exists (λ n, NodeInfo.APIExtensions n ≠ api) nodes)
  ∧ (∀ e, membershipCheckClusterStateForAccept (cluster_db s) name address schema api
            = Some e →
          name ≠ "" → address ≠ "" →
          Accept E name address schema api arch s = (s, Err e)).
Proof.
  intros HNodes. split.
  - unfold membershipCheckClusterStateForAccept. rewrite HNodes.
    destruct (bool_decide (length nodes = 1) &&
              bool_decide (NodeInfo.Address <$> nodes !! 0 = Some "0.0.0.0")) eqn:Hone.
    + apply andb_true_iff in Hone as [Hlen Haddr].
      apply bool_decide_eq_true in Hlen, Haddr.
      split; [intros _|discriminate].
      left. destruct nodes as [|n [|? ?]]; try discriminate.
      exists n. split; [reflexivity|]. simpl in Haddr. congruence.
    + rewrite <- not_Forall_accept,
        <- membershipCheckClusterStateForAccept_loop_None.
      split; [tauto|]. intros [(n & -> & Hn)|Hloop]; [|assumption].
      simpl in Hone. rewrite Hn in Hone. discriminate.
  - intros e He Hname Haddress. unfold Accept.
    destruct (decide (name = "")); [contradiction|].
    destruct (decide (address = "")); [contradiction|].
    unfold bind at 1, Cluster_Transaction, bind at 1, tx_check.
    rewrite He. simpl. rewrite set_cluster_db_id. reflexivity.
Qed.

(** ** Accept *)

(** C4. When [Accept] passes its checks and the registry insert gives
    [id], it returns the current roster with exactly one node appended,
    whose role is voter if the roster has more than one member and fewer
    than [MaxVoters] voters, otherwise stand-by if it has fewer than
    [MaxStandBys] stand-bys, otherwise spare. *)
Theorem Accept_appends_by_capacity
    (E : Env) s name address schema api arch nodes id db1 db2 :
  name ≠ "" →
  address ≠ "" →
  membershipCheckClusterStateForAccept (cluster_db s) name address schema api = None →
  NodeAddWithArch (cluster_db s) name address arch = ((id, db1), None) →
  NodePending db1 id true = (db2, None) →
  gateway_currentRaftNodes E = (nodes, None) →
  Accept E name address schema api arch s =
    (set_cluster_db s db2,
     Ok (nodes ++
         [mkRaftNode (uint64 id) address
            (if bool_decide (1 < length nodes ∧ count_role RaftVoter nodes < MaxVoters)
             then RaftVoter
             else if bool_decide (count_role RaftStandBy nodes < MaxStandBys)
             then RaftStandBy
             else RaftSpare)])).
Proof.
  intros Hname Haddress Hcheck Hadd Hpending Hroster. unfold Accept.
  destruct (decide (name = "")); [contradiction|].
  destruct (decide (address = "")); [contradiction|].
  unfold bind, Cluster_Transaction, wrap, tx_check, tx_insert, tx_write, call, ret.
  rewrite Hcheck. simpl. rewrite Hadd. simpl. rewrite Hpending. simpl.
  rewrite Hroster. simpl. rewrite Accept_count_spec. simpl.
  f_equal. f_equal. f_equal.
  repeat case_bool_decide; simpl; try reflexivity; tauto.
Qed.

(** ** Bootstrap *)

Lemma keeps_files_bind {A B} (m : @M NodeDB ClusterDB A) (k : A → @M NodeDB ClusterDB B) :
  keeps_files m → (∀ a, keeps_files (k a)) → keeps_files (bind m k).
Proof.
  intros Hm Hk s s' r. unfold bind.
  destruct (m s) as [s1 [a|e|p]] eqn:Hms; intros Hr.
  - destruct (Hm _ _ _ Hms) as [Hd Hf], (Hk a _ _ _ Hr) as [Hd' Hf'].
    split; congruence.
  - injection Hr as <- <-. eapply Hm; eassumption.
  - injection Hr as <- <-. eapply Hm; eassumption.
Qed.

Lemma keeps_files_wrap {A} msg (m : @M NodeDB ClusterDB A) : keeps_files m → keeps_files (wrap msg m).
Proof.
  intros Hm s s' r. unfold wrap.
  destruct (m s) as [s1 [a|e|p]] eqn:Hms; intros [= <- <-]; eapply Hm; eassumption.
Qed.

Lemma keeps_files_Cluster_Transaction {A} (m : @M NodeDB ClusterDB A) :
  keeps_files m → keeps_files (Cluster_Transaction m).
Proof.
  intros Hm s s' r. unfold Cluster_Transaction.
  destruct (m s) as [s1 [a|e|p]] eqn:Hms; intros [= <- <-];
    destruct (Hm _ _ _ Hms) as [? ?]; auto.
Qed.

Lemma keeps_files_Node_Transaction {A} (m : @M NodeDB ClusterDB A) :
  keeps_files m → keeps_files (Node_Transaction m).
Proof.
  intros Hm s s' r. unfold Node_Transaction.
  destruct (m s) as [s1 [a|e|p]] eqn:Hms; intros [= <- <-];
    destruct (Hm _ _ _ Hms) as [? ?]; auto.
Qed.

Lemma keeps_files_ret {A} (a : A) : keeps_files (@ret NodeDB ClusterDB A a).
Proof. intros s s' r [= <- <-]; auto. Qed.

Lemma keeps_files_call {A} (x : A * error) : keeps_files (@call NodeDB ClusterDB A x).
Proof. intros s s' r [= <- <-]; auto. Qed.

Lemma keeps_files_extern ev err : keeps_files (@extern NodeDB ClusterDB ev err).
Proof. intros s s' r [= <- <-]; auto. Qed.

Lemma keeps_files_tx_read {A} (op : ClusterDB → A * error) :
  keeps_files (@tx_read NodeDB ClusterDB A op).
Proof. intros s s' r [= <- <-]; auto. Qed.

Lemma keeps_files_tx_write (op : ClusterDB → ClusterDB * error) :
  keeps_files (@tx_write NodeDB ClusterDB op).
Proof.
  intros s s' r. unfold tx_write. destruct (op (cluster_db s)).
  intros [= <- <-]; auto.
Qed.

Lemma keeps_files_tx_check (op : ClusterDB → error) :
  keeps_files (@tx_check NodeDB ClusterDB op).
Proof. intros s s' r [= <- <-]; auto. Qed.

Lemma keeps_files_ntx_read {A} (op : NodeDB → A * error) :
  keeps_files (@ntx_read NodeDB ClusterDB A op).
Proof. intros s s' r [= <- <-]; auto. Qed.

Lemma keeps_files_ntx_write (op : NodeDB → NodeDB * error) :
  keeps_files (@ntx_write NodeDB ClusterDB op).
Proof.
  intros s s' r. unfold ntx_write. destruct (op (node_db s)).
  intros [= <- <-]; auto.
Qed.

Lemma keeps_files_ntx_check (op : NodeDB → error) :
  keeps_files (@ntx_check NodeDB ClusterDB op).
Proof. intros s s' r [= <- <-]; auto. Qed.

Ltac solve_keeps_files :=
  repeat first
    [ apply keeps_files_bind; [|intros ?]
    | apply keeps_files_wrap
    | apply keeps_files_Cluster_Transaction
    | apply keeps_files_Node_Transaction
    | apply keeps_files_ret
    | apply keeps_files_call
    | apply keeps_files_extern
    | apply keeps_files_tx_read
    | apply keeps_files_tx_write
    | apply keeps_files_tx_check
    | apply keeps_files_ntx_read
    | apply keeps_files_ntx_write
    | apply keeps_files_ntx_check ].

Lemma PathExists_insert (f : gmap string FsEntry) name entry p :
  PathExists f p = true → PathExists (<[name := entry]> f) p = true.
Proof.
  unfold PathExists. intros Hp. apply bool_decide_eq_true in Hp.
  apply bool_decide_eq_true. destruct (decide (name = p)) as [->|Hne].
  - rewrite lookup_insert_eq. eauto.
  - rewrite lookup_insert_ne by assumption. assumption.
Qed.

Lemma Symlink_at_files (E : Env) oldname newname s s' r :
  Symlink_at E oldname newname s = (s', r) →
  VarDir s' = VarDir s ∧
  (∀ p, PathExists (fs s) p = true → PathExists (fs s') p = true) ∧
  (r = Ok tt → PathExists (fs s') newname = true).
Proof.
  unfold Symlink_at.
  destruct (PathExists (fs s) newname) eqn:Hnew.
  - intros [= <- <-]. repeat split; auto; discriminate.
  - destruct (os_Symlink E oldname newname); intros [= <- <-]; simpl.
    + repeat split; auto; discriminate.
    + repeat split.
      * intros p. apply PathExists_insert.
      * intros _. unfold PathExists. apply bool_decide_eq_true.
        rewrite lookup_insert_eq. eauto.
Qed.

(** The symlink loop only adds files. *)
Lemma Bootstrap_symlinks_grows (E : Env) exts s s' r :
  Bootstrap_symlinks E exts s = (s', r) →
  VarDir s' = VarDir s ∧
  (∀ p, PathExists (fs s) p = true → PathExists (fs s') p = true).
Proof.
  revert s. induction exts as [|ext exts IH]; intros s; simpl.
  - intros [= <- <-]. auto.
  - destruct (bool_decide (ext = ".ca") &&
              negb (PathExists (fs s) (filepath_Join (VarDir s) "server.ca"))).
    + apply IH.
    + unfold bind, wrap.
      destruct (Symlink_at E _ _ s) as [s1 [[]|e|p]] eqn:Hlink;
        apply Symlink_at_files in Hlink as (Hdir & Hgrow & _).
      * intros Hrest. apply IH in Hrest as [-> Hgrow']. split; auto.
      * intros [= <- <-]. auto.
      * intros [= <- <-]. auto.
Qed.

(** After the symlink loop has succeeded, [cluster.crt] exists. *)
Lemma Bootstrap_symlinks_crt (E : Env) s s' :
  Bootstrap_symlinks E [".crt"; ".key"; ".ca"] s = (s', Ok tt) →
  VarDir s' = VarDir s ∧
  PathExists (fs s') (filepath_Join (VarDir s) "cluster.crt") = true.
Proof.
  cbn [Bootstrap_symlinks]. rewrite bool_decide_eq_false_2 by discriminate.
  cbn [andb]. unfold bind at 1, wrap at 1.
  destruct (Symlink_at E _ _ s) as [s1 [[]|e|p]] eqn:Hlink; try discriminate.
  apply Symlink_at_files in Hlink as (Hdir & _ & Hnew).
  intros Hrest.
  apply (Bootstrap_symlinks_grows E [".key"; ".ca"]) in Hrest as [Hdir' Hgrow].
  split; [congruence|]. apply Hgrow, Hnew. reflexivity.
Qed.

(** The closing transaction of [Bootstrap] only reads. *)
Lemma Bootstrap_probe_keeps_files :
  keeps_files (wrap "cluster database initialization failed"
    (Cluster_Transaction (bind (@tx_read NodeDB ClusterDB _ Nodes) (λ _, ret tt)))).
Proof. solve_keeps_files. Qed.

(** A successful [Bootstrap] leaves [cluster.crt] behind. *)
Lemma Bootstrap_leaves_cert (E : Env) name s s' :
  Bootstrap E name s = (s', Ok tt) →
  name ≠ "" ∧
  PathExists (fs s') (filepath_Join (VarDir s') "cluster.crt") = true.
Proof.
  unfold Bootstrap. destruct (decide (name = "")); [discriminate|].
  intros Hrun. split; [assumption|].
  apply bind_Ok in Hrun as (s1 & [] & Hcheck & Hrun).
  apply bind_Ok in Hrun as (s2 & address & Hnode & Hrun).
  apply bind_Ok in Hrun as (s3 & [] & Hcluster & Hrun).
  apply bind_Ok in Hrun as (s4 & [] & Hlock & Hrun).
  apply bind_Ok in Hrun as (s5 & [] & Hdown & Hrun).
  apply bind_Ok in Hrun as (s6 & [] & Hinit & Hrun).
  apply bind_Ok in Hrun as (s7 & [] & Hlead & Hrun).
  apply bind_Ok in Hrun as (s8 & [] & Hlinks & Hrun).
  apply Bootstrap_symlinks_crt in Hlinks as [Hdir Hcrt].
  assert (Hlast : VarDir s' = VarDir s8 ∧ fs s' = fs s8)
    by (eapply Bootstrap_probe_keeps_files; eassumption).
  destruct Hlast as [-> ->]. rewrite Hdir. exact Hcrt.
Qed.

(** C7. After a successful [Bootstrap], a second [Bootstrap] (whatever the
    outside world answers) fails on the leftover cluster certificate,
    before any change: the local database, the registry, the files and
    the trace of outside calls are those the first call left. *)
Theorem Bootstrap_twice_fails (E E' : Env) name name' s s' :
  Bootstrap E name s = (s', Ok tt) →
  name' ≠ "" →
  Bootstrap E' name' s' =
    (s', Err "inconsistent state: found leftover cluster certificate").
Proof.
  intros Hfirst Hname'. apply Bootstrap_leaves_cert in Hfirst as [_ Hcrt].
  unfold Bootstrap. destruct (decide (name' = "")); [contradiction|].
  unfold bind at 1. unfold membershipCheckNoLeftoverClusterCert.
  cbn [membershipCheckNoLeftoverClusterCert_loop]. rewrite Hcrt. reflexivity.
Qed.

(** ** Liveness *)

(** C9. For a member with a registry row, [isMemberOnline] answers online
    when the last heartbeat is within the offline threshold, and then makes
    no probe (the state, trace included, is unchanged); when the heartbeat
    is stale it makes one connectivity probe and answers online exactly
    when the probe succeeds. *)
Theorem isMemberOnline_classifies (E : Env) cert address s threshold node :
  NodeOfflineThreshold (cluster_db s) = (threshold, None) →
  NodeByAddress (cluster_db s) address = (node, None) →
  isMemberOnline E cert address s =
    if bool_decide (now E - threshold ≤ NodeInfo.Heartbeat node)%Z
    then (s, Ok true)
    else (log s (EvHasConnectivity address), Ok (hasConnectivity E cert address)).
Proof.
  intros Hthreshold Hnode. unfold isMemberOnline, NodeInfo.IsOffline.
  unfold bind at 1, Cluster_Transaction, bind, tx_read, call, ret.
  rewrite Hthreshold. simpl. rewrite Hnode. simpl.
  repeat case_bool_decide; try lia; simpl.
  - destruct (hasConnectivity E cert address); reflexivity.
  - reflexivity.
Qed.

(** ** List *)

(** C10. [List] reads [nodes[0]] before it iterates: on an empty registry
    it panics with an index out of range instead of returning an error,
    and whenever it returns normally the registry has at least one row. *)
Theorem List_needs_a_row (E : Env) s :
  (∀ threshold,
     Nodes (cluster_db s) = ([], None) →
     NodeOfflineThreshold (cluster_db s) = (threshold, None) →
     List E s = (s, Panic "runtime error: index out of range [0] with length 0"))
  ∧ (∀ s' members,
       List E s = (s', Ok members) →
       ∃ node nodes, Nodes (cluster_db s) = (node :: nodes, None)).
Proof.
  split.
  - intros threshold Hnodes Hthreshold. unfold List.
    unfold bind, Cluster_Transaction, tx_read, call, ret.
    rewrite Hnodes. simpl. rewrite Hthreshold. simpl. reflexivity.
  - intros s' members. unfold List.
    unfold bind at 1, Cluster_Transaction, bind, tx_read, call, ret.
    destruct (Nodes (cluster_db s)) as [nodes [e|]]; simpl; [discriminate|].
    destruct (NodeOfflineThreshold (cluster_db s)) as [threshold [e|]]; simpl;
      [discriminate|].
    destruct nodes as [|node nodes]; simpl; [discriminate|]. eauto.
Qed.

(** ** Handover *)

Lemma same_stores_refl s : same_stores s s.
Proof. repeat split. Qed.

Lemma same_stores_trans s s1 s' :
  same_stores s s1 → same_stores s1 s' → same_stores s s'.
Proof.
  unfold same_stores. intros (? & ? & ? & ? & ?) (? & ? & ? & ? & ?).
  repeat split; congruence.
Qed.

Lemma same_stores_log s ev : same_stores s (log s ev).
Proof. repeat split. Qed.

(** [isMemberOnline] computes [liveness] and changes nothing but the trace. *)
Lemma isMemberOnline_liveness (E : Env) cert address s :
  ∃ s', isMemberOnline E cert address s =
          (s', liveness E (cluster_db s) cert address) ∧
        same_stores s s'.
Proof.
  unfold isMemberOnline, liveness, NodeInfo.IsOffline.
  unfold bind at 1, Cluster_Transaction, bind, tx_read, call, ret.
  destruct (NodeOfflineThreshold (cluster_db s)) as [threshold [e|]]; simpl.
  { exists s. rewrite set_cluster_db_id. split; [reflexivity|apply same_stores_refl]. }
  destruct (NodeByAddress (cluster_db s) address) as [node [e|]]; simpl.
  { exists s. rewrite set_cluster_db_id. split; [reflexivity|apply same_stores_refl]. }
  repeat case_bool_decide; try lia; simpl.
  - exists (log s (EvHasConnectivity address)).
    split; [|apply same_stores_log].
    destruct (hasConnectivity E cert address); reflexivity.
  - exists s. split; [reflexivity|apply same_stores_refl].
Qed.

(** The first loop of [Handover] looks at the first entry with the
    leaving address. *)
Lemma Handover_find_spec nodes address :
  Handover_find nodes address =
  match list_find (λ n, Address n = address) nodes with
  | None => Some false
  | Some (_, leaving) => if decide (Role leaving ≠ RaftVoter) then None else Some true
  end.
Proof.
  induction nodes as [|n nodes IH]; simpl; [reflexivity|].
  destruct (decide (Address n ≠ address)), (decide (Address n = address));
    try contradiction; simpl.
  - rewrite IH. destruct (list_find _ nodes) as [[? ?]|]; reflexivity.
  - reflexivity.
Qed.

(** The second loop of [Handover] against the words of the specification. *)
Lemma Handover_scan_spec (E : Env) address roster nodes i s :
  ∃ s', Handover_scan E (gateway_cert s) roster address i nodes s =
          (s', Handover_expected_from E (cluster_db s) (gateway_cert s)
                 address roster i nodes) ∧
        same_stores s s'.
Proof.
  revert i s. induction nodes as [|n nodes IH]; intros i s.
  - exists s. split; [reflexivity|apply same_stores_refl].
  - cbn [Handover_scan]. unfold Handover_expected_from. cbn [list_find].
    destruct (bool_decide (Role n = RaftVoter) || bool_decide (Address n = address))
      eqn:Hskip.
    + destruct (decide (Handover_stops E (cluster_db s) (gateway_cert s) address n))
        as [(Hrole & Haddr & _)|_].
      { apply orb_true_iff in Hskip as [Hs|Hs]; apply bool_decide_eq_true in Hs;
          contradiction. }
      destruct (IH (S i) s) as (s' & Hrun & Hsame). exists s'. split; [|assumption].
      rewrite Hrun. unfold Handover_expected_from.
      destruct (list_find _ nodes) as [[k m]|]; simpl; [|reflexivity].
      replace (i + S k) with (S i + k) by lia. reflexivity.
    + apply orb_false_iff in Hskip as [Hrole Haddr].
      apply bool_decide_eq_false in Hrole, Haddr.
      unfold bind, wrap.
      destruct (isMemberOnline_liveness E (gateway_cert s) (Address n) s)
        as (s1 & -> & Hsame1).
      destruct (liveness E (cluster_db s) (gateway_cert s) (Address n))
        as [[|]|e|p] eqn:Hlive.
      * exists s1. split; [|assumption]. simpl.
        rewrite decide_True by (repeat split; congruence). simpl.
        rewrite Hlive. rewrite Nat.add_0_r. reflexivity.
      * simpl. rewrite decide_False by (intros (_ & _ & Hn); congruence).
        destruct Hsame1 as (Hd & Hf & Hn & Hc & Hg).
        destruct (IH (S i) s1) as (s' & Hrun & Hsame). exists s'.
        rewrite <- Hg, Hrun, Hc, Hg. split.
        -- unfold Handover_expected_from.
           destruct (list_find _ nodes) as [[k m]|]; simpl; [|reflexivity].
           replace (i + S k) with (S i + k) by lia. reflexivity.
        -- eapply same_stores_trans; [|eassumption]. repeat split; assumption.
      * exists s1. split; [|assumption]. simpl.
        rewrite decide_True by (repeat split; congruence). simpl.
        rewrite Hlive. reflexivity.
      * exists s1. split; [|assumption]. simpl.
        rewrite decide_True by (repeat split; congruence). simpl.
        rewrite Hlive. reflexivity.
Qed.

(** When no entry of the roster has the leaving address, [Handover]
    wraps the nil error left by [currentRaftNodes] and so returns no
    error. *)
Lemma Handover_unknown_address (E : Env) address nodes s :
  gateway_currentRaftNodes E = (nodes, None) →
  Forall (λ n, Address n ≠ address) nodes →
  Handover E address s = (s, Ok ("", None)).
Proof.
  intros Hroster Hnone. unfold Handover. rewrite Hroster.
  rewrite Handover_find_spec.
  destruct (list_find _ nodes) as [[j n]|] eqn:Hfind; [|reflexivity].
  apply list_find_Some in Hfind as (Hj & Hn & _).
  rewrite Forall_forall in Hnone. exfalso. eapply Hnone; [|exact Hn].
  eapply list_elem_of_lookup_2; eassumption.
Qed.

(** ** Rebalance *)

Lemma addresses_of_cons r n nodes :
  addresses_of r (n :: nodes) =
  (if decide (Role n = r) then [Address n] else []) ++ addresses_of r nodes.
Proof.
  unfold addresses_of. rewrite filter_cons.
  destruct (decide (Role n = r)); reflexivity.
Qed.

Lemma addresses_of_length r nodes : length (addresses_of r nodes) = count_role r nodes.
Proof. unfold addresses_of, count_role. apply length_map. Qed.

(** The grouping loop: what it leaves in its variables when it succeeds. *)
Lemma Rebalance_group_spec (E : Env) nodesByAddress offlineThreshold rest :
  ∀ i g s s' g' pre,
    Rebalance_group E nodesByAddress offlineThreshold i rest g s = (s', Ok g') →
    g_nodes g = pre ++ rest →
    length pre = i →
    let working := Rebalance_working E nodesByAddress offlineThreshold
                     (gateway_cert s) rest in
    gateway_cert s' = gateway_cert s ∧
    g_voters g' = g_voters g ++ addresses_of RaftVoter working ∧
    g_standbys g' = g_standbys g ++ addresses_of RaftStandBy working ∧
    g_candidates g' = g_candidates g ++ addresses_of RaftSpare rest ∧
    g_nodes g' = pre ++ working.
Proof.
  induction rest as [|info rest IH]; intros i g s s' g' pre Hrun Hnodes Hlen.
  - injection Hrun as <- <-. simpl. unfold addresses_of. simpl.
    rewrite app_nil_r in Hnodes. rewrite !app_nil_r.
    repeat split; try reflexivity. exact Hnodes.
  - cbn [Rebalance_group] in Hrun.
    apply bind_Ok in Hrun as (s1 & demoted & Hdemote & Hrun).
    cbn zeta. cbn [Rebalance_working map].
    fold (Rebalance_working E nodesByAddress offlineThreshold (gateway_cert s) rest).
    set (node := Rebalance_lookup nodesByAddress (Address info)) in *.
    assert (Hstep : gateway_cert s1 = gateway_cert s ∧
              demoted = Rebalance_unreachable E nodesByAddress offlineThreshold
                          (gateway_cert s) info).
    { unfold Rebalance_unreachable. fold node.
      destruct (NodeInfo.IsOffline (now E) node offlineThreshold &&
                bool_decide (Role info ≠ RaftSpare)).
      - apply bind_Ok in Hdemote as (s2 & err & Hprobe & Hdemote).
        injection Hprobe as <- <-.
        destruct (Connect_GetServer E (NodeInfo.Address node) (gateway_cert s))
          as [e|] eqn:Hconn.
        + apply bind_Ok in Hdemote as (s3 & [] & Hclient & Hdemote).
          apply bind_Ok in Hdemote as (s4 & [] & Hassign & Hdemote).
          apply bind_Ok in Hdemote as (s5 & [] & Hrole & Hdemote).
          injection Hdemote as <- <-.
          apply wrap_Ok in Hclient, Hassign, Hrole.
          apply Cluster_Transaction_Ok in Hrole.
          injection Hclient as <- _. injection Hassign as <- _.
          unfold tx_write in Hrole. simpl in Hrole.
          match type of Hrole with context [NodeRemoveRole ?d ?k ?r] =>
            destruct (NodeRemoveRole d k r) as [d' err'] end.
          injection Hrole as <- _. split; [reflexivity|].
          simpl. try rewrite bool_decide_eq_true_2 by discriminate. reflexivity.
        + injection Hdemote as <- <-. split; [reflexivity|].
          simpl. try rewrite bool_decide_eq_false_2 by (intros Hn; apply Hn; reflexivity).
          reflexivity.
      - injection Hdemote as <- <-. split; reflexivity. }
    destruct Hstep as [Hcert ->].
    destruct (Rebalance_unreachable E nodesByAddress offlineThreshold
                (gateway_cert s) info) eqn:Hun.
    + eapply (IH _ _ _ _ _ (pre ++ [set_Role info RaftSpare])) in Hrun.
      * cbn [g_voters g_standbys g_candidates g_nodes] in Hrun.
        rewrite Hcert in Hrun. destruct Hrun as (Hc & Hv & Hs & Hcand & Hn).
        rewrite !addresses_of_cons. cbn [Role set_Role].
        rewrite !decide_False by discriminate.
        assert (Hrole : Role info ≠ RaftSpare).
        { unfold Rebalance_unreachable in Hun.
          apply andb_true_iff in Hun as [Hun _].
          apply andb_true_iff in Hun as [_ Hun].
          apply bool_decide_eq_true in Hun. exact Hun. }
        rewrite decide_False by exact Hrole. simpl.
        rewrite <- app_assoc in Hn. auto.
      * cbn [g_nodes]. rewrite Hnodes, <- Hlen.
        replace (length pre) with (length pre + 0) by lia.
        rewrite alter_app_r. simpl. rewrite <- app_assoc. reflexivity.
      * rewrite length_app. simpl. lia.
    + eapply (IH _ _ _ _ _ (pre ++ [info])) in Hrun.
      * rewrite Hcert in Hrun. destruct Hrun as (Hc & Hv & Hs & Hcand & Hn).
        rewrite !addresses_of_cons. rewrite <- app_assoc in Hn.
        destruct (Role info) eqn:Hrole;
          cbn [g_voters g_standbys g_candidates g_nodes] in *;
          rewrite ?decide_True by reflexivity;
          rewrite ?decide_False by discriminate;
          rewrite ?Hv, ?Hs, ?Hcand, <- ?app_assoc; auto.
      * destruct (Role info); cbn [g_nodes]; rewrite Hnodes, <- app_assoc;
          reflexivity.
      * rewrite length_app. simpl. lia.
Qed.

(** A successful [Rebalance], in terms of the roster after the demotions. *)
Lemma Rebalance_Ok_inv (E : Env) s s' addr r roster config rows :
  gateway_currentRaftNodes E = (roster, None) →
  ConfigLoad (cluster_db s) = (config, None) →
  Nodes (cluster_db s) = (rows, None) →
  Rebalance E s = (s', Ok (addr, r)) →
  let nodesByAddress := Rebalance_nodesByAddress rows in
  let working := Rebalance_working E nodesByAddress (OfflineThreshold config)
                   (gateway_cert s) roster in
  (addr, r) =
    if bool_decide (count_role RaftVoter working < MaxVoters) &&
       bool_decide (1 < count_role RaftVoter working)
    then Rebalance_proposal nodesByAddress working RaftVoter
           (addresses_of RaftStandBy working ++ addresses_of RaftSpare roster)
    else if bool_decide (count_role RaftStandBy working < MaxStandBys)
    then Rebalance_proposal nodesByAddress working RaftStandBy
           (addresses_of RaftSpare roster)
    else ("", None).
Proof.
  intros Hroster Hconfig Hrows Hrun. unfold Rebalance in Hrun.
  apply bind_Ok in Hrun as (s1 & roster' & Hget & Hrun).
  apply wrap_Ok in Hget. unfold call in Hget. rewrite Hroster in Hget.
  injection Hget as <- <-.
  apply bind_Ok in Hrun as (s2 & loaded & Hload & Hrun).
  apply Cluster_Transaction_Ok in Hload.
  unfold bind, wrap, tx_read, call, ret in Hload.
  rewrite Hconfig in Hload. simpl in Hload. rewrite Hrows in Hload.
  simpl in Hload. injection Hload as <- <-.
  apply bind_Ok in Hrun as (s3 & g & Hgroup & Hrun).
  apply (Rebalance_group_spec _ _ _ _ _ _ _ _ _ []) in Hgroup; [|reflexivity..].
  cbn zeta in Hgroup. cbn [g_voters g_standbys g_candidates g_nodes] in Hgroup.
  destruct Hgroup as (_ & Hv & Hs & Hc & Hn). simpl in Hv, Hs, Hc, Hn.
  intros nodesByAddress working. fold nodesByAddress in Hv, Hs, Hn, Hrun.
  fold working in Hv, Hs, Hn.
  rewrite Hv, Hs, Hc, Hn, !addresses_of_length in Hrun.
  unfold Rebalance_proposal.
  destruct (bool_decide (count_role RaftVoter working < MaxVoters) &&
            bool_decide (1 < count_role RaftVoter working)).
  - destruct (decide (Rebalance_pick nodesByAddress _ = ""));
      injection Hrun as <- <- <-; reflexivity.
  - destruct (bool_decide (count_role RaftStandBy working < MaxStandBys)).
    + destruct (decide (Rebalance_pick nodesByAddress _ = ""));
        injection Hrun as <- <- <-; reflexivity.
    + injection Hrun as <- <- <-; reflexivity.
Qed.

(** The registry map is keyed by the address of its rows. *)
Lemma Rebalance_nodesByAddress_key rows address node :
  Rebalance_nodesByAddress rows !! address = Some node →
  NodeInfo.Address node = address.
Proof.
  unfold Rebalance_nodesByAddress.
  assert (Hgen : ∀ m : gmap string NodeInfo.t,
            (∀ a n, m !! a = Some n → NodeInfo.Address n = a) →
            foldl (λ m node, <[NodeInfo.Address node := node]> m) m rows !! address
              = Some node →
            NodeInfo.Address node = address).
  { induction rows as [|row rows IH]; intros m Hm; simpl.
    - apply Hm.
    - apply IH. intros a n.
      destruct (decide (NodeInfo.Address row = a)) as [<-|Hne].
      + rewrite lookup_insert_eq. intros [= <-]. reflexivity.
      + rewrite lookup_insert_ne by assumption. apply Hm. }
  apply Hgen. intros a n. rewrite lookup_empty. discriminate.
Qed.

(** The assignment loop changes the first member with the address. *)
Lemma Rebalance_assign_alter nodes address role i n :
  list_find (λ n, Address n = address) nodes = Some (i, n) →
  Rebalance_assign nodes address role = alter (λ n, set_Role n role) i nodes.
Proof.
  revert i. induction nodes as [|m nodes IH]; intros i; simpl; [discriminate|].
  destruct (decide (Address m = address)).
  - intros [= <- <-]. reflexivity.
  - destruct (list_find _ nodes) as [[k x]|] eqn:Hfind; simpl; [|discriminate].
    intros [= <- <-]. simpl. f_equal. apply IH. reflexivity.
Qed.

Lemma Rebalance_working_addresses (E : Env) nodesByAddress threshold cert roster :
  map Address (Rebalance_working E nodesByAddress threshold cert roster) =
  map Address roster.
Proof.
  unfold Rebalance_working. rewrite map_map. apply map_ext. intros n.
  destruct (Rebalance_unreachable E nodesByAddress threshold cert n); reflexivity.
Qed.

Lemma addresses_of_elem r nodes a :
  a ∈ addresses_of r nodes → a ∈ map Address nodes.
Proof.
  unfold addresses_of. rewrite !list_elem_of_fmap.
  intros (n & -> & Hn). apply list_elem_of_filter in Hn as [_ Hn]. eauto.
Qed.

Lemma list_find_address nodes a :
  a ∈ map Address nodes →
  ∃ i n, list_find (λ n, Address n = a) nodes = Some (i, n).
Proof.
  rewrite list_elem_of_fmap. intros (n & -> & Hn).
  destruct (list_find (λ m, Address m = Address n) nodes) as [[i m]|] eqn:Hfind;
    [eauto|].
  apply list_find_None in Hfind. rewrite Forall_forall in Hfind.
  exfalso. eapply Hfind; [exact Hn|reflexivity].
Qed.

(** C5, amended. When [Rebalance] goes for a voter promotion (after the
    demotions the voter count is strictly between 1 and [MaxVoters]), the
    candidate is the first remaining stand-by in roster order if there is
    one and the first spare otherwise; if the registry has a row for it,
    [Rebalance] returns its address and the roster after the demotions
    with the first member at that address made voter. *)
Theorem Rebalance_voter_promotion
    (E : Env) s s' addr r roster config rows candidate row :
  gateway_currentRaftNodes E = (roster, None) →
  ConfigLoad (cluster_db s) = (config, None) →
  Nodes (cluster_db s) = (rows, None) →
  Rebalance E s = (s', Ok (addr, r)) →
  let nodesByAddress := Rebalance_nodesByAddress rows in
  let working := Rebalance_working E nodesByAddress (OfflineThreshold config)
                   (gateway_cert s) roster in
  1 < count_role RaftVoter working < MaxVoters →
  head (addresses_of RaftStandBy working ++ addresses_of RaftSpare roster)
    = Some candidate →
  nodesByAddress !! candidate = Some row →
  candidate ≠ "" →
  addr = candidate ∧
  ∃ i n, list_find (λ n, Address n = candidate) working = Some (i, n) ∧
         r = Some (alter (λ n, set_Role n RaftVoter) i working).
Proof.
  intros Hroster Hconfig Hrows Hrun nodesByAddress working [Hlo Hhi] Hhead Hrow Hne.
  apply (Rebalance_Ok_inv E s s' addr r roster config rows) in Hrun; try assumption.
  cbn zeta in Hrun. fold nodesByAddress working in Hrun.
  rewrite !bool_decide_eq_true_2 in Hrun by assumption. cbn [andb] in Hrun.
  unfold Rebalance_proposal, Rebalance_pick, Rebalance_lookup in Hrun.
  assert (Hin : candidate ∈ map Address working).
  { destruct (addresses_of RaftStandBy working ++ addresses_of RaftSpare roster)
      as [|c cs] eqn:Hcs; [discriminate|]. injection Hhead as ->.
    assert (Hc : candidate ∈ addresses_of RaftStandBy working ++
                             addresses_of RaftSpare roster)
      by (rewrite Hcs; left).
    apply elem_of_app in Hc as [Hc|Hc]; apply addresses_of_elem in Hc.
    - exact Hc.
    - unfold working. rewrite Rebalance_working_addresses. exact Hc. }
  destruct (addresses_of RaftStandBy working ++ addresses_of RaftSpare roster)
    as [|c cs]; [discriminate|]. injection Hhead as ->.
  rewrite Hrow in Hrun. simpl in Hrun.
  rewrite (Rebalance_nodesByAddress_key _ _ _ Hrow) in Hrun.
  destruct (decide (candidate = "")); [contradiction|].
  injection Hrun as -> ->. split; [reflexivity|].
  destruct (list_find_address _ _ Hin) as (i & n' & Hfind).
  exists i, n'. split; [exact Hfind|].
  f_equal. apply Rebalance_assign_alter with n'. exact Hfind.
Qed.




(** C6, amended. When the roster has an entry for the leaving address:
    if the first such entry is not a voter, [Handover] returns an empty
    address and no roster; otherwise it scans the roster in order and
    stops at the first entry that is not a voter, is not the leaving
    member, and whose liveness check does not answer offline. It returns
    that entry, made voter in the returned roster, when the check answers
    online, and the error of the check when the check fails; when the
    scan stops nowhere it returns "nothing to do" without error. Only the
    trace of outside calls changes. *)
Theorem Handover_first_online_candidate (E : Env) address nodes j leaving s :
  gateway_currentRaftNodes E = (nodes, None) →
  list_find (λ n, Address n = address) nodes = Some (j, leaving) →
  ∃ s', same_stores s s' ∧
        Handover E address s =
          (s', if decide (Role leaving = RaftVoter)
               then Handover_expected E (cluster_db s) (gateway_cert s) address nodes
               else Ok ("", None)).
Proof.
  intros Hroster Hfind. unfold Handover. rewrite Hroster.
  rewrite Handover_find_spec, Hfind.
  destruct (decide (Role leaving = RaftVoter)) as [Hvoter|Hvoter].
  - rewrite decide_False by (intros Hn; contradiction).
    destruct (Handover_scan_spec E address nodes nodes 0 s) as (s' & Hrun & Hsame).
    exists s'. split; [exact Hsame|exact Hrun].
  - rewrite decide_True by exact Hvoter.
    exists s. split; [apply same_stores_refl|reflexivity].
Qed.

(** ** Join *)

(** After the search loop of [Join], the range variable holds the last
    entry of the roster, whichever entry matched. *)
Lemma Join_find_var_node raftNodes address fr :
  var_node (Join_find raftNodes address fr) = default (var_node fr) (last raftNodes).
Proof.
  revert fr. induction raftNodes as [|elem rest IH]; intros fr; [reflexivity|].
  cbn [Join_find]. rewrite IH.
  assert (Hnode : ∀ fr', var_node fr' = elem →
            default (var_node fr') (last rest) =
            default (var_node fr) (last (elem :: rest))).
  { intros fr' ->. destruct rest as [|r rest]; [reflexivity|].
    change (last (elem :: r :: rest)) with (last (r :: rest)).
    destruct (last (r :: rest)) eqn:Hlast; [reflexivity|].
    apply last_None in Hlast. discriminate. }
  apply Hnode. cbn [var_node].
  destruct (decide (Address elem = address)); reflexivity.
Qed.

(** The pointer [info] is set exactly when some entry has the address. *)
Lemma Join_find_var_info raftNodes address fr :
  var_info (Join_find raftNodes address fr) =
  if decide (Exists (λ n, Address n = address) raftNodes) then Some AddrOf_node
  else var_info fr.
Proof.
  revert fr. induction raftNodes as [|elem rest IH]; intros fr.
  - cbn [Join_find]. rewrite decide_False by (intros Hn; inversion Hn). reflexivity.
  - cbn [Join_find]. rewrite IH. cbn [var_node var_info].
    destruct (decide (Address elem = address)) as [Heq|Hne]; cbn [var_info].
    + rewrite (decide_True (P := Exists _ (elem :: rest)))
        by (apply Exists_cons; auto).
      destruct (decide (Exists _ rest)); reflexivity.
    + destruct (decide (Exists _ rest)) as [Hrest|Hrest].
      * rewrite decide_True by (apply Exists_cons; auto). reflexivity.
      * rewrite decide_False; [reflexivity|].
        intros Hn. apply Exists_cons in Hn as [Hn|Hn]; contradiction.
Qed.

(** What [Join] sends in the add-member call is the last entry of the
    roster. *)
Lemma Join_add_payload raftNodes address info :
  var_info (Join_find raftNodes address (mkJoin_frame RaftNode_zero None)) = Some info →
  Some (Join_deref (Join_find raftNodes address (mkJoin_frame RaftNode_zero None)) info)
  = last raftNodes.
Proof.
  rewrite Join_find_var_info. destruct info. cbn [Join_deref].
  destruct (decide (Exists _ raftNodes)) as [Hex|]; [|discriminate]. intros _.
  rewrite Join_find_var_node. destruct (last raftNodes) eqn:Hlast; [reflexivity|].
  apply last_None in Hlast. subst. inversion Hex.
Qed.

End Properties.

(** ** The properties on concrete clusters *)

(** C4 at a cluster of two voters: the accepted third member is a voter. *)
Lemma Accept_appends_by_capacity_witness :
  let E := Mem.env Cluster.two_voters in
  let s := Cluster.two_members in
  let db1 := (NodeAddWithArch (cluster_db s) "n3" Cluster.a3 0).1.2 in
  let db2 := (NodePending db1 3 true).1 in
  "n3" ≠ "" ∧
  Cluster.a3 ≠ "" ∧
  membershipCheckClusterStateForAccept (cluster_db s) "n3" Cluster.a3 1 1 = None ∧
  NodeAddWithArch (cluster_db s) "n3" Cluster.a3 0 = ((3%Z, db1), None) ∧
  NodePending db1 3 true = (db2, None) ∧
  gateway_currentRaftNodes E = (Cluster.two_voters, None) ∧
  Accept E "n3" Cluster.a3 1 1 0 s =
    (set_cluster_db s db2,
     Ok (Cluster.two_voters ++ [mkRaftNode 3 Cluster.a3 RaftVoter])).
Proof.
  cbv zeta.
  assert (Hname : "n3" ≠ "") by discriminate.
  assert (Haddress : Cluster.a3 ≠ "") by discriminate.
  assert (Hcheck : membershipCheckClusterStateForAccept
                     (cluster_db Cluster.two_members) "n3" Cluster.a3 1 1 = None)
    by (vm_compute; reflexivity).
  pose (db1 := (NodeAddWithArch (cluster_db Cluster.two_members) "n3" Cluster.a3 0).1.2).
  assert (Hadd : NodeAddWithArch (cluster_db Cluster.two_members) "n3" Cluster.a3 0
                 = ((3%Z, db1), None)) by (vm_compute; reflexivity).
  assert (Hpending : NodePending db1 3 true = ((NodePending db1 3 true).1, None))
    by (vm_compute; reflexivity).
  assert (Hroster : gateway_currentRaftNodes (Mem.env Cluster.two_voters)
                    = (Cluster.two_voters, None)) by reflexivity.
  repeat (split; [assumption|]).
  exact (Accept_appends_by_capacity (Mem.env Cluster.two_voters)
           Cluster.two_members "n3" Cluster.a3 1 1 0 Cluster.two_voters 3 db1 _
           Hname Haddress Hcheck Hadd Hpending Hroster).
Defined.

(** C7 at a fresh node: the second [Bootstrap] fails and changes nothing. *)
Lemma Bootstrap_twice_fails_witness :
  Bootstrap (Mem.env []) "n1" Cluster.fresh = (Cluster.bootstrapped, Ok tt) ∧
  "n1" ≠ "" ∧
  Bootstrap (Mem.env []) "n1" Cluster.bootstrapped =
    (Cluster.bootstrapped,
     Err "inconsistent state: found leftover cluster certificate").
Proof.
  assert (Hfirst : Bootstrap (Mem.env []) "n1" Cluster.fresh
                   = (Cluster.bootstrapped, Ok tt)) by (vm_compute; reflexivity).
  assert (Hname : "n1" ≠ "") by discriminate.
  repeat (split; [assumption|]).
  exact (Bootstrap_twice_fails (Mem.env []) (Mem.env []) "n1" "n1"
           Cluster.fresh Cluster.bootstrapped Hfirst Hname).
Defined.

(** C8 on the registry of a node that is not clustered. *)
Lemma checkClusterForAccept_fails_iff_witness :
  let s := Cluster.fresh in
  let nodes := [NodeInfo.mk 1 "none" "0.0.0.0" 1 1 990 [] 0] in
  Nodes (cluster_db s) = (nodes, None) ∧
  (membershipCheckClusterStateForAccept (cluster_db s) "n2" Cluster.a2 1 1 ≠ None ↔
     (∃ n, nodes = [n] ∧ NodeInfo.Address n = "0.0.0.0")
     ∨ Exists (λ n, NodeInfo.Name n = "n2") nodes
     ∨ Exists (λ n, NodeInfo.Address n = Cluster.a2) nodes
     ∨ Exists (λ n, NodeInfo.Schema n ≠ 1%Z) nodes
     ∨ Exists (λ n, NodeInfo.APIExtensions n ≠ 1%Z) nodes)
  ∧ Accept (Mem.env []) "n2" Cluster.a2 1 1 0 s = (s, Err "Clustering isn't enabled").
Proof.
  cbv zeta.
  assert (Hnodes : Nodes (cluster_db Cluster.fresh)
                   = ([NodeInfo.mk 1 "none" "0.0.0.0" 1 1 990 [] 0], None))
    by (vm_compute; reflexivity).
  destruct (checkClusterForAccept_fails_iff (Mem.env []) Cluster.fresh _
              "n2" Cluster.a2 1 1 0 Hnodes) as [Hiff Haccept].
  split; [assumption|]. split; [exact Hiff|].
  apply Haccept; [vm_compute; reflexivity|discriminate|discriminate].
Defined.

(** C9 on a member with a stale heartbeat that the probe reaches. *)
Lemma isMemberOnline_classifies_witness :
  let s := Cluster.two_standbys_state in
  let node := NodeInfo.mk 2 "n2" Cluster.a2 1 1 100 [] 0 in
  NodeOfflineThreshold (cluster_db s) = (20%Z, None) ∧
  NodeByAddress (cluster_db s) Cluster.a2 = (node, None) ∧
  isMemberOnline Cluster.reachable "server" Cluster.a2 s =
    (log s (EvHasConnectivity Cluster.a2), Ok true).
Proof.
  cbv zeta.
  assert (Hthreshold : NodeOfflineThreshold (cluster_db Cluster.two_standbys_state)
                       = (20%Z, None)) by (vm_compute; reflexivity).
  assert (Hnode : NodeByAddress (cluster_db Cluster.two_standbys_state) Cluster.a2
                  = (NodeInfo.mk 2 "n2" Cluster.a2 1 1 100 [] 0, None))
    by (vm_compute; reflexivity).
  repeat (split; [assumption|]).
  rewrite (isMemberOnline_classifies Cluster.reachable "server" Cluster.a2
             Cluster.two_standbys_state 20 _ Hthreshold Hnode).
  vm_compute. reflexivity.
Defined.

(** C10 on an empty registry. *)
Lemma List_needs_a_row_witness :
  let s := Cluster.empty_registry in
  Nodes (cluster_db s) = ([], None) ∧
  NodeOfflineThreshold (cluster_db s) = (20%Z, None) ∧
  List (Mem.env []) s =
    (s, Panic "runtime error: index out of range [0] with length 0").
Proof.
  cbv zeta.
  assert (Hnodes : Nodes (cluster_db Cluster.empty_registry) = ([], None))
    by (vm_compute; reflexivity).
  assert (Hthreshold : NodeOfflineThreshold (cluster_db Cluster.empty_registry)
                       = (20%Z, None)) by (vm_compute; reflexivity).
  repeat (split; [assumption|]).
  exact (proj1 (List_needs_a_row (Mem.env []) Cluster.empty_registry)
           20%Z Hnodes Hthreshold).
Defined.


(** C3 (the code departs from the claim). Asked about an address that no
    entry of the roster has, [Handover] returns no error: the error it
    wraps is the nil one left by [currentRaftNodes]. *)
Theorem Handover_unknown_address_returns_nil :
  Handover (Mem.env Cluster.lone_voter) "10.0.0.9:8443" Cluster.lone_voter_state =
    (Cluster.lone_voter_state, Ok ("", None)).
Proof.
  apply Handover_unknown_address with (nodes := Cluster.lone_voter);
    [reflexivity|].
  repeat constructor. discriminate.
Qed.



(** C5 as stated fails: two voters, no stand-by, and a first spare for
    which the registry has no row. [Rebalance] goes for a voter promotion,
    looks at that spare only, and returns the roster unchanged with an
    empty address. *)
Lemma Rebalance_first_spare_without_row :
  let roster := Cluster.spare_without_row in
  let run := Rebalance (Mem.env roster) Cluster.spare_without_row_state in
  count_role RaftVoter roster = 2 ∧
  addresses_of RaftStandBy roster = [] ∧
  head (addresses_of RaftSpare roster) = Some Cluster.a3 ∧
  run.2 = Ok ("", Some roster) ∧
  run.2 ≠ Ok (Cluster.a3, Some (alter (λ n, set_Role n RaftVoter) 2 roster)).
Proof.
  cbv zeta. do 3 (split; [reflexivity|]).
  assert (Hrun : (Rebalance (Mem.env Cluster.spare_without_row)
                    Cluster.spare_without_row_state).2 =
                 Ok ("", Some Cluster.spare_without_row))
    by (vm_compute; reflexivity).
  split; [exact Hrun|]. rewrite Hrun. discriminate.
Qed.

(** C5, amended, where the third voter is demoted and the stand-by takes
    its place. *)
Lemma Rebalance_voter_promotion_witness :
  let E := Mem.env Cluster.stale_voter in
  let s := Cluster.stale_voter_state in
  let rows := map Mem.info (Mem.rows (cluster_db s)) in
  let working := Rebalance_working E (Rebalance_nodesByAddress rows) 20
                   (gateway_cert s) Cluster.stale_voter in
  gateway_currentRaftNodes E = (Cluster.stale_voter, None) ∧
  ConfigLoad (cluster_db s) = (Build_ClusterConfig 20, None) ∧
  Nodes (cluster_db s) = (rows, None) ∧
  Rebalance E s =
    ((Rebalance E s).1,
     Ok (Cluster.a4,
         Some [mkRaftNode 1 Cluster.a1 RaftVoter; mkRaftNode 2 Cluster.a2 RaftVoter;
               mkRaftNode 3 Cluster.a3 RaftSpare; mkRaftNode 4 Cluster.a4 RaftVoter;
               mkRaftNode 5 Cluster.a5 RaftSpare])) ∧
  1 < count_role RaftVoter working < MaxVoters ∧
  head (addresses_of RaftStandBy working ++ addresses_of RaftSpare Cluster.stale_voter)
    = Some Cluster.a4 ∧
  Rebalance_nodesByAddress rows !! Cluster.a4
    = Some (NodeInfo.mk 4 "n4" Cluster.a4 1 1 990 [] 0) ∧
  Cluster.a4 ≠ "" ∧
  ∃ i n, list_find (λ n, Address n = Cluster.a4) working = Some (i, n) ∧
         Some [mkRaftNode 1 Cluster.a1 RaftVoter; mkRaftNode 2 Cluster.a2 RaftVoter;
               mkRaftNode 3 Cluster.a3 RaftSpare; mkRaftNode 4 Cluster.a4 RaftVoter;
               mkRaftNode 5 Cluster.a5 RaftSpare]
         = Some (alter (λ n, set_Role n RaftVoter) i working).
Proof.
  cbv zeta.
  set (E := Mem.env Cluster.stale_voter).
  set (s := Cluster.stale_voter_state).
  set (rows := map Mem.info (Mem.rows (cluster_db s))).
  assert (Hroster : gateway_currentRaftNodes E = (Cluster.stale_voter, None))
    by reflexivity.
  assert (Hconfig : ConfigLoad (cluster_db s) = (Build_ClusterConfig 20, None))
    by reflexivity.
  assert (Hrows : Nodes (cluster_db s) = (rows, None)) by (vm_compute; reflexivity).
  assert (Hrun : Rebalance E s =
    ((Rebalance E s).1,
     Ok (Cluster.a4,
         Some [mkRaftNode 1 Cluster.a1 RaftVoter; mkRaftNode 2 Cluster.a2 RaftVoter;
               mkRaftNode 3 Cluster.a3 RaftSpare; mkRaftNode 4 Cluster.a4 RaftVoter;
               mkRaftNode 5 Cluster.a5 RaftSpare]))) by (vm_compute; reflexivity).
  assert (Hcount : 1 < count_role RaftVoter
                         (Rebalance_working E (Rebalance_nodesByAddress rows) 20
                            (gateway_cert s) Cluster.stale_voter) < MaxVoters)
    by (vm_compute; lia).
  assert (Hhead : head (addresses_of RaftStandBy
                          (Rebalance_working E (Rebalance_nodesByAddress rows) 20
                             (gateway_cert s) Cluster.stale_voter) ++
                        addresses_of RaftSpare Cluster.stale_voter)
                  = Some Cluster.a4) by (vm_compute; reflexivity).
  assert (Hrow : Rebalance_nodesByAddress rows !! Cluster.a4
                 = Some (NodeInfo.mk 4 "n4" Cluster.a4 1 1 990 [] 0))
    by (vm_compute; reflexivity).
  assert (Hne : Cluster.a4 ≠ "") by discriminate.
  repeat (split; [assumption|]).
  exact (proj2 (Rebalance_voter_promotion E s _ _ _ Cluster.stale_voter
                  (Build_ClusterConfig 20) rows Cluster.a4 _
                  Hroster Hconfig Hrows Hrun Hcount Hhead Hrow Hne)).
Defined.

(** C6 as stated fails: the only candidate to replace the leaving voter
    has no registry row, so its liveness check fails; no entry is online,
    yet [Handover] returns an error instead of "nothing to do". *)
Lemma Handover_liveness_check_fails :
  let roster := Cluster.standby_without_row in
  let s := Cluster.standby_without_row_state in
  list_find (λ n, Address n = Cluster.a1) roster
    = Some (0, mkRaftNode 1 Cluster.a1 RaftVoter) ∧
  Forall (λ n, liveness (Mem.env roster) (cluster_db s) (gateway_cert s) (Address n)
               ≠ Ok true ∨ Role n = RaftVoter) roster ∧
  (Handover (Mem.env roster) Cluster.a1 s).2 =
    Err "Failed to check if 10.0.0.2:8443 is online: No such object" ∧
  (Handover (Mem.env roster) Cluster.a1 s).2 ≠ Ok ("", None).
Proof.
  cbv zeta. split; [reflexivity|]. split.
  { constructor; [right; reflexivity|].
    constructor; [left; vm_compute; discriminate|]. constructor. }
  assert (Hrun : (Handover (Mem.env Cluster.standby_without_row) Cluster.a1
                    Cluster.standby_without_row_state).2 =
                 Err "Failed to check if 10.0.0.2:8443 is online: No such object")
    by (vm_compute; reflexivity).
  split; [exact Hrun|]. rewrite Hrun. discriminate.
Qed.

(** C6, amended, where the first stand-by is offline and the second is
    promoted. *)
Lemma Handover_first_online_candidate_witness :
  let E := Mem.env Cluster.two_standbys in
  let s := Cluster.two_standbys_state in
  gateway_currentRaftNodes E = (Cluster.two_standbys, None) ∧
  list_find (λ n, Address n = Cluster.a1) Cluster.two_standbys
    = Some (0, mkRaftNode 1 Cluster.a1 RaftVoter) ∧
  ∃ s', same_stores s s' ∧
        Handover E Cluster.a1 s =
          (s', Ok (Cluster.a3,
                   Some [mkRaftNode 1 Cluster.a1 RaftVoter;
                         mkRaftNode 2 Cluster.a2 RaftStandBy;
                         mkRaftNode 3 Cluster.a3 RaftVoter])).
Proof.
  cbv zeta.
  assert (Hroster : gateway_currentRaftNodes (Mem.env Cluster.two_standbys)
                    = (Cluster.two_standbys, None)) by reflexivity.
  assert (Hfind : list_find (λ n, Address n = Cluster.a1) Cluster.two_standbys
                  = Some (0, mkRaftNode 1 Cluster.a1 RaftVoter)) by reflexivity.
  repeat (split; [assumption|]).
  destruct (Handover_first_online_candidate (Mem.env Cluster.two_standbys)
              Cluster.a1 Cluster.two_standbys 0 _ Cluster.two_standbys_state
              Hroster Hfind) as (s' & Hsame & Hrun).
  exists s'. split; [exact Hsame|]. rewrite Hrun. vm_compute. reflexivity.
Defined.

(** * Further properties of the membership operations *)

Section MoreProperties.

Context {NodeDB ClusterDB : Type} `{!NodeTx NodeDB} `{!ClusterTx ClusterDB}.
Context `{!Platform}.

Implicit Types s t : @State NodeDB ClusterDB.

(** ** Preconditions *)

(** X1. With the local roster cache read, the check made before
    bootstrapping or joining passes exactly when a cluster address is set
    and the cache is empty; a cache with entries but no address is
    reported as an inconsistent state, a missing address alone as a
    missing configuration, and entries alone as an already clustered
    node. *)
Theorem membershipCheckNodeState_passes_iff (tx : NodeDB) address nodes :
  RaftNodes tx = (nodes, None) →
  (membershipCheckNodeStateForBootstrapOrJoin tx address = None ↔
     address ≠ "" ∧ nodes = [])
  ∧ (address = "" → nodes ≠ [] →
     membershipCheckNodeStateForBootstrapOrJoin tx address =
       Some "inconsistent state: found leftover entries in raft_nodes")
  ∧ (address = "" → nodes = [] →
     membershipCheckNodeStateForBootstrapOrJoin tx address =
       Some "no cluster.https_address config is set on this node")
  ∧ (address ≠ "" → nodes ≠ [] →
     membershipCheckNodeStateForBootstrapOrJoin tx address =
       Some "the node is already part of a cluster").
Proof.
  intros Hread. unfold membershipCheckNodeStateForBootstrapOrJoin.
  rewrite Hread. unfold fmt_Errorf.
  destruct (decide (address = "")) as [->|Haddr];
    destruct nodes as [|n nodes]; simpl;
    repeat case_bool_decide; simpl; try lia; try congruence;
    repeat split; try congruence; try discriminate; try tauto;
    intros [? ?]; congruence.
Qed.

(** ** Bootstrap *)

Lemma membershipCheckNoLeftoverClusterCert_None (f : gmap string FsEntry) dir :
  membershipCheckNoLeftoverClusterCert f dir = None ↔
  PathExists f (filepath_Join dir "cluster.crt") = false ∧
  PathExists f (filepath_Join dir "cluster.key") = false ∧
  PathExists f (filepath_Join dir "cluster.ca") = false.
Proof.
  unfold membershipCheckNoLeftoverClusterCert.
  cbn [membershipCheckNoLeftoverClusterCert_loop].
  destruct (PathExists f (filepath_Join dir "cluster.crt")),
           (PathExists f (filepath_Join dir "cluster.key")),
           (PathExists f (filepath_Join dir "cluster.ca"));
    unfold fmt_Errorf; split; try discriminate; try tauto;
    intros (? & ? & ?); discriminate.
Qed.

(** X2. [Bootstrap] refuses to run, and changes nothing, as soon as one of
    [cluster.crt], [cluster.key] or [cluster.ca] exists in the var
    directory; nothing else is looked at before. *)
Theorem Bootstrap_rejects_leftover_cert (E : Env) name s :
  name ≠ "" →
  PathExists (fs s) (filepath_Join (VarDir s) "cluster.crt")
  || PathExists (fs s) (filepath_Join (VarDir s) "cluster.key")
  || PathExists (fs s) (filepath_Join (VarDir s) "cluster.ca") = true →
  Bootstrap E name s =
    (s, Err "inconsistent state: found leftover cluster certificate").
Proof.
  intros Hname Hsome. unfold Bootstrap.
  destruct (decide (name = "")); [contradiction|].
  unfold bind at 1.
  destruct (membershipCheckNoLeftoverClusterCert (fs s) (VarDir s)) as [e|] eqn:Hcheck.
  - unfold membershipCheckNoLeftoverClusterCert in Hcheck.
    cbn [membershipCheckNoLeftoverClusterCert_loop] in Hcheck.
    unfold fmt_Errorf in Hcheck.
    repeat match type of Hcheck with
           | context [if ?b then _ else _] => destruct b
           end; try discriminate; injection Hcheck as <-; reflexivity.
  - apply membershipCheckNoLeftoverClusterCert_None in Hcheck as (Hcrt & Hkey & Hca).
    rewrite Hcrt, Hkey, Hca in Hsome. discriminate.
Qed.

(** Steps that succeed: what they read and what they leave. *)

Lemma extern_Ok ev (err : error) s s' :
  extern ev err s = (s', Ok tt) → err = None ∧ s' = log s ev.
Proof.
  intros Hrun. unfold extern in Hrun.
  destruct err; simpl in Hrun; [discriminate|]. injection Hrun as <-. auto.
Qed.

Lemma ntx_read_Ok {A} (op : NodeDB → A * error) s s' (a : A) :
  ntx_read op s = (s', Ok a) → op (node_db s) = (a, None) ∧ s' = s.
Proof.
  unfold ntx_read, call. destruct (op (node_db s)) as [x [e|]]; simpl;
    [discriminate|]. intros [= <- <-]. auto.
Qed.

Lemma ntx_write_Ok (op : NodeDB → NodeDB * error) s s' :
  ntx_write op s = (s', Ok tt) →
  ∃ d, op (node_db s) = (d, None) ∧ s' = set_node_db s d.
Proof.
  unfold ntx_write. destruct (op (node_db s)) as [d [e|]]; simpl;
    [discriminate|]. intros [= <-]. eauto.
Qed.

Lemma ntx_check_Ok (op : NodeDB → error) s s' :
  ntx_check op s = (s', Ok tt) → op (node_db s) = None ∧ s' = s.
Proof.
  unfold ntx_check. destruct (op (node_db s)); simpl; [discriminate|].
  intros [= <-]. auto.
Qed.

Lemma tx_read_Ok {A} (op : ClusterDB → A * error) s s' (a : A) :
  tx_read op s = (s', Ok a) → op (cluster_db s) = (a, None) ∧ s' = s.
Proof.
  unfold tx_read, call. destruct (op (cluster_db s)) as [x [e|]]; simpl;
    [discriminate|]. intros [= <- <-]. auto.
Qed.

Lemma tx_write_Ok (op : ClusterDB → ClusterDB * error) s s' :
  tx_write op s = (s', Ok tt) →
  ∃ d, op (cluster_db s) = (d, None) ∧ s' = set_cluster_db s d.
Proof.
  unfold tx_write. destruct (op (cluster_db s)) as [d [e|]]; simpl;
    [discriminate|]. intros [= <-]. eauto.
Qed.

Lemma tx_check_Ok (op : ClusterDB → error) s s' :
  tx_check op s = (s', Ok tt) → op (cluster_db s) = None ∧ s' = s.
Proof.
  unfold tx_check. destruct (op (cluster_db s)); simpl; [discriminate|].
  intros [= <-]. auto.
Qed.

Lemma Symlink_at_Ok (E : Env) oldname newname s s' :
  Symlink_at E oldname newname s = (s', Ok tt) →
  PathExists (fs s) newname = false ∧ os_Symlink E oldname newname = None ∧
  s' = set_fs s (<[newname := Symlink oldname]> (fs s)).
Proof.
  unfold Symlink_at. destruct (PathExists (fs s) newname); [discriminate|].
  destruct (os_Symlink E oldname newname); [discriminate|].
  intros [= <-]. auto.
Qed.

(** X3. What a successful [Bootstrap] has done, and nothing else: the
    first raft node is in the local database under the configured cluster
    address; row 1 of the registry has the name and that address and the
    [database] role; the gateway was locked, shut down, re-initialised and
    waited on, in that order; [cluster.crt] and [cluster.key] are symlinks
    to [server.crt] and [server.key], and [cluster.ca] one to [server.ca]
    exactly when [server.ca] exists. *)
Theorem Bootstrap_Ok_inv (E : Env) name s s' :
  Bootstrap E name s = (s', Ok tt) →
  ∃ config nd cd1 cd2,
    let address := ClusterAddress config in
    let dir := VarDir s in
    let f1 := <[filepath_Join dir "cluster.crt" := Symlink "server.crt"]> (fs s) in
    let f2 := <[filepath_Join dir "cluster.key" := Symlink "server.key"]> f1 in
    let f3 := if PathExists f2 (filepath_Join dir "server.ca")
              then <[filepath_Join dir "cluster.ca" := Symlink "server.ca"]> f2
              else f2 in
    node_ConfigLoad (node_db s) = (config, None) ∧
    RaftNodeFirst (node_db s) address = (nd, None) ∧
    NodeUpdate (cluster_db s) 1 name address = (cd1, None) ∧
    NodeAddRole cd1 1 ClusterRoleDatabase = (cd2, None) ∧
    s' = mkState dir f3 nd cd2 (gateway_cert s)
           (trace s ++ [EvEnterExclusive; EvGatewayShutdown; EvGatewayInit;
                        EvWaitLeadership]).
Proof.
  unfold Bootstrap. destruct (decide (name = "")); [discriminate|]. intros Hrun.
  apply bind_Ok in Hrun as (s1 & [] & Hcheck & Hrun).
  injection Hcheck as <- _.
  apply bind_Ok in Hrun as (s2 & address & Hnode & Hrun).
  apply Node_Transaction_Ok in Hnode.
  apply bind_Ok in Hnode as (t1 & config & Hconfig & Hnode).
  apply wrap_Ok, ntx_read_Ok in Hconfig as [Hconfig ->].
  apply bind_Ok in Hnode as (t2 & [] & Hlocal & Hnode).
  apply ntx_check_Ok in Hlocal as [_ ->].
  apply bind_Ok in Hnode as (t3 & [] & Hfirst & Hnode).
  apply wrap_Ok, ntx_write_Ok in Hfirst as (nd & Hfirst & ->).
  injection Hnode as <- <-.
  apply bind_Ok in Hrun as (s3 & [] & Hcluster & Hrun).
  apply Cluster_Transaction_Ok in Hcluster.
  apply bind_Ok in Hcluster as (t4 & [] & Hone & Hcluster).
  apply tx_check_Ok in Hone as [_ ->].
  apply bind_Ok in Hcluster as (t5 & [] & Hupdate & Hcluster).
  apply wrap_Ok, tx_write_Ok in Hupdate as (cd1 & Hupdate & ->).
  apply wrap_Ok, tx_write_Ok in Hcluster as (cd2 & Hrole & ->).
  apply bind_Ok in Hrun as (s4 & [] & Hlock & Hrun).
  apply wrap_Ok, extern_Ok in Hlock as [_ ->].
  apply bind_Ok in Hrun as (s5 & [] & Hdown & Hrun).
  apply wrap_Ok, extern_Ok in Hdown as [_ ->].
  apply bind_Ok in Hrun as (s6 & [] & Hinit & Hrun).
  apply wrap_Ok, extern_Ok in Hinit as [_ ->].
  apply bind_Ok in Hrun as (s7 & [] & Hlead & Hrun).
  apply extern_Ok in Hlead as [_ ->].
  apply bind_Ok in Hrun as (s8 & [] & Hlinks & Hrun).
  apply wrap_Ok, Cluster_Transaction_Ok in Hrun.
  apply bind_Ok in Hrun as (t6 & rows & Hrows & Hrun).
  apply tx_read_Ok in Hrows as [_ ->]. injection Hrun as <-.
  exists config, nd, cd1, cd2. cbn zeta.
  repeat (split; [assumption|]).
  cbn [Bootstrap_symlinks] in Hlinks.
  rewrite !(bool_decide_eq_false_2 (_ = ".ca")) in Hlinks by discriminate.
  rewrite (bool_decide_eq_true_2 (".ca" = ".ca")) in Hlinks by reflexivity.
  cbn [andb] in Hlinks.
  apply bind_Ok in Hlinks as (u1 & [] & Hcrt & Hlinks).
  apply wrap_Ok, Symlink_at_Ok in Hcrt as (_ & _ & ->).
  apply bind_Ok in Hlinks as (u2 & [] & Hkey & Hlinks).
  apply wrap_Ok, Symlink_at_Ok in Hkey as (_ & _ & ->).
  cbn [VarDir fs set_fs set_node_db set_cluster_db log node_db cluster_db
       gateway_cert trace] in *.
  destruct (PathExists _ (filepath_Join (VarDir s) "server.ca")); cbn [negb] in Hlinks.
  - apply bind_Ok in Hlinks as (u3 & [] & Hca & Hlinks).
    apply wrap_Ok, Symlink_at_Ok in Hca as (_ & _ & ->).
    injection Hlinks as <-. unfold set_fs. simpl.
    rewrite <- !List.app_assoc. reflexivity.
  - injection Hlinks as <-. unfold set_fs. simpl.
    rewrite <- !List.app_assoc. reflexivity.
Qed.

(** X4. The two transactions of [Bootstrap] are separate: when the local
    steps pass and the registry check then fails, [Bootstrap] returns that
    error with the first raft node already committed to the local
    database, and nothing else changed. *)
Theorem Bootstrap_registry_check_fails_after_local_commit
    (E : Env) name s config nd e :
  name ≠ "" →
  membershipCheckNoLeftoverClusterCert (fs s) (VarDir s) = None →
  node_ConfigLoad (node_db s) = (config, None) →
  membershipCheckNodeStateForBootstrapOrJoin (node_db s) (ClusterAddress config)
    = None →
  RaftNodeFirst (node_db s) (ClusterAddress config) = (nd, None) →
  membershipCheckClusterStateForBootstrapOrJoin (cluster_db s) = Some e →
  Bootstrap E name s = (set_node_db s nd, Err e).
Proof.
  intros Hname Hcert Hconfig Hlocal Hfirst Hcluster. unfold Bootstrap.
  destruct (decide (name = "")); [contradiction|].
  unfold bind at 1. rewrite Hcert. simpl.
  unfold bind at 1, Node_Transaction, bind, wrap, ntx_read, ntx_check, ntx_write,
    call, ret.
  rewrite Hconfig. simpl. rewrite Hlocal. simpl. rewrite Hfirst. simpl.
  unfold Cluster_Transaction, tx_check. cbn [cluster_db set_node_db].
  rewrite Hcluster. simpl. reflexivity.
Qed.

(** X5. A failed [Accept] leaves the state as it found it, with one
    exception: when the roster cannot be read from the gateway, the row of
    the new member stays in the registry, marked pending. *)
Theorem Accept_failure_leaves (E : Env) name address schema api arch s s' e :
  Accept E name address schema api arch s = (s', Err e) →
  s' = s
  ∨ ∃ id cd1 cd2 nodes e0,
      NodeAddWithArch (cluster_db s) name address arch = ((id, cd1), None) ∧
      NodePending cd1 id true = (cd2, None) ∧
      gateway_currentRaftNodes E = (nodes, Some e0) ∧
      e = "Failed to get raft nodes from the log: " +:+ e0 ∧
      s' = set_cluster_db s cd2.
Proof.
  unfold Accept.
  destruct (decide (name = "")); [intros [= <- _]; auto|].
  destruct (decide (address = "")); [intros [= <- _]; auto|].
  unfold bind at 1.
  unfold Cluster_Transaction, bind, tx_check, wrap, tx_insert, tx_write, ret, call.
  destruct (membershipCheckClusterStateForAccept _ _ _ _ _); simpl;
    [intros [= <- _]; left; destruct s; reflexivity|].
  destruct (NodeAddWithArch _ _ _ _) as [[id cd1] [e1|]] eqn:Hadd; simpl;
    [intros [= <- _]; left; destruct s; reflexivity|].
  destruct (NodePending cd1 id true) as [cd2 [e2|]] eqn:Hpending; simpl;
    [intros [= <- _]; left; destruct s; reflexivity|].
  destruct (gateway_currentRaftNodes E) as [nodes [e0|]] eqn:Hroster; simpl.
  - intros [= <- <-]. right. exists id, cd1, cd2, nodes, e0.
    repeat (split; [reflexivity || assumption|]). destruct s; reflexivity.
  - destruct (Accept_count nodes 0 0). discriminate.
Qed.


Lemma RemoveAll_at_Ok (E : Env) path s s' :
  RemoveAll_at E path s = (s', Ok tt) →
  os_RemoveAll E path = None ∧
  s' = set_fs s (filter (λ kv, ¬ (kv.1 = path ∨ String.prefix (path +:+ "/") kv.1 = true))
                        (fs s)).
Proof.
  unfold RemoveAll_at. destruct (os_RemoveAll E path); [discriminate|].
  intros [= <-]. auto.
Qed.

Lemma notifyNodesUpdate_run raftNodes id cert s :
  notifyNodesUpdate raftNodes id cert s =
    (mkState (VarDir s) (fs s) (node_db s) (cluster_db s) (gateway_cert s)
       (trace s ++ map (λ n, EvHeartbeatNode (Address n))
                       (filter (λ n, ID n ≠ id) raftNodes)),
     Ok tt).
Proof.
  revert s. induction raftNodes as [|node rest IH]; intros s; simpl.
  - rewrite app_nil_r. destruct s; reflexivity.
  - rewrite filter_cons. destruct (decide (ID node = id)) as [Heq|Hne].
    + rewrite decide_False by (intros Hne; apply Hne, Heq). apply IH.
    + rewrite decide_True by exact Hne. unfold bind. rewrite IH. simpl.
      rewrite <- List.app_assoc. reflexivity.
Qed.



(** Steps that cannot panic. *)

Lemma bind_Panic {A B} (m : @M NodeDB ClusterDB A) (k : A → @M NodeDB ClusterDB B)
    s s' p :
  bind m k s = (s', Panic p) →
  m s = (s', Panic p) ∨ ∃ s1 a, m s = (s1, Ok a) ∧ k a s1 = (s', Panic p).
Proof.
  unfold bind. destruct (m s) as [s1 [a|e|q]]; intros Hrun.
  - right. eauto.
  - discriminate.
  - left. injection Hrun as <- <-. reflexivity.
Qed.

Lemma never_panics_bind {A B} (m : @M NodeDB ClusterDB A)
    (k : A → @M NodeDB ClusterDB B) :
  never_panics m → (∀ a, never_panics (k a)) → never_panics (bind m k).
Proof.
  intros Hm Hk s s' p Hrun.
  apply bind_Panic in Hrun as [Hrun|(s1 & a & _ & Hrun)].
  - exact (Hm _ _ _ Hrun).
  - exact (Hk _ _ _ _ Hrun).
Qed.

Lemma never_panics_wrap {A} msg (m : @M NodeDB ClusterDB A) :
  never_panics m → never_panics (wrap msg m).
Proof.
  intros Hm s s' p. unfold wrap. destruct (m s) as [s1 [a|e|q]] eqn:Hrun;
    try discriminate.
  intros [= <- <-]. exact (Hm _ _ _ Hrun).
Qed.

Lemma never_panics_Cluster_Transaction {A} (m : @M NodeDB ClusterDB A) :
  never_panics m → never_panics (Cluster_Transaction m).
Proof.
  intros Hm s s' p. unfold Cluster_Transaction.
  destruct (m s) as [s1 [a|e|q]] eqn:Hrun; try discriminate.
  intros _. exact (Hm _ _ _ Hrun).
Qed.

Lemma never_panics_Node_Transaction {A} (m : @M NodeDB ClusterDB A) :
  never_panics m → never_panics (Node_Transaction m).
Proof.
  intros Hm s s' p. unfold Node_Transaction.
  destruct (m s) as [s1 [a|e|q]] eqn:Hrun; try discriminate.
  intros _. exact (Hm _ _ _ Hrun).
Qed.

Lemma never_panics_ret {A} (a : A) : never_panics (@ret NodeDB ClusterDB A a).
Proof. intros s s' p. discriminate. Qed.

Lemma never_panics_go_return {A} (f : State → State) (a : A) (err : State → error) :
  never_panics (λ s, (f s, go_return a (err s))).
Proof. intros s s' p. destruct (err s); discriminate. Qed.

Lemma never_panics_call {A} (x : A * error) : never_panics (@call NodeDB ClusterDB A x).
Proof. intros s s' p. unfold call. destruct x.2; discriminate. Qed.

Lemma never_panics_extern ev err : never_panics (@extern NodeDB ClusterDB ev err).
Proof. intros s s' p. unfold extern. destruct err; discriminate. Qed.

Lemma never_panics_tx_read {A} (op : ClusterDB → A * error) :
  never_panics (@tx_read NodeDB ClusterDB A op).
Proof. intros s s' p. unfold tx_read. apply never_panics_call. Qed.

Lemma never_panics_tx_write (op : ClusterDB → ClusterDB * error) :
  never_panics (@tx_write NodeDB ClusterDB op).
Proof.
  intros s s' p. unfold tx_write. destruct (op (cluster_db s)) as [d [e|]];
    discriminate.
Qed.

Lemma never_panics_tx_check (op : ClusterDB → error) :
  never_panics (@tx_check NodeDB ClusterDB op).
Proof. intros s s' p. unfold tx_check. destruct (op (cluster_db s)); discriminate. Qed.

Lemma never_panics_ntx_read {A} (op : NodeDB → A * error) :
  never_panics (@ntx_read NodeDB ClusterDB A op).
Proof. intros s s' p. unfold ntx_read. apply never_panics_call. Qed.

Lemma never_panics_ntx_write (op : NodeDB → NodeDB * error) :
  never_panics (@ntx_write NodeDB ClusterDB op).
Proof.
  intros s s' p. unfold ntx_write. destruct (op (node_db s)) as [d [e|]];
    discriminate.
Qed.

Lemma never_panics_ntx_check (op : NodeDB → error) :
  never_panics (@ntx_check NodeDB ClusterDB op).
Proof. intros s s' p. unfold ntx_check. destruct (op (node_db s)); discriminate. Qed.

Lemma never_panics_RemoveAll_at (E : Env) (path : State → string) :
  never_panics (λ s, RemoveAll_at E (path s) s).
Proof.
  intros s s' p. unfold RemoveAll_at. destruct (os_RemoveAll E (path s));
    discriminate.
Qed.

Lemma never_panics_notifyNodesUpdate raftNodes id cert :
  never_panics (@notifyNodesUpdate NodeDB ClusterDB raftNodes id cert).
Proof. intros s s' p. rewrite notifyNodesUpdate_run. discriminate. Qed.

Ltac solve_never_panics :=
  repeat first
    [ apply never_panics_bind; [|intros ?]
    | apply never_panics_wrap
    | apply never_panics_Cluster_Transaction
    | apply never_panics_Node_Transaction
    | apply never_panics_ret
    | apply never_panics_call
    | apply never_panics_extern
    | apply never_panics_tx_read
    | apply never_panics_tx_write
    | apply never_panics_tx_check
    | apply never_panics_ntx_read
    | apply never_panics_ntx_write
    | apply never_panics_ntx_check
    | apply never_panics_RemoveAll_at
    | apply never_panics_notifyNodesUpdate ].

(** A step that cannot panic, followed by the rest of the operation. *)
Lemma bind_Panic_next {A B} (m : @M NodeDB ClusterDB A)
    (k : A → @M NodeDB ClusterDB B) s s' p :
  never_panics m →
  bind m k s = (s', Panic p) →
  ∃ s1 a, m s = (s1, Ok a) ∧ k a s1 = (s', Panic p).
Proof.
  intros Hm Hrun. apply bind_Panic in Hrun as [Hrun|Hrun]; [|exact Hrun].
  destruct (Hm _ _ _ Hrun).
Qed.

(** X8. [Join] panics in one case only, with [joining node not found]:
    when no entry of the given roster has the node's configured address.
    By then the node has replaced its local roster by the given one, wiped
    its raft data and restarted the gateway under the given certificate;
    the registry is as it was and the leader has not been contacted. *)
Theorem Join_panic_inv (E : Env) cert name raftNodes s s' p :
  Join E cert name raftNodes s = (s', Panic p) →
  ∃ config nd,
    let address := ClusterAddress config in
    let dir := GlobalDatabaseDir (VarDir s) in
    p = "joining node not found" ∧
    node_ConfigLoad (node_db s) = (config, None) ∧
    Forall (λ n, Address n ≠ address) raftNodes ∧
    RaftNodesReplace (node_db s) raftNodes = (nd, None) ∧
    s' = mkState (VarDir s)
           (filter (λ kv, ¬ (kv.1 = dir ∨ String.prefix (dir +:+ "/") kv.1 = true))
                   (fs s))
           nd (cluster_db s) cert
           (trace s ++ [EvEnterExclusive; EvGatewayShutdown; EvGatewayInit]).
Proof.
  unfold Join. destruct (decide (name = "")); [discriminate|]. intros Hrun.
  apply bind_Panic_next in Hrun as (s1 & address & Hnode & Hrun);
    [|solve_never_panics].
  apply Node_Transaction_Ok in Hnode.
  apply bind_Ok in Hnode as (t1 & config & Hconfig & Hnode).
  apply wrap_Ok, ntx_read_Ok in Hconfig as [Hconfig ->].
  apply bind_Ok in Hnode as (t2 & [] & Hlocal & Hnode).
  apply ntx_check_Ok in Hlocal as [_ ->].
  apply bind_Ok in Hnode as (t3 & [] & Hreplace & Hnode).
  apply wrap_Ok, ntx_write_Ok in Hreplace as (nd & Hreplace & ->).
  injection Hnode as <- <-.
  apply bind_Panic_next in Hrun as (s2 & snapshot & Hsnap & Hrun);
    [|solve_never_panics].
  apply Cluster_Transaction_Ok in Hsnap.
  apply bind_Ok in Hsnap as (t4 & pools & Hpools & Hsnap).
  apply tx_read_Ok in Hpools as [Hpools ->].
  apply bind_Ok in Hsnap as (t5 & networks & Hnetworks & Hsnap).
  apply tx_read_Ok in Hnetworks as [Hnetworks ->].
  apply bind_Ok in Hsnap as (t6 & operations & Hoperations & Hsnap).
  apply tx_read_Ok in Hoperations as [Hoperations ->].
  injection Hsnap as <- <-.
  apply bind_Panic_next in Hrun as (s3 & [] & Hlock & Hrun);
    [|solve_never_panics].
  apply wrap_Ok, extern_Ok in Hlock as [_ ->].
  apply bind_Panic_next in Hrun as (s4 & [] & Hdown & Hrun);
    [|solve_never_panics].
  apply wrap_Ok, extern_Ok in Hdown as [_ ->].
  apply bind_Panic_next in Hrun as (s5 & [] & Hwipe & Hrun);
    [|solve_never_panics].
  apply wrap_Ok, RemoveAll_at_Ok in Hwipe as [_ ->].
  apply bind_Panic_next in Hrun as (s6 & [] & Hcert & Hrun);
    [|intros ? ? ?; discriminate].
  injection Hcert as <-.
  apply bind_Panic_next in Hrun as (s7 & [] & Hinit & Hrun);
    [|solve_never_panics].
  apply wrap_Ok, extern_Ok in Hinit as [_ ->].
  rewrite Join_find_var_info in Hrun. cbn [var_info] in Hrun.
  destruct (decide (Exists _ raftNodes)) as [|Hnone].
  - exfalso. revert Hrun. apply never_panics_bind; [solve_never_panics|intros ?].
    apply never_panics_bind; [solve_never_panics|intros ?].
    apply never_panics_wrap, never_panics_Cluster_Transaction.
    apply never_panics_bind; [solve_never_panics|intros ?].
    apply never_panics_bind; [solve_never_panics|intros ?].
    apply never_panics_bind; [solve_never_panics|intros ?].
    apply never_panics_bind; [|intros ?; solve_never_panics].
    destruct (decide _); solve_never_panics.
  - injection Hrun as <- <-. exists config, nd. cbn zeta.
    split; [reflexivity|]. split; [assumption|].
    split; [apply Forall_Exists_neg, Hnone|].
    split; [assumption|].
    unfold log, set_gateway_cert, set_fs, set_node_db. simpl.
    rewrite <- !List.app_assoc. reflexivity.
Qed.

(** The state after the grouping loop of [Rebalance]. *)
Lemma Rebalance_group_state (E : Env) nodesByAddress offlineThreshold rest :
  ∀ i g s s' g',
    Rebalance_group E nodesByAddress offlineThreshold i rest g s = (s', Ok g') →
    s' = mkState (VarDir s) (fs s) (node_db s)
           (Rebalance_registry E nodesByAddress offlineThreshold (gateway_cert s)
              (cluster_db s) rest)
           (gateway_cert s)
           (trace s ++ flat_map (Rebalance_calls E nodesByAddress offlineThreshold
                                   (gateway_cert s)) rest).
Proof.
  induction rest as [|info rest IH]; intros i g s s' g' Hrun.
  - injection Hrun as <- _. simpl. rewrite app_nil_r. destruct s; reflexivity.
  - cbn [Rebalance_group] in Hrun.
    apply bind_Ok in Hrun as (s1 & demoted & Hdemote & Hrun).
    cbn [flat_map Rebalance_registry foldl].
    fold (Rebalance_registry E nodesByAddress offlineThreshold (gateway_cert s)).
    assert (Hnext : ∃ g1, Rebalance_group E nodesByAddress offlineThreshold (S i)
                            rest g1 s1 = (s', Ok g')).
    { destruct demoted; eauto. }
    clear Hrun. destruct Hnext as [g1 Hrun]. apply IH in Hrun. clear IH.
    unfold Rebalance_calls at 1.
    pose proof (eq_refl : Rebalance_unreachable E nodesByAddress offlineThreshold
                            (gateway_cert s) info = _) as Hun.
    unfold Rebalance_unreachable at 2 in Hun.
    set (node := Rebalance_lookup nodesByAddress (Address info)) in *.
    destruct (NodeInfo.IsOffline (now E) node offlineThreshold &&
              bool_decide (Role info ≠ RaftSpare)).
    + apply bind_Ok in Hdemote as (s2 & err & Hprobe & Hdemote).
      injection Hprobe as <- <-.
      destruct (Connect_GetServer E (NodeInfo.Address node) (gateway_cert s))
        as [e|] eqn:Hconn.
      * apply bind_Ok in Hdemote as (s3 & [] & Hclient & Hdemote).
        apply bind_Ok in Hdemote as (s4 & [] & Hassign & Hdemote).
        apply bind_Ok in Hdemote as (s5 & [] & Hrole & Hdemote).
        injection Hdemote as <- _.
        apply wrap_Ok, extern_Ok in Hclient as [_ ->].
        apply wrap_Ok, extern_Ok in Hassign as [_ ->].
        apply wrap_Ok, Cluster_Transaction_Ok, tx_write_Ok in Hrole
          as (d & Hrole & ->).
        cbn [cluster_db log] in Hrole.
        rewrite bool_decide_eq_true_2 in Hun by discriminate.
        cbn [andb] in Hun. rewrite Hun, Hrole. subst s'. simpl.
        rewrite <- !List.app_assoc. reflexivity.
      * injection Hdemote as <- _.
        rewrite bool_decide_eq_false_2 in Hun
          by (intros Hn; apply Hn; reflexivity).
        cbn [andb] in Hun. rewrite Hun. subst s'. simpl.
        rewrite <- !List.app_assoc. reflexivity.
    + injection Hdemote as <- _. cbn [andb] in Hun. rewrite Hun. subst s'.
      simpl. reflexivity.
Qed.

(** What [Rebalance] reads before it groups the members. *)
Lemma Rebalance_Ok_reads (E : Env) s s' x :
  Rebalance E s = (s', Ok x) →
  ∃ roster config rows g,
    gateway_currentRaftNodes E = (roster, None) ∧
    ConfigLoad (cluster_db s) = (config, None) ∧
    Nodes (cluster_db s) = (rows, None) ∧
    Rebalance_group E (Rebalance_nodesByAddress rows) (OfflineThreshold config) 0
      roster (mkGroups [] [] [] roster) s = (s', Ok g).
Proof.
  intros Hrun. unfold Rebalance in Hrun.
  apply bind_Ok in Hrun as (s1 & roster & Hget & Hrun).
  apply wrap_Ok in Hget. unfold call in Hget.
  destruct (gateway_currentRaftNodes E) as [roster' [e|]] eqn:Hroster;
    [discriminate|]. injection Hget as <- <-.
  apply bind_Ok in Hrun as (s2 & loaded & Hload & Hrun).
  apply Cluster_Transaction_Ok in Hload.
  apply bind_Ok in Hload as (t1 & config & Hconfig & Hload).
  apply wrap_Ok, tx_read_Ok in Hconfig as [Hconfig ->].
  apply bind_Ok in Hload as (t2 & rows & Hrows & Hload).
  apply wrap_Ok, tx_read_Ok in Hrows as [Hrows ->].
  injection Hload as <- <-.
  apply bind_Ok in Hrun as (s3 & g & Hgroup & Hrun).
  exists roster', config, rows, g. repeat (split; [reflexivity || assumption|]).
  rewrite Hgroup. f_equal.
  destruct (_ && _).
  - destruct (decide _); injection Hrun as <- _; reflexivity.
  - destruct (bool_decide _).
    + destruct (decide _); injection Hrun as <- _; reflexivity.
    + injection Hrun as <- _; reflexivity.
Qed.

(** X9. The effects of a successful [Rebalance]. It touches neither the
    files, nor the local database, nor the certificate. Its calls to the
    outside are, member by member in roster order: a probe of each member
    that is offline and not a spare, followed, when the probe fails, by
    the local client and the assignment of the [spare] role to that
    member. The registry changes only by the [database] role taken from
    the rows of the members so demoted. No promotion is carried out. *)
Theorem Rebalance_effects (E : Env) s s' x roster config rows :
  gateway_currentRaftNodes E = (roster, None) →
  ConfigLoad (cluster_db s) = (config, None) →
  Nodes (cluster_db s) = (rows, None) →
  Rebalance E s = (s', Ok x) →
  let nodesByAddress := Rebalance_nodesByAddress rows in
  let threshold := OfflineThreshold config in
  s' = mkState (VarDir s) (fs s) (node_db s)
         (Rebalance_registry E nodesByAddress threshold (gateway_cert s)
            (cluster_db s) roster)
         (gateway_cert s)
         (trace s ++ flat_map (Rebalance_calls E nodesByAddress threshold
                                 (gateway_cert s)) roster).
Proof.
  intros Hroster Hconfig Hrows Hrun.
  apply Rebalance_Ok_reads in Hrun
    as (roster' & config' & rows' & g & Hroster' & Hconfig' & Hrows' & Hgroup).
  rewrite Hroster in Hroster'. rewrite Hconfig in Hconfig'. rewrite Hrows in Hrows'.
  injection Hroster' as <-. injection Hconfig' as <-. injection Hrows' as <-.
  apply Rebalance_group_state in Hgroup. exact Hgroup.
Qed.

(** The roster proposed by [Rebalance] has the members of the current one. *)

Lemma Rebalance_working_IDs (E : Env) nodesByAddress threshold cert roster :
  map ID (Rebalance_working E nodesByAddress threshold cert roster) = map ID roster.
Proof.
  unfold Rebalance_working. rewrite map_map. apply map_ext. intros info.
  destruct (Rebalance_unreachable _ _ _ _ _); reflexivity.
Qed.

Lemma Rebalance_assign_members nodes address role :
  map ID (Rebalance_assign nodes address role) = map ID nodes ∧
  map Address (Rebalance_assign nodes address role) = map Address nodes.
Proof.
  induction nodes as [|node rest [IHid IHaddr]]; [auto|]. simpl.
  destruct (decide (Address node = address)); simpl; [auto|].
  rewrite IHid, IHaddr. auto.
Qed.

Lemma Rebalance_proposal_roster nodesByAddress working role candidates addr roster' :
  Rebalance_proposal nodesByAddress working role candidates = (addr, Some roster') →
  roster' = working ∨ roster' = Rebalance_assign working addr role.
Proof.
  unfold Rebalance_proposal. destruct (decide _); intros [= <- <-]; auto.
Qed.

Lemma count_role_assign r nodes address role :
  (count_role r (Rebalance_assign nodes address role)
   ≤ (if decide (r = role) then 1 else 0) + count_role r nodes)%nat.
Proof.
  induction nodes as [|node rest IH]; simpl; [lia|].
  destruct (decide (Address node = address)).
  - rewrite !count_role_cons. cbn [Role set_Role].
    destruct (decide (role = r)), (decide (r = role)), (decide (Role node = r));
      try congruence; lia.
  - rewrite !count_role_cons. lia.
Qed.

Lemma count_role_working (E : Env) r nodesByAddress threshold cert roster :
  r ≠ RaftSpare →
  (count_role r (Rebalance_working E nodesByAddress threshold cert roster)
   ≤ count_role r roster)%nat.
Proof.
  intros Hr. induction roster as [|info rest IH]; [reflexivity|].
  cbn [Rebalance_working map].
  fold (Rebalance_working E nodesByAddress threshold cert rest).
  rewrite !count_role_cons.
  destruct (Rebalance_unreachable _ _ _ _ _); [|lia].
  cbn [Role set_Role]. rewrite decide_False by congruence.
  destruct (decide (Role info = r)); lia.
Qed.

(** X10. A roster proposed by [Rebalance] lists the members of the
    current roster: the same IDs and the same addresses, in the same
    order. Only roles differ. *)
Theorem Rebalance_keeps_members (E : Env) s s' addr roster roster' :
  gateway_currentRaftNodes E = (roster, None) →
  Rebalance E s = (s', Ok (addr, Some roster')) →
  map ID roster' = map ID roster ∧ map Address roster' = map Address roster.
Proof.
  intros Hroster Hrun.
  destruct (Rebalance_Ok_reads _ _ _ _ Hrun)
    as (roster0 & config & rows & g & Hroster0 & Hconfig & Hrows & _).
  rewrite Hroster in Hroster0. injection Hroster0 as <-.
  pose proof (Rebalance_Ok_inv _ _ _ _ _ _ _ _ Hroster Hconfig Hrows Hrun) as Hinv.
  cbn zeta in Hinv.
  set (nodesByAddress := Rebalance_nodesByAddress rows) in *.
  set (working := Rebalance_working E nodesByAddress (OfflineThreshold config)
                    (gateway_cert s) roster) in *.
  assert (Hshape : roster' = working ∨
                   ∃ role, roster' = Rebalance_assign working addr role).
  { destruct (_ && _).
    - symmetry in Hinv. apply Rebalance_proposal_roster in Hinv as [->| ->]; eauto.
    - destruct (bool_decide _); [|discriminate].
      symmetry in Hinv. apply Rebalance_proposal_roster in Hinv as [->| ->]; eauto. }
  assert (Hworking : map ID working = map ID roster ∧
                     map Address working = map Address roster).
  { split; [apply Rebalance_working_IDs|apply Rebalance_working_addresses]. }
  destruct Hshape as [->|[role ->]]; [exact Hworking|].
  destruct (Rebalance_assign_members working addr role) as [-> ->].
  exact Hworking.
Qed.

(** X11. [Rebalance] keeps the roster within its limits: when the current
    roster has at most [MaxVoters] voters and at most [MaxStandBys]
    stand-bys, so has every roster it proposes. *)
Theorem Rebalance_within_limits (E : Env) s s' addr roster roster' :
  gateway_currentRaftNodes E = (roster, None) →
  Rebalance E s = (s', Ok (addr, Some roster')) →
  (count_role RaftVoter roster ≤ MaxVoters)%nat →
  (count_role RaftStandBy roster ≤ MaxStandBys)%nat →
  (count_role RaftVoter roster' ≤ MaxVoters)%nat ∧
  (count_role RaftStandBy roster' ≤ MaxStandBys)%nat.
Proof.
  intros Hroster Hrun Hvoters Hstandbys.
  destruct (Rebalance_Ok_reads _ _ _ _ Hrun)
    as (roster0 & config & rows & g & Hroster0 & Hconfig & Hrows & _).
  rewrite Hroster in Hroster0. injection Hroster0 as <-.
  pose proof (Rebalance_Ok_inv _ _ _ _ _ _ _ _ Hroster Hconfig Hrows Hrun) as Hinv.
  cbn zeta in Hinv.
  set (nodesByAddress := Rebalance_nodesByAddress rows) in *.
  set (working := Rebalance_working E nodesByAddress (OfflineThreshold config)
                    (gateway_cert s) roster) in *.
  assert (Hv : (count_role RaftVoter working ≤ count_role RaftVoter roster)%nat)
    by (apply count_role_working; discriminate).
  assert (Hs : (count_role RaftStandBy working ≤ count_role RaftStandBy roster)%nat)
    by (apply count_role_working; discriminate).
  destruct (bool_decide (count_role RaftVoter working < MaxVoters) &&
            bool_decide (1 < count_role RaftVoter working)) eqn:Hpromote.
  - apply andb_true_iff in Hpromote as [Hlt _]. apply bool_decide_eq_true in Hlt.
    symmetry in Hinv. apply Rebalance_proposal_roster in Hinv as [->| ->].
    + lia.
    + pose proof (count_role_assign RaftVoter working addr RaftVoter) as H1.
      pose proof (count_role_assign RaftStandBy working addr RaftVoter) as H2.
      rewrite decide_True in H1 by reflexivity.
      rewrite decide_False in H2 by discriminate. lia.
  - destruct (bool_decide (count_role RaftStandBy working < MaxStandBys)) eqn:Hsb;
      [|discriminate].
    apply bool_decide_eq_true in Hsb.
    symmetry in Hinv. apply Rebalance_proposal_roster in Hinv as [->| ->].
    + lia.
    + pose proof (count_role_assign RaftVoter working addr RaftStandBy) as H1.
      pose proof (count_role_assign RaftStandBy working addr RaftStandBy) as H2.
      rewrite decide_False in H1 by discriminate.
      rewrite decide_True in H2 by reflexivity. lia.
Qed.

(** X12. [Rebalance] finds nothing to do, and returns an empty address
    with no roster, exactly when, after the demotions, the voters are not
    two and the stand-bys are at least [MaxStandBys]. *)
Theorem Rebalance_nothing_to_do (E : Env) s s' addr r roster config rows :
  gateway_currentRaftNodes E = (roster, None) →
  ConfigLoad (cluster_db s) = (config, None) →
  Nodes (cluster_db s) = (rows, None) →
  Rebalance E s = (s', Ok (addr, r)) →
  let working := Rebalance_working E (Rebalance_nodesByAddress rows)
                   (OfflineThreshold config) (gateway_cert s) roster in
  (r = None ↔ count_role RaftVoter working ≠ 2 ∧
              (MaxStandBys ≤ count_role RaftStandBy working)%nat)
  ∧ (r = None → addr = "").
Proof.
  intros Hroster Hconfig Hrows Hrun working.
  pose proof (Rebalance_Ok_inv _ _ _ _ _ _ _ _ Hroster Hconfig Hrows Hrun) as Hinv.
  cbn zeta in Hinv. fold working in Hinv. unfold Rebalance_proposal in Hinv.
  unfold MaxVoters, MaxStandBys in *.
  destruct (bool_decide (count_role RaftVoter working < 3)) eqn:Hlt;
    [apply bool_decide_eq_true in Hlt|apply bool_decide_eq_false in Hlt];
    (destruct (bool_decide (1 < count_role RaftVoter working)) eqn:Hgt;
      [apply bool_decide_eq_true in Hgt|apply bool_decide_eq_false in Hgt]);
    cbn [andb] in Hinv;
    try (destruct (bool_decide (count_role RaftStandBy working < 2)) eqn:Hsb;
      [apply bool_decide_eq_true in Hsb|apply bool_decide_eq_false in Hsb]);
    repeat match type of Hinv with context [decide ?P] => destruct (decide P) end;
    injection Hinv as -> ->;
    (split; [split; [intros; try discriminate; lia|intros []; try reflexivity; lia]
            |intros; try discriminate; reflexivity]).
Qed.

(** The calls of the liveness check: at most one probe of the address. *)
Lemma isMemberOnline_trace (E : Env) cert address s s' r :
  isMemberOnline E cert address s = (s', r) →
  trace s' = trace s ∨ trace s' = trace s ++ [EvHasConnectivity address].
Proof.
  unfold isMemberOnline.
  unfold bind at 1, Cluster_Transaction, bind, tx_read, call, ret.
  destruct (NodeOfflineThreshold (cluster_db s)) as [threshold [e|]]; simpl;
    [intros [= <- _]; auto|].
  destruct (NodeByAddress (cluster_db s) address) as [node [e|]]; simpl;
    [intros [= <- _]; auto|].
  destruct (NodeInfo.IsOffline (now E) node threshold); simpl;
    intros [= <- _]; auto.
Qed.

Lemma Handover_scan_trace (E : Env) cert roster address rest :
  ∀ i s s' r,
    Handover_scan E cert roster address i rest s = (s', r) →
    ∃ probed,
      trace s' = trace s ++ map EvHasConnectivity probed ∧
      Forall (λ a, a ≠ address ∧
                   ∃ n, n ∈ rest ∧ Address n = a ∧ Role n ≠ RaftVoter) probed.
Proof.
  induction rest as [|n rest IH]; intros i s s' r Hrun.
  - injection Hrun as <- _. exists []. simpl. rewrite app_nil_r. auto.
  - cbn [Handover_scan] in Hrun.
    assert (Hlater : ∀ probed,
              Forall (λ a, a ≠ address ∧
                           ∃ m, m ∈ rest ∧ Address m = a ∧ Role m ≠ RaftVoter) probed →
              Forall (λ a, a ≠ address ∧
                           ∃ m, m ∈ n :: rest ∧ Address m = a ∧ Role m ≠ RaftVoter)
                     probed).
    { intros probed Hp. eapply Forall_impl; [exact Hp|].
      intros a (Ha & m & Hm & Hrest).
      split; [exact Ha|]. exists m. split; [apply elem_of_cons; auto|exact Hrest]. }
    destruct (bool_decide (Role n = RaftVoter) || bool_decide (Address n = address))
      eqn:Hskip.
    + apply IH in Hrun as (probed & Htrace & Hprobed). eauto.
    + apply orb_false_iff in Hskip as [Hrole Haddr].
      apply bool_decide_eq_false in Hrole, Haddr.
      assert (Hhere : Address n ≠ address ∧
                      ∃ m, m ∈ n :: rest ∧ Address m = Address n ∧ Role m ≠ RaftVoter).
      { split; [exact Haddr|]. exists n. split; [apply elem_of_cons; auto|auto]. }
      unfold bind, wrap in Hrun.
      destruct (isMemberOnline E cert (Address n) s) as [s1 [online|e|p]] eqn:Hlive;
        apply isMemberOnline_trace in Hlive.
      * assert (Hrest : ∃ probed,
                  trace s' = trace s1 ++ map EvHasConnectivity probed ∧
                  Forall (λ a, a ≠ address ∧
                               ∃ m, m ∈ n :: rest ∧ Address m = a ∧
                                    Role m ≠ RaftVoter) probed).
        { destruct online; simpl in Hrun.
          - injection Hrun as <- _. exists []. simpl. rewrite app_nil_r. auto.
          - apply IH in Hrun as (probed & Htrace & Hprobed). eauto. }
        destruct Hrest as (probed & Htrace & Hprobed).
        destruct Hlive as [Hlive|Hlive]; rewrite Hlive in Htrace.
        -- eauto.
        -- exists (Address n :: probed). split; [|constructor; assumption].
           rewrite Htrace, <- List.app_assoc. reflexivity.
      * injection Hrun as <- _. destruct Hlive as [Hlive|Hlive].
        -- exists []. simpl. rewrite app_nil_r. auto.
        -- exists [Address n]. split; [exact Hlive|]. constructor; auto.
      * injection Hrun as <- _. destruct Hlive as [Hlive|Hlive].
        -- exists []. simpl. rewrite app_nil_r. auto.
        -- exists [Address n]. split; [exact Hlive|]. constructor; auto.
Qed.

(** X13. [Handover] only plans. However it ends, it has changed neither
    the files nor a database nor the certificate, and the only calls it
    has made to the outside are connectivity probes, each to a member of
    the roster that is not a voter and is not the leaving one. *)
Theorem Handover_only_probes (E : Env) address s s' r :
  Handover E address s = (s', r) →
  same_stores s s' ∧
  ∃ probed,
    trace s' = trace s ++ map EvHasConnectivity probed ∧
    Forall (λ a, a ≠ address ∧
                 ∃ n, n ∈ (gateway_currentRaftNodes E).1 ∧ Address n = a ∧
                      Role n ≠ RaftVoter) probed.
Proof.
  assert (Hnothing : ∀ P : string → Prop, ∃ probed,
            trace s = trace s ++ map EvHasConnectivity probed ∧ Forall P probed).
  { intros P. exists []. simpl. rewrite app_nil_r. auto. }
  unfold Handover. destruct (gateway_currentRaftNodes E) as [nodes [e|]]; simpl.
  { intros [= <- _]. split; [apply same_stores_refl|apply Hnothing]. }
  destruct (Handover_find nodes address) as [[|]|].
  - intros Hrun. split.
    + destruct (Handover_scan_spec E address nodes nodes 0 s) as (s1 & Hrun1 & Hsame).
      rewrite Hrun in Hrun1. injection Hrun1 as <- _. exact Hsame.
    + eapply Handover_scan_trace, Hrun.
  - intros [= <- _]. split; [apply same_stores_refl|apply Hnothing].
  - intros [= <- _]. split; [apply same_stores_refl|apply Hnothing].
Qed.

Lemma count_role_alter_voter nodes i n :
  nodes !! i = Some n →
  Role n ≠ RaftVoter →
  count_role RaftVoter (alter (λ m, set_Role m RaftVoter) i nodes)
  = S (count_role RaftVoter nodes).
Proof.
  revert i. induction nodes as [|m nodes IH]; intros i Hi Hrole; [discriminate|].
  destruct i as [|i]; simpl in Hi.
  - injection Hi as ->. cbn [alter list_alter]. rewrite !count_role_cons.
    cbn [Role set_Role]. rewrite decide_True by reflexivity.
    rewrite decide_False by exact Hrole. reflexivity.
  - cbn [alter list_alter]. rewrite !count_role_cons.
    change (list_alter (λ m, set_Role m RaftVoter) i nodes)
      with (alter (λ m, set_Role m RaftVoter) i nodes).
    rewrite (IH i Hi Hrole). lia.
Qed.

(** X14. A roster proposed by [Handover] is the current one with a single
    entry made voter. That entry was not a voter, does not have the
    leaving address, and its address is the one returned; the voters are
    one more than before. The leaving address belongs to a voter of the
    current roster. Without a roster, the returned address is empty. *)
Theorem Handover_promotes_one (E : Env) address nodes s s' addr r :
  gateway_currentRaftNodes E = (nodes, None) →
  Handover E address s = (s', Ok (addr, r)) →
  match r with
  | None => addr = ""
  | Some roster' =>
    (∃ leaving, leaving ∈ nodes ∧ Address leaving = address ∧ Role leaving = RaftVoter)
    ∧ ∃ i n, nodes !! i = Some n ∧ Role n ≠ RaftVoter ∧ Address n ≠ address ∧
             addr = Address n ∧
             roster' = alter (λ m, set_Role m RaftVoter) i nodes ∧
             count_role RaftVoter roster' = S (count_role RaftVoter nodes)
  end.
Proof.
  intros Hroster. unfold Handover. rewrite Hroster, Handover_find_spec.
  destruct (list_find (λ n, Address n = address) nodes) as [[j leaving]|] eqn:Hfind;
    [|intros [= _ <- <-]; reflexivity].
  destruct (decide (Role leaving ≠ RaftVoter)) as [|Hvoter];
    [intros [= _ <- <-]; reflexivity|].
  apply list_find_Some in Hfind as (Hj & Haddr & _).
  destruct (Handover_scan_spec E address nodes nodes 0 s) as (s1 & -> & _).
  unfold Handover_expected_from.
  destruct (list_find _ nodes) as [[k n]|] eqn:Hstop;
    [|intros [= _ <- <-]; reflexivity].
  apply list_find_Some in Hstop as (Hk & (Hrole & Hother & _) & _).
  destruct (liveness _ _ _ _); [|discriminate..].
  intros [= _ <- <-]. split.
  - exists leaving. split; [eapply list_elem_of_lookup_2, Hj|].
    split; [exact Haddr|].
    destruct (decide (Role leaving = RaftVoter)); [assumption|contradiction].
  - exists k, n. simpl. repeat (split; [assumption || reflexivity|]).
    apply (count_role_alter_voter nodes k n); assumption.
Qed.

(** The entries of [List]. *)

Lemma List_fill_entries (E : Env) threshold nodes :
  ∀ version result result' version',
    List_fill E threshold nodes version result = Ok (result', version') →
    ∃ new, result' = result ++ new ∧
           Forall2 (λ row m, List_entry_of row m ∧ List_status_of E threshold row m)
                   nodes new.
Proof.
  induction nodes as [|node rest IH]; intros version result result' version' Hrun.
  - injection Hrun as <- _. exists []. rewrite app_nil_r. auto.
  - cbn [List_fill] in Hrun.
    destruct (osarch_ArchitectureName (NodeInfo.Architecture node))
      as [arch [e|]] eqn:Harch; [discriminate|].
    destruct (NodeInfo.IsOffline (now E) node threshold) eqn:Hoffline;
      destruct (util_CompareVersions version (NodeInfo_Version node)) as [n [e|]];
      apply IH in Hrun as (new & -> & Hnew);
      (eexists (_ :: new); split; [rewrite <- List.app_assoc; reflexivity|]);
      (constructor; [|exact Hnew]); (split; [repeat split; assumption|]);
      unfold List_status_of; cbn [Status Message]; auto 10.
Qed.

Lemma List_block_entries (E : Env) threshold version nodes :
  ∀ result,
    Forall2 (λ row m, List_entry_of row m ∧ List_status_of E threshold row m)
            nodes result →
    Forall2 (λ row m, List_entry_of row m ∧ List_status_of E threshold row m)
            nodes (List_block nodes version result).
Proof.
  induction nodes as [|node rest IH]; intros result Hall.
  - inversion Hall. constructor.
  - inversion Hall as [|row m rows ms [Hentry Hstatus] Hrest]; subst.
    cbn [List_block]. constructor; [|apply IH, Hrest].
    destruct (decide (Status m ≠ "Online")) as [|Honline]; [auto|].
    destruct (util_CompareVersions version (NodeInfo_Version node)) as [n [e|]];
      [auto|].
    destruct (decide (n = 2%Z)); [|auto].
    split; [exact Hentry|].
    assert (Hstatus' : Status m = "Online")
      by (destruct (decide (Status m = "Online")); [assumption|contradiction]).
    unfold List_status_of in *. cbn [Status Message].
    destruct Hstatus as [[Hs _]|[(Hs & _)|[(_ & _ & Hoff)|(Hs & _)]]];
      try (rewrite Hstatus' in Hs; discriminate).
    auto 10.
Qed.

Lemma List_Ok_inv (E : Env) s s' members :
  List E s = (s', Ok members) →
  ∃ rows threshold,
    Nodes (cluster_db s) = (rows, None) ∧
    NodeOfflineThreshold (cluster_db s) = (threshold, None) ∧
    s' = s ∧
    Forall2 (λ row m, List_entry_of row m ∧ List_status_of E threshold row m)
            rows members.
Proof.
  unfold List. intros Hrun.
  apply bind_Ok in Hrun as (s1 & [rows threshold] & Hload & Hrun).
  apply Cluster_Transaction_Ok in Hload.
  apply bind_Ok in Hload as (t1 & rows' & Hrows & Hload).
  apply tx_read_Ok in Hrows as [Hrows ->].
  apply bind_Ok in Hload as (t2 & threshold' & Hthreshold & Hload).
  apply tx_read_Ok in Hthreshold as [Hthreshold ->].
  injection Hload as <- <- <-.
  exists rows', threshold'. do 2 (split; [assumption|]).
  destruct (rows' !! 0) as [first|]; [|discriminate].
  apply bind_Ok in Hrun as (s2 & [result version] & Hfill & Hrun).
  injection Hrun as <- <-.
  assert (s2 = s) as -> by congruence. split; [reflexivity|].
  assert (Hfill' : List_fill E threshold' rows' (NodeInfo_Version first) []
                   = Ok (result, version)) by congruence.
  apply List_fill_entries in Hfill' as (new & -> & Hnew).
  apply List_block_entries. exact Hnew.
Qed.

(** X15. A successful [List] changes nothing and returns one entry per
    registry row, in the order of the rows: the entry has the name of the
    row, its address behind [https://], its roles, the name of its
    architecture, and is flagged as a database member exactly when the
    roles include [database]. *)
Theorem List_one_entry_per_row (E : Env) s s' rows members :
  Nodes (cluster_db s) = (rows, None) →
  List E s = (s', Ok members) →
  s' = s ∧ Forall2 List_entry_of rows members.
Proof.
  intros Hrows Hrun.
  apply List_Ok_inv in Hrun as (rows' & threshold & Hrows' & _ & -> & Hall).
  rewrite Hrows in Hrows'. injection Hrows' as <-.
  split; [reflexivity|]. eapply Forall2_impl; [exact Hall|].
  intros row m [Hentry _]. exact Hentry.
Qed.

(** X16. The status of an entry of [List] is one of [Broken], [Offline],
    [Online] and [Blocked]. [Offline] is given only to a row whose
    heartbeat is older than the offline threshold, [Online] and [Blocked]
    only to a row whose heartbeat is not; each status comes with its own
    message. *)
Theorem List_status_meaning (E : Env) s s' rows threshold members :
  Nodes (cluster_db s) = (rows, None) →
  NodeOfflineThreshold (cluster_db s) = (threshold, None) →
  List E s = (s', Ok members) →
  Forall2 (List_status_of E threshold) rows members.
Proof.
  intros Hrows Hthreshold Hrun.
  apply List_Ok_inv in Hrun as (rows' & threshold' & Hrows' & Hthreshold' & _ & Hall).
  rewrite Hrows in Hrows'. injection Hrows' as <-.
  rewrite Hthreshold in Hthreshold'. injection Hthreshold' as <-.
  eapply Forall2_impl; [exact Hall|].
  intros row m [_ Hstatus]. exact Hstatus.
Qed.

Lemma List_fill_first_unnamed (E : Env) threshold nodes :
  ∀ version result,
    match list_find List_unnamed nodes with
    | Some (_, row) =>
      ∃ e, (osarch_ArchitectureName (NodeInfo.Architecture row)).2 = Some e ∧
           List_fill E threshold nodes version result = Err e
    | None =>
      ∃ result' version',
        List_fill E threshold nodes version result = Ok (result', version')
    end.
Proof.
  induction nodes as [|node rest IH]; intros version result; [simpl; eauto|].
  cbn [list_find List_fill].
  destruct (decide (List_unnamed node)) as [Hbad|Hgood];
    [unfold List_unnamed in Hbad|unfold List_unnamed in Hgood];
    destruct (osarch_ArchitectureName (NodeInfo.Architecture node))
      as [arch [e|]] eqn:Harch; cbn [snd] in *.
  - simpl. eauto.
  - contradiction.
  - destruct Hgood. discriminate.
  - destruct (NodeInfo.IsOffline (now E) node threshold);
      destruct (util_CompareVersions version (NodeInfo_Version node)) as [n [e|]];
      match goal with |- context [List_fill E threshold rest ?v ?r] =>
        specialize (IH v r) end;
      destruct (list_find List_unnamed rest) as [[k row]|]; simpl in *; exact IH.
Qed.

(** X17. With a registry that has rows, [List] fails only over an
    architecture that has no name: it returns the error of the first such
    row, and succeeds when there is none. A row whose version cannot be
    compared does not make it fail. *)
Theorem List_fails_on_first_unnamed_architecture (E : Env) s row rows threshold :
  Nodes (cluster_db s) = (row :: rows, None) →
  NodeOfflineThreshold (cluster_db s) = (threshold, None) →
  match list_find List_unnamed (row :: rows) with
  | Some (_, unnamed) =>
    ∃ e, (osarch_ArchitectureName (NodeInfo.Architecture unnamed)).2 = Some e ∧
         List E s = (s, Err e)
  | None => ∃ members, List E s = (s, Ok members)
  end.
Proof.
  intros Hrows Hthreshold.
  pose proof (List_fill_first_unnamed E threshold (row :: rows)
                (NodeInfo_Version row) []) as Hfill.
  assert (Hrun : List E s =
                 (s, match List_fill E threshold (row :: rows)
                             (NodeInfo_Version row) [] with
                     | Ok (result, version) =>
                       Ok (List_block (row :: rows) version result)
                     | Err e => Err e
                     | Panic p => Panic p
                     end)).
  { unfold List.
    unfold bind at 1, Cluster_Transaction, bind, tx_read, call, ret.
    rewrite Hrows. simpl. rewrite Hthreshold. simpl.
    destruct (osarch_ArchitectureName (NodeInfo.Architecture row)) as [arch [e|]];
      [reflexivity|].
    destruct (NodeInfo.IsOffline (now E) row threshold);
      destruct (util_CompareVersions _ _) as [n [e|]];
      match goal with |- context [List_fill E threshold rows ?v ?r] =>
        destruct (List_fill E threshold rows v r) as [[result version]|e'|p] end;
      reflexivity. }
  destruct (list_find List_unnamed (row :: rows)) as [[k unnamed]|].
  - destruct Hfill as (e & Harch & Hfill). exists e. split; [exact Harch|].
    rewrite Hrun, Hfill. reflexivity.
  - destruct Hfill as (result' & version' & Hfill). eexists.
    rewrite Hrun, Hfill. reflexivity.
Qed.

End MoreProperties.

(** * Properties of Assign, Leave and Purge *)

Section MemberProperties.

Context {NodeDB ClusterDB : Type} `{!NodeTx NodeDB} `{!ClusterTx ClusterDB}.
Context {members : ClusterTxMembers ClusterDB}.
Context `{!Platform} `{!Fmt}.

Implicit Types s t : @State NodeDB ClusterDB.
Implicit Types d : @Daemon NodeDB ClusterDB.

Lemma bindD_Ok {A B} (m : @D NodeDB ClusterDB A) (k : A → @D NodeDB ClusterDB B)
    d d' (b : B) :
  bindD m k d = (d', Ok b) →
  ∃ d1 a, m d = (d1, Ok a) ∧ k a d1 = (d', Ok b).
Proof.
  unfold bindD. destruct (m d) as [d1 [a|e|p]]; intros Hrun;
    [eauto|discriminate..].
Qed.

Lemma lift_Ok {A} (m : @M NodeDB ClusterDB A) d d' (a : A) :
  lift m d = (d', Ok a) →
  ∃ s', m (d_state d) = (s', Ok a) ∧
        d' = mkDaemon s' (gateway_info d) (client_removed d).
Proof.
  unfold lift. destruct (m (d_state d)) as [s' r]. intros [= <- ->]. eauto.
Qed.

(** X18. The check for leaving passes exactly when the member holds
    nothing and the registry does not have exactly one row; so it passes
    on a registry without rows. A member that holds something is refused
    with the message of the database, given to [fmt.Errorf] as its format,
    and the only member with [node is the only node in the cluster]. *)
Theorem membershipCheckClusterStateForLeave_passes_iff
    (tx : ClusterDB) nodeID message nodes :
  NodeIsEmpty tx nodeID = (message, None) →
  Nodes tx = (nodes, None) →
  (membershipCheckClusterStateForLeave tx nodeID = None ↔
     message = "" ∧ length nodes ≠ 1)
  ∧ (message ≠ "" →
     membershipCheckClusterStateForLeave tx nodeID = Some (fmt_Sprintf message))
  ∧ (message = "" → length nodes = 1 →
     membershipCheckClusterStateForLeave tx nodeID
       = Some "node is the only node in the cluster").
Proof.
  intros Hempty Hnodes. unfold membershipCheckClusterStateForLeave.
  rewrite Hempty, Hnodes.
  destruct (decide (message ≠ "")) as [Hmessage|Hmessage].
  - split; [split; [discriminate|intros [-> _]; contradiction]|].
    split; [reflexivity|intros ->; contradiction].
  - assert (message = "") as -> by (destruct (decide (message = "")); tauto).
    destruct (decide (length nodes = 1)) as [Hone|Hmore].
    + split; [split; [discriminate|intros [_ Hn]; contradiction]|].
      split; [intros Hn; contradiction|reflexivity].
    + split; [split; auto|]. split; intros; contradiction.
Qed.

Lemma Leave_find_spec nodes address :
  Leave_find nodes address = snd <$> list_find (λ n, Address n = address) nodes.
Proof.
  induction nodes as [|node rest IH]; [reflexivity|]. simpl.
  destruct (decide (Address node = address)); [reflexivity|].
  rewrite IH. destruct (list_find _ rest) as [[k n']|]; reflexivity.
Qed.

(** X19. What a successful [Leave] has done. It returns the address of
    the registry row with the given name; unless forced, the check for
    leaving has passed. When an entry of the raft roster has that
    address, the dqlite client was asked to remove the ID of the first
    such entry, and that one only; when none has, nothing was asked. The
    registry still has the row. *)
Theorem Leave_Ok_inv (E : Env) (G : GatewayEnv) name force d d' address :
  Leave E G name force d = (d', Ok address) →
  ∃ node roster,
    NodeByName (cluster_db (d_state d)) name = (node, None) ∧
    address = NodeInfo.Address node ∧
    (force = false →
     membershipCheckClusterStateForLeave (cluster_db (d_state d)) (NodeInfo.ID node)
       = None) ∧
    gateway_currentRaftNodes E = (roster, None) ∧
    d' = match list_find (λ n, Address n = address) roster with
         | None => d
         | Some (_, info) =>
           mkDaemon (log (d_state d) EvGetClient) (gateway_info d)
                    (client_removed d ++ [ID info])
         end.
Proof.
  unfold Leave. intros Hrun.
  apply bindD_Ok in Hrun as (d1 & address' & Hcheck & Hrun).
  apply lift_Ok in Hcheck as (s1 & Hcheck & ->).
  apply Cluster_Transaction_Ok in Hcheck. unfold Leave_check in Hcheck.
  apply bind_Ok in Hcheck as (t1 & node & Hnode & Hcheck).
  apply tx_read_Ok in Hnode as [Hnode ->].
  apply bind_Ok in Hcheck as (t2 & [] & Hleave & Hcheck).
  injection Hcheck as <- <-.
  assert (Hforce : t2 = d_state d ∧
            (force = false →
             membershipCheckClusterStateForLeave (cluster_db (d_state d))
               (NodeInfo.ID node) = None)).
  { destruct force; simpl in Hleave.
    - injection Hleave as <-. split; [reflexivity|discriminate].
    - apply tx_check_Ok in Hleave as [Hpass ->]. auto. }
  destruct Hforce as [-> Hforce].
  apply bindD_Ok in Hrun as (d2 & roster & Hroster & Hrun).
  apply lift_Ok in Hroster as (s2 & Hroster & ->).
  unfold call in Hroster.
  destruct (gateway_currentRaftNodes E) as [roster' [e|]] eqn:Hget;
    [discriminate|]. injection Hroster as <- <-.
  cbn [d_state gateway_info client_removed] in Hrun.
  rewrite Leave_find_spec in Hrun.
  assert (Haddress : address = NodeInfo.Address node).
  { destruct (list_find _ roster') as [[k info]|]; simpl in Hrun.
    - apply bindD_Ok in Hrun as (d3 & [] & _ & Hrun).
      apply bindD_Ok in Hrun as (d4 & [] & _ & Hrun).
      injection Hrun as _ <-. reflexivity.
    - injection Hrun as _ <-. reflexivity. }
  subst address.
  exists node, roster'. do 4 (split; [reflexivity || assumption|]).
  destruct (list_find _ roster') as [[k info]|]; simpl in Hrun.
  - apply bindD_Ok in Hrun as (d3 & [] & Hclient & Hrun).
    apply lift_Ok in Hclient as (s3 & Hclient & ->).
    apply wrap_Ok, extern_Ok in Hclient as [_ ->].
    apply bindD_Ok in Hrun as (d4 & [] & Hremove & Hrun).
    injection Hrun as <-.
    destruct (client_Remove G (ID info)); [discriminate|].
    injection Hremove as <-. reflexivity.
  - injection Hrun as <-. destruct d; reflexivity.
Qed.

Lemma Leave_find_Some nodes address info :
  Leave_find nodes address = Some info → info ∈ nodes ∧ Address info = address.
Proof.
  rewrite Leave_find_spec.
  destruct (list_find _ nodes) as [[k n]|] eqn:Hfind; [|discriminate].
  intros [= <-]. apply list_find_Some in Hfind as (Hk & Haddr & _).
  split; [eapply list_elem_of_lookup_2, Hk|exact Haddr].
Qed.

Lemma Leave_check_frame name force s s' r :
  Cluster_Transaction (Leave_check name force) s = (s', r) →
  s' = s ∧
  match r with
  | Ok a => ∃ node, NodeByName (cluster_db s) name = (node, None) ∧
                    a = NodeInfo.Address node
  | _ => True
  end.
Proof.
  unfold Cluster_Transaction, Leave_check, bind, tx_read, call, tx_check, ret.
  destruct (NodeByName (cluster_db s) name) as [node [e|]]; simpl.
  { intros [= <- <-]. split; [apply set_cluster_db_id|trivial]. }
  destruct force; simpl.
  - intros [= <- <-]. eauto.
  - destruct (membershipCheckClusterStateForLeave _ _); simpl; intros [= <- <-].
    + split; [apply set_cluster_db_id|trivial].
    + eauto.
Qed.

(** X20. However [Leave] ends, it has changed neither the registry, nor
    the local database, nor the files, nor the certificate, nor the
    [info] of the gateway: the member is not removed from the database.
    It has asked for at most one removal, of the ID of an entry of the
    raft roster that has the address of the named member, and only after
    it got the local client. *)
Theorem Leave_keeps_stores (E : Env) (G : GatewayEnv) name force d d' r :
  Leave E G name force d = (d', r) →
  same_stores (d_state d) (d_state d') ∧
  gateway_info d' = gateway_info d ∧
  ((client_removed d' = client_removed d ∧
    (trace (d_state d') = trace (d_state d) ∨
     trace (d_state d') = trace (d_state d) ++ [EvGetClient]))
   ∨ ∃ node info,
       NodeByName (cluster_db (d_state d)) name = (node, None) ∧
       info ∈ (gateway_currentRaftNodes E).1 ∧
       Address info = NodeInfo.Address node ∧
       client_removed d' = client_removed d ++ [ID info] ∧
       trace (d_state d') = trace (d_state d) ++ [EvGetClient]).
Proof.
  unfold Leave. unfold bindD at 1, lift at 1.
  destruct (Cluster_Transaction (Leave_check name force) (d_state d))
    as [s1 r1] eqn:Hcheck.
  apply Leave_check_frame in Hcheck as [-> Hr1].
  destruct r1 as [address|e|p];
    [|intros [= <- _]; split; [apply same_stores_refl|auto]..].
  destruct Hr1 as (node & Hnode & ->).
  unfold bindD at 1, lift at 1, call.
  destruct (gateway_currentRaftNodes E) as [roster [e|]]; simpl.
  { intros [= <- _]. simpl. split; [apply same_stores_refl|auto]. }
  destruct (Leave_find roster (NodeInfo.Address node)) as [info|] eqn:Hfind.
  - apply Leave_find_Some in Hfind as [Hin Haddr].
    unfold bindD, lift, wrap, extern, retD. simpl.
    destruct (gateway_getClient E); simpl.
    { intros [= <- _]. simpl. split; [apply same_stores_log|auto]. }
    destruct (client_Remove G (ID info)); simpl;
      intros [= <- _]; simpl; (split; [apply same_stores_log|]);
      (split; [reflexivity|]); right; exists node, info; auto.
  - intros [= <- _]. simpl. split; [apply same_stores_refl|auto].
Qed.

(** X21. Forcing only skips the check: whenever [Leave] succeeds without
    force, it does the same and returns the same with force. *)
Theorem Leave_force_skips_check (E : Env) (G : GatewayEnv) name d d' address :
  Leave E G name false d = (d', Ok address) →
  Leave E G name true d = (d', Ok address).
Proof.
  unfold Leave. intros Hrun.
  apply bindD_Ok in Hrun as (d1 & address' & Hcheck & Hrun).
  assert (Hforced : lift (Cluster_Transaction (Leave_check name true)) d
                    = (d1, Ok address')).
  { apply lift_Ok in Hcheck as (s1 & Hcheck & ->).
    apply Cluster_Transaction_Ok in Hcheck. unfold Leave_check in Hcheck.
    apply bind_Ok in Hcheck as (t1 & node & Hnode & Hcheck).
    apply tx_read_Ok in Hnode as [Hnode ->].
    apply bind_Ok in Hcheck as (t2 & [] & Hleave & Hcheck).
    apply tx_check_Ok in Hleave as [_ ->]. injection Hcheck as <- <-.
    unfold lift, Cluster_Transaction, Leave_check, bind, tx_read, call.
    rewrite Hnode. reflexivity. }
  unfold bindD at 1. rewrite Hforced. exact Hrun.
Qed.

(** X22. [Purge] is all or nothing. When it succeeds, the row with the
    given name was cleared and then removed, by its ID, and nothing else
    changed. When it fails, the state is as before, also when the row was
    cleared and its removal then failed; a name without a row fails with
    [failed to get node], followed by the name. *)
Theorem Purge_all_or_nothing name s s' r :
  Purge name s = (s', r) →
  match r with
  | Ok _ =>
    ∃ node cd1 cd2,
      NodeByName (cluster_db s) name = (node, None) ∧
      NodeClear (cluster_db s) (NodeInfo.ID node) = (cd1, None) ∧
      NodeRemove cd1 (NodeInfo.ID node) = (cd2, None) ∧
      s' = set_cluster_db s cd2
  | Err e =>
    s' = s ∧
    ∀ node e0, NodeByName (cluster_db s) name = (node, Some e0) →
               e = ("failed to get node " +:+ name) +:+ ": " +:+ e0
  | Panic _ => False
  end.
Proof.
  unfold Purge, Cluster_Transaction, bind, wrap, tx_read, tx_write, call.
  destruct (NodeByName (cluster_db s) name) as [node [e0|]]; simpl.
  { intros [= <- <-]. split; [apply set_cluster_db_id|].
    intros node' e1 [= _ <-]. reflexivity. }
  destruct (NodeClear (cluster_db s) (NodeInfo.ID node)) as [cd1 [e1|]] eqn:Hclear;
    simpl.
  { intros [= <- <-]. split; [destruct s; reflexivity|]. intros ? ? [=]. }
  destruct (NodeRemove cd1 (NodeInfo.ID node)) as [cd2 [e2|]] eqn:Hremove; simpl.
  { intros [= <- <-]. split; [destruct s; reflexivity|]. intros ? ? [=]. }
  intros [= <- <-]. exists node, cd1, cd2.
  repeat (split; [reflexivity || assumption|]). destruct s; reflexivity.
Qed.

(** The loop of [Assign] keeps the last entry that has the address. *)
Lemma Assign_find_spec nodes address info :
  Assign_find nodes address info =
  match last (filter (λ n, Address n = address) nodes) with
  | Some n => Some n
  | None => info
  end.
Proof.
  revert info. induction nodes as [|node rest IH]; intros info; [reflexivity|].
  cbn [Assign_find]. rewrite IH, filter_cons.
  destruct (decide (Address node = address)); [|reflexivity].
  rewrite last_cons. destruct (last (filter _ rest)); reflexivity.
Qed.

(** X23. [Assign] refuses, before it changes anything, a member that has
    no address and a roster that has no entry with the address of the
    member. *)
Theorem Assign_refuses_unlisted_member (E : Env) (G : GatewayEnv) nodes d address :
  NodeAddress (cluster_db (d_state d)) = (address, None) →
  address = "" ∨ Forall (λ n, Address n ≠ address) nodes →
  Assign E G nodes d =
    (d, Err (if decide (address = "")
             then "Cluster member is not exposed on the network"
             else "This node is not included in the given list of database nodes")).
Proof.
  intros Haddress Hcase. unfold Assign.
  unfold bindD at 1, lift at 1, Cluster_Transaction, wrap, tx_read, call.
  rewrite Haddress. simpl.
  destruct (decide (address = "")) as [|Hset]; [destruct d; reflexivity|].
  destruct Hcase as [|Hnone]; [contradiction|].
  rewrite Assign_find_spec.
  assert (filter (λ n, Address n = address) nodes = []) as ->.
  { induction Hnone as [|n l Hn _ IH]; [reflexivity|].
    rewrite filter_cons, decide_False by exact Hn. exact IH. }
  destruct d; reflexivity.
Qed.

(** X24. What a successful [Assign] has done. The roster has an entry
    with the address of the member, and the last such entry is the
    identity of the node: the leader was asked to give its ID its role,
    the [info] of the gateway is that entry, and the registry row of the
    member got the [database] role when the role is voter and lost it
    otherwise. The local roster is the given one. The raft data is wiped
    and the gateway restarted only when no dqlite node was running. At the
    end every entry with another ID got a heartbeat. *)
Theorem Assign_Ok_inv (E : Env) (G : GatewayEnv) nodes d d' :
  Assign E G nodes d = (d', Ok tt) →
  ∃ address info nd cd,
    let s := d_state d in
    let dir := GlobalDatabaseDir (VarDir s) in
    let running := gateway_IsDqliteNode G in
    NodeAddress (cluster_db s) = (address, None) ∧
    address ≠ "" ∧
    last (filter (λ n, Address n = address) nodes) = Some info ∧
    RaftNodesReplace (node_db s) nodes = (nd, None) ∧
    (if decide (Role info = RaftVoter) then NodeAddRole else NodeRemoveRole)
      (cluster_db s) (cluster_GetNodeID G) ClusterRoleDatabase = (cd, None) ∧
    d' = mkDaemon
           (mkState (VarDir s)
              (if running then fs s
               else filter (λ kv, ¬ (kv.1 = dir ∨
                                     String.prefix (dir +:+ "/") kv.1 = true)) (fs s))
              nd cd (gateway_cert s)
              (trace s ++
               (if running then [] else [EvEnterExclusive; EvGatewayInit]) ++
               [EvFindLeader; EvClientAssign (ID info) (Role info)] ++
               map (λ n, EvHeartbeatNode (Address n))
                   (filter (λ n, ID n ≠ ID info) nodes)))
           (Some info) (client_removed d).
Proof.
  unfold Assign. intros Hrun.
  apply bindD_Ok in Hrun as (d1 & address & Haddress & Hrun).
  apply lift_Ok in Haddress as (s1 & Haddress & ->).
  apply Cluster_Transaction_Ok, wrap_Ok, tx_read_Ok in Haddress as [Haddress ->].
  destruct (decide (address = "")) as [|Hset]; [discriminate|].
  rewrite Assign_find_spec in Hrun.
  destruct (last (filter _ nodes)) as [info|] eqn:Hlast; [|discriminate].
  apply bindD_Ok in Hrun as (d2 & [] & Hreplace & Hrun).
  apply lift_Ok in Hreplace as (s2 & Hreplace & ->).
  apply Node_Transaction_Ok, wrap_Ok, ntx_write_Ok in Hreplace
    as (nd & Hreplace & ->).
  apply bindD_Ok in Hrun as (d3 & [] & Hrestart & Hrun).
  assert (Hd3 : d3 = mkDaemon
            (mkState (VarDir (d_state d))
               (if gateway_IsDqliteNode G then fs (d_state d)
                else filter (λ kv, ¬ (kv.1 = GlobalDatabaseDir (VarDir (d_state d)) ∨
                               String.prefix (GlobalDatabaseDir (VarDir (d_state d))
                                              +:+ "/") kv.1 = true))
                            (fs (d_state d)))
               nd (cluster_db (d_state d)) (gateway_cert (d_state d))
               (trace (d_state d) ++
                (if gateway_IsDqliteNode G then []
                 else [EvEnterExclusive; EvGatewayInit])))
            (gateway_info d) (client_removed d)).
  { destruct (gateway_IsDqliteNode G).
    - injection Hrestart as <-. simpl. rewrite app_nil_r. reflexivity.
    - apply bindD_Ok in Hrestart as (d4 & [] & Hlock & Hrestart).
      apply lift_Ok in Hlock as (s4 & Hlock & ->).
      apply wrap_Ok, extern_Ok in Hlock as [_ ->].
      apply bindD_Ok in Hrestart as (d5 & [] & Hwipe & Hrestart).
      apply lift_Ok in Hwipe as (s5 & Hwipe & ->).
      apply wrap_Ok, RemoveAll_at_Ok in Hwipe as [_ ->].
      apply lift_Ok in Hrestart as (s6 & Hinit & ->).
      apply wrap_Ok, extern_Ok in Hinit as [_ ->].
      unfold log, set_fs, set_node_db. simpl.
      rewrite <- !List.app_assoc. reflexivity. }
  subst d3.
  apply bindD_Ok in Hrun as (d6 & [] & Hleader & Hrun).
  apply lift_Ok in Hleader as (s6 & Hleader & ->).
  apply wrap_Ok, extern_Ok in Hleader as [_ ->].
  apply bindD_Ok in Hrun as (d7 & [] & Hassign & Hrun).
  apply lift_Ok in Hassign as (s7 & Hassign & ->).
  apply wrap_Ok, extern_Ok in Hassign as [_ ->].
  apply bindD_Ok in Hrun as (d8 & [] & Hinfo & Hrun).
  injection Hinfo as <-.
  apply bindD_Ok in Hrun as (d9 & [] & Hrole & Hrun).
  apply lift_Ok in Hrole as (s9 & Hrole & ->).
  apply wrap_Ok, Cluster_Transaction_Ok, wrap_Ok, tx_write_Ok in Hrole
    as (cd & Hrole & ->).
  apply lift_Ok in Hrun as (s10 & Hnotify & ->).
  rewrite notifyNodesUpdate_run in Hnotify. injection Hnotify as <-.
  exists address, info, nd, cd. cbn zeta.
  repeat (split; [assumption|]).
  unfold log, set_fs, set_node_db, set_cluster_db. simpl.
  rewrite <- !List.app_assoc. reflexivity.
Qed.

(** X25. [Assign] is not all or nothing. When the registry refuses the
    change of role after the leader has assigned the role, [Assign]
    fails and the registry is as before, but the local roster has been
    replaced, the role is assigned in the raft cluster and the [info] of
    the gateway is the new identity; no heartbeat is sent. *)
Theorem Assign_registry_failure_after_assignment
    (E : Env) (G : GatewayEnv) nodes d address info nd cd e :
  let s := d_state d in
  NodeAddress (cluster_db s) = (address, None) →
  address ≠ "" →
  last (filter (λ n, Address n = address) nodes) = Some info →
  RaftNodesReplace (node_db s) nodes = (nd, None) →
  gateway_IsDqliteNode G = true →
  client_FindLeader E = None →
  client_Assign E (ID info) (Role info) = None →
  (if decide (Role info = RaftVoter) then NodeAddRole else NodeRemoveRole)
    (cluster_db s) (cluster_GetNodeID G) ClusterRoleDatabase = (cd, Some e) →
  Assign E G nodes d =
    (mkDaemon
       (mkState (VarDir s) (fs s) nd (cluster_db s) (gateway_cert s)
          (trace s ++ [EvFindLeader; EvClientAssign (ID info) (Role info)]))
       (Some info) (client_removed d),
     Err ("Cluster database initialization failed: " +:+
          "Failed to change role for the node: " +:+ e)).
Proof.
  intros s Haddress Hset Hlast Hreplace Hrunning Hleader Hassign Hrole.
  unfold Assign.
  unfold bindD at 1, lift at 1, Cluster_Transaction, wrap, tx_read, call.
  fold s. rewrite Haddress. simpl.
  rewrite decide_False by exact Hset.
  rewrite Assign_find_spec, Hlast, Hrunning.
  unfold bindD, lift, Node_Transaction, Cluster_Transaction, wrap, ntx_write,
    tx_write, extern, retD.
  simpl. fold s. rewrite Hreplace. simpl. rewrite Hleader, Hassign. simpl.
  rewrite Hrole. unfold set_cluster_db, log, set_node_db. simpl.
  rewrite <- !List.app_assoc. reflexivity.
Qed.

End MemberProperties.

(** ** The further properties on concrete clusters *)

(** X1 on a node that has an address and an empty roster cache. *)
Lemma membershipCheckNodeState_passes_iff_witness :
  let tx := Mem.mkNodeDB Cluster.a1 [] in
  RaftNodes tx = ([], None) ∧
  membershipCheckNodeStateForBootstrapOrJoin tx Cluster.a1 = None.
Proof.
  cbv zeta.
  assert (Hnodes : RaftNodes (Mem.mkNodeDB Cluster.a1 []) = ([], None))
    by reflexivity.
  split; [assumption|].
  apply (proj1 (membershipCheckNodeState_passes_iff
                  (Mem.mkNodeDB Cluster.a1 []) Cluster.a1 [] Hnodes)).
  split; [discriminate|reflexivity].
Defined.

(** X2 on a node with a stray [cluster.key]. *)
Lemma Bootstrap_rejects_leftover_cert_witness :
  let s := Members.leftover_key in
  "n1" ≠ "" ∧
  PathExists (fs s) (filepath_Join (VarDir s) "cluster.crt")
  || PathExists (fs s) (filepath_Join (VarDir s) "cluster.key")
  || PathExists (fs s) (filepath_Join (VarDir s) "cluster.ca") = true ∧
  Bootstrap (Mem.env []) "n1" s =
    (s, Err "inconsistent state: found leftover cluster certificate").
Proof.
  cbv zeta.
  assert (Hname : "n1" ≠ "") by discriminate.
  assert (Hfile :
    PathExists (fs Members.leftover_key)
      (filepath_Join (VarDir Members.leftover_key) "cluster.crt")
    || PathExists (fs Members.leftover_key)
         (filepath_Join (VarDir Members.leftover_key) "cluster.key")
    || PathExists (fs Members.leftover_key)
         (filepath_Join (VarDir Members.leftover_key) "cluster.ca") = true)
    by (vm_compute; reflexivity).
  repeat (split; [assumption|]).
  exact (Bootstrap_rejects_leftover_cert (Mem.env []) "n1" Members.leftover_key
           Hname Hfile).
Defined.

(** X3 on a node that has a [server.ca]: the three symlinks are made. *)
Lemma Bootstrap_Ok_inv_witness :
  let s := Members.with_ca in
  let s' := (Bootstrap (Mem.env []) "n1" s).1 in
  Bootstrap (Mem.env []) "n1" s = (s', Ok tt) ∧
  fs s' !! "/var/lib/lxd/cluster.ca" = Some (Symlink "server.ca") ∧
  trace s' = [EvEnterExclusive; EvGatewayShutdown; EvGatewayInit; EvWaitLeadership].
Proof.
  cbv zeta.
  assert (Hrun : Bootstrap (Mem.env []) "n1" Members.with_ca
                 = ((Bootstrap (Mem.env []) "n1" Members.with_ca).1, Ok tt))
    by (vm_compute; reflexivity).
  split; [assumption|].
  pose proof (Bootstrap_Ok_inv (Mem.env []) "n1" Members.with_ca _ Hrun) as Hinv.
  cbv zeta in Hinv.
  destruct Hinv as (config & nd & cd1 & cd2 & Hconfig & _ & _ & _ & Hstate).
  rewrite Hstate. split; [vm_compute; reflexivity|reflexivity].
Defined.

(** X4 on a node whose registry has a leftover row. *)
Lemma Bootstrap_registry_check_fails_after_local_commit_witness :
  let s := Members.leftover_row in
  let config := Build_NodeConfig Cluster.a1 in
  let nd := Mem.mkNodeDB Cluster.a1 [mkRaftNode 1 Cluster.a1 RaftVoter] in
  let e := "inconsistent state: found leftover entries in nodes" in
  "n1" ≠ "" ∧
  membershipCheckNoLeftoverClusterCert (fs s) (VarDir s) = None ∧
  node_ConfigLoad (node_db s) = (config, None) ∧
  membershipCheckNodeStateForBootstrapOrJoin (node_db s) (ClusterAddress config)
    = None ∧
  RaftNodeFirst (node_db s) (ClusterAddress config) = (nd, None) ∧
  membershipCheckClusterStateForBootstrapOrJoin (cluster_db s) = Some e ∧
  Bootstrap (Mem.env []) "n1" s = (set_node_db s nd, Err e).
Proof.
  cbv zeta.
  assert (Hname : "n1" ≠ "") by discriminate.
  assert (Hcert : membershipCheckNoLeftoverClusterCert (fs Members.leftover_row)
                    (VarDir Members.leftover_row) = None)
    by (vm_compute; reflexivity).
  assert (Hconfig : node_ConfigLoad (node_db Members.leftover_row)
                    = (Build_NodeConfig Cluster.a1, None)) by reflexivity.
  assert (Hlocal : membershipCheckNodeStateForBootstrapOrJoin
                     (node_db Members.leftover_row)
                     (ClusterAddress (Build_NodeConfig Cluster.a1)) = None)
    by (vm_compute; reflexivity).
  assert (Hfirst : RaftNodeFirst (node_db Members.leftover_row)
                     (ClusterAddress (Build_NodeConfig Cluster.a1))
                   = (Mem.mkNodeDB Cluster.a1 [mkRaftNode 1 Cluster.a1 RaftVoter],
                      None)) by reflexivity.
  assert (Hcluster : membershipCheckClusterStateForBootstrapOrJoin
                       (cluster_db Members.leftover_row)
                     = Some "inconsistent state: found leftover entries in nodes")
    by (vm_compute; reflexivity).
  repeat (split; [assumption|]).
  exact (Bootstrap_registry_check_fails_after_local_commit (Mem.env []) "n1"
           Members.leftover_row _ _ _ Hname Hcert Hconfig Hlocal Hfirst Hcluster).
Defined.

(** X5 when the gateway cannot read the roster: the pending row of the
    new member stays. *)
Lemma Accept_failure_leaves_witness :
  let s := Cluster.two_members in
  let s' := (Accept Members.no_roster "n3" Cluster.a3 1 1 0 s).1 in
  let e := "Failed to get raft nodes from the log: no leader" in
  Accept Members.no_roster "n3" Cluster.a3 1 1 0 s = (s', Err e) ∧
  (s' = s
   ∨ ∃ id cd1 cd2 nodes e0,
       NodeAddWithArch (cluster_db s) "n3" Cluster.a3 0 = ((id, cd1), None) ∧
       NodePending cd1 id true = (cd2, None) ∧
       gateway_currentRaftNodes Members.no_roster = (nodes, Some e0) ∧
       e = "Failed to get raft nodes from the log: " +:+ e0 ∧
       s' = set_cluster_db s cd2).
Proof.
  cbv zeta.
  assert (Hrun : Accept Members.no_roster "n3" Cluster.a3 1 1 0 Cluster.two_members
                 = ((Accept Members.no_roster "n3" Cluster.a3 1 1 0
                       Cluster.two_members).1,
                    Err "Failed to get raft nodes from the log: no leader"))
    by (vm_compute; reflexivity).
  split; [assumption|].
  exact (Accept_failure_leaves Members.no_roster "n3" Cluster.a3 1 1 0
           Cluster.two_members _ _ Hrun).
Defined.


(** X8 on the node at [a2] joining with a roster that does not list it. *)
Lemma Join_panic_inv_witness :
  let E := Mem.env Cluster.lone_voter in
  let s := Cluster.joining in
  let s' := (Join E "cluster" "n2" Cluster.lone_voter s).1 in
  Join E "cluster" "n2" Cluster.lone_voter s = (s', Panic "joining node not found") ∧
  node_db s' = Mem.mkNodeDB Cluster.a2 Cluster.lone_voter ∧
  cluster_db s' = cluster_db s ∧
  gateway_cert s' = "cluster" ∧
  trace s' = [EvEnterExclusive; EvGatewayShutdown; EvGatewayInit].
Proof.
  cbv zeta.
  assert (Hrun : Join (Mem.env Cluster.lone_voter) "cluster" "n2"
                   Cluster.lone_voter Cluster.joining
                 = ((Join (Mem.env Cluster.lone_voter) "cluster" "n2"
                       Cluster.lone_voter Cluster.joining).1,
                    Panic "joining node not found"))
    by (vm_compute; reflexivity).
  split; [assumption|].
  pose proof (Join_panic_inv (Mem.env Cluster.lone_voter) "cluster" "n2"
                Cluster.lone_voter Cluster.joining _ _ Hrun) as Hinv.
  cbv zeta in Hinv.
  destruct Hinv as (config & nd & _ & _ & _ & Hreplace & Hstate).
  injection Hreplace as <-. rewrite Hstate. repeat split.
Defined.

(** X9 where the third voter is stale and out of reach: it is probed and
    demoted, and its row loses the [database] role. *)
Lemma Rebalance_effects_witness :
  let E := Mem.env Cluster.stale_voter in
  let s := Cluster.stale_voter_state in
  let s' := (Rebalance E s).1 in
  let rows := map Mem.info (Mem.rows (cluster_db s)) in
  gateway_currentRaftNodes E = (Cluster.stale_voter, None) ∧
  ConfigLoad (cluster_db s) = (Build_ClusterConfig 20, None) ∧
  Nodes (cluster_db s) = (rows, None) ∧
  Rebalance E s =
    (s',
     Ok (Cluster.a4,
         Some [mkRaftNode 1 Cluster.a1 RaftVoter; mkRaftNode 2 Cluster.a2 RaftVoter;
               mkRaftNode 3 Cluster.a3 RaftSpare; mkRaftNode 4 Cluster.a4 RaftVoter;
               mkRaftNode 5 Cluster.a5 RaftSpare])) ∧
  node_db s' = node_db s ∧
  trace s' = [EvConnect Cluster.a3; EvGetClient; EvClientAssign 3 RaftSpare].
Proof.
  cbv zeta.
  set (E := Mem.env Cluster.stale_voter).
  set (s := Cluster.stale_voter_state).
  set (rows := map Mem.info (Mem.rows (cluster_db s))).
  assert (Hroster : gateway_currentRaftNodes E = (Cluster.stale_voter, None))
    by reflexivity.
  assert (Hconfig : ConfigLoad (cluster_db s) = (Build_ClusterConfig 20, None))
    by reflexivity.
  assert (Hrows : Nodes (cluster_db s) = (rows, None)) by (vm_compute; reflexivity).
  assert (Hrun : Rebalance E s =
    ((Rebalance E s).1,
     Ok (Cluster.a4,
         Some [mkRaftNode 1 Cluster.a1 RaftVoter; mkRaftNode 2 Cluster.a2 RaftVoter;
               mkRaftNode 3 Cluster.a3 RaftSpare; mkRaftNode 4 Cluster.a4 RaftVoter;
               mkRaftNode 5 Cluster.a5 RaftSpare]))) by (vm_compute; reflexivity).
  repeat (split; [assumption|]).
  pose proof (Rebalance_effects E s _ _ _ _ _ Hroster Hconfig Hrows Hrun) as Hstate.
  cbv zeta in Hstate. rewrite Hstate. split; [reflexivity|].
  vm_compute. reflexivity.
Defined.

(** X10 on the same cluster: the proposal lists the five members. *)
Lemma Rebalance_keeps_members_witness :
  let E := Mem.env Cluster.stale_voter in
  let s := Cluster.stale_voter_state in
  let roster' :=
    [mkRaftNode 1 Cluster.a1 RaftVoter; mkRaftNode 2 Cluster.a2 RaftVoter;
     mkRaftNode 3 Cluster.a3 RaftSpare; mkRaftNode 4 Cluster.a4 RaftVoter;
     mkRaftNode 5 Cluster.a5 RaftSpare] in
  gateway_currentRaftNodes E = (Cluster.stale_voter, None) ∧
  Rebalance E s = ((Rebalance E s).1, Ok (Cluster.a4, Some roster')) ∧
  map ID roster' = map ID Cluster.stale_voter ∧
  map Address roster' = map Address Cluster.stale_voter.
Proof.
  cbv zeta.
  set (E := Mem.env Cluster.stale_voter).
  set (s := Cluster.stale_voter_state).
  assert (Hroster : gateway_currentRaftNodes E = (Cluster.stale_voter, None))
    by reflexivity.
  assert (Hrun : Rebalance E s =
    ((Rebalance E s).1,
     Ok (Cluster.a4,
         Some [mkRaftNode 1 Cluster.a1 RaftVoter; mkRaftNode 2 Cluster.a2 RaftVoter;
               mkRaftNode 3 Cluster.a3 RaftSpare; mkRaftNode 4 Cluster.a4 RaftVoter;
               mkRaftNode 5 Cluster.a5 RaftSpare]))) by (vm_compute; reflexivity).
  repeat (split; [assumption|]).
  exact (Rebalance_keeps_members E s _ _ _ _ Hroster Hrun).
Defined.

(** X11 on the same cluster: three voters and one stand-by before, three
    voters and no stand-by after. *)
Lemma Rebalance_within_limits_witness :
  let E := Mem.env Cluster.stale_voter in
  let s := Cluster.stale_voter_state in
  let roster' :=
    [mkRaftNode 1 Cluster.a1 RaftVoter; mkRaftNode 2 Cluster.a2 RaftVoter;
     mkRaftNode 3 Cluster.a3 RaftSpare; mkRaftNode 4 Cluster.a4 RaftVoter;
     mkRaftNode 5 Cluster.a5 RaftSpare] in
  gateway_currentRaftNodes E = (Cluster.stale_voter, None) ∧
  Rebalance E s = ((Rebalance E s).1, Ok (Cluster.a4, Some roster')) ∧
  (count_role RaftVoter Cluster.stale_voter ≤ MaxVoters)%nat ∧
  (count_role RaftStandBy Cluster.stale_voter ≤ MaxStandBys)%nat ∧
  (count_role RaftVoter roster' ≤ MaxVoters)%nat ∧
  (count_role RaftStandBy roster' ≤ MaxStandBys)%nat.
Proof.
  cbv zeta.
  set (E := Mem.env Cluster.stale_voter).
  set (s := Cluster.stale_voter_state).
  assert (Hroster : gateway_currentRaftNodes E = (Cluster.stale_voter, None))
    by reflexivity.
  assert (Hrun : Rebalance E s =
    ((Rebalance E s).1,
     Ok (Cluster.a4,
         Some [mkRaftNode 1 Cluster.a1 RaftVoter; mkRaftNode 2 Cluster.a2 RaftVoter;
               mkRaftNode 3 Cluster.a3 RaftSpare; mkRaftNode 4 Cluster.a4 RaftVoter;
               mkRaftNode 5 Cluster.a5 RaftSpare]))) by (vm_compute; reflexivity).
  assert (Hvoters : (count_role RaftVoter Cluster.stale_voter ≤ MaxVoters)%nat)
    by (vm_compute; lia).
  assert (Hstandbys : (count_role RaftStandBy Cluster.stale_voter ≤ MaxStandBys)%nat)
    by (vm_compute; lia).
  do 4 (split; [assumption|]).
  exact (Rebalance_within_limits E s _ _ _ _ Hroster Hrun Hvoters Hstandbys).
Defined.

(** X12 on a cluster of three voters and two stand-bys, all online. *)
Lemma Rebalance_nothing_to_do_witness :
  let E := Mem.env Members.full_roster in
  let s := Members.full_state in
  let rows := map Mem.info (Mem.rows (cluster_db s)) in
  let working := Rebalance_working E (Rebalance_nodesByAddress rows) 20
                   (gateway_cert s) Members.full_roster in
  gateway_currentRaftNodes E = (Members.full_roster, None) ∧
  ConfigLoad (cluster_db s) = (Build_ClusterConfig 20, None) ∧
  Nodes (cluster_db s) = (rows, None) ∧
  Rebalance E s = (s, Ok ("", None)) ∧
  count_role RaftVoter working ≠ 2 ∧
  (MaxStandBys ≤ count_role RaftStandBy working)%nat.
Proof.
  cbv zeta.
  set (E := Mem.env Members.full_roster).
  set (s := Members.full_state).
  set (rows := map Mem.info (Mem.rows (cluster_db s))).
  assert (Hroster : gateway_currentRaftNodes E = (Members.full_roster, None))
    by reflexivity.
  assert (Hconfig : ConfigLoad (cluster_db s) = (Build_ClusterConfig 20, None))
    by reflexivity.
  assert (Hrows : Nodes (cluster_db s) = (rows, None)) by (vm_compute; reflexivity).
  assert (Hrun : Rebalance E s = (s, Ok ("", None))) by (vm_compute; reflexivity).
  repeat (split; [assumption|]).
  apply (proj1 (Rebalance_nothing_to_do E s s "" None _ _ _
                  Hroster Hconfig Hrows Hrun)).
  reflexivity.
Defined.

(** X13 when the only voter leaves: the stale stand-by is probed, the
    next one is online. *)
Lemma Handover_only_probes_witness :
  let E := Mem.env Cluster.two_standbys in
  let s := Cluster.two_standbys_state in
  let s' := (Handover E Cluster.a1 s).1 in
  Handover E Cluster.a1 s = (s', (Handover E Cluster.a1 s).2) ∧
  same_stores s s' ∧
  ∃ probed,
    trace s' = trace s ++ map EvHasConnectivity probed ∧
    Forall (λ a, a ≠ Cluster.a1 ∧
                 ∃ n, n ∈ (gateway_currentRaftNodes E).1 ∧ Address n = a ∧
                      Role n ≠ RaftVoter) probed.
Proof.
  cbv zeta.
  assert (Hrun : Handover (Mem.env Cluster.two_standbys) Cluster.a1
                   Cluster.two_standbys_state
                 = ((Handover (Mem.env Cluster.two_standbys) Cluster.a1
                       Cluster.two_standbys_state).1,
                    (Handover (Mem.env Cluster.two_standbys) Cluster.a1
                       Cluster.two_standbys_state).2))
    by (apply surjective_pairing).
  split; [assumption|].
  exact (Handover_only_probes (Mem.env Cluster.two_standbys) Cluster.a1
           Cluster.two_standbys_state _ _ Hrun).
Defined.

(** X14 on the same cluster: the third member becomes a voter. *)
Lemma Handover_promotes_one_witness :
  let E := Mem.env Cluster.two_standbys in
  let s := Cluster.two_standbys_state in
  let roster' :=
    [mkRaftNode 1 Cluster.a1 RaftVoter; mkRaftNode 2 Cluster.a2 RaftStandBy;
     mkRaftNode 3 Cluster.a3 RaftVoter] in
  gateway_currentRaftNodes E = (Cluster.two_standbys, None) ∧
  Handover E Cluster.a1 s = ((Handover E Cluster.a1 s).1, Ok (Cluster.a3, Some roster')) ∧
  (∃ leaving, leaving ∈ Cluster.two_standbys ∧ Address leaving = Cluster.a1 ∧
              Role leaving = RaftVoter) ∧
  ∃ i n, Cluster.two_standbys !! i = Some n ∧ Role n ≠ RaftVoter ∧
         Address n ≠ Cluster.a1 ∧ Cluster.a3 = Address n ∧
         roster' = alter (λ m, set_Role m RaftVoter) i Cluster.two_standbys ∧
         count_role RaftVoter roster' = S (count_role RaftVoter Cluster.two_standbys).
Proof.
  cbv zeta.
  set (E := Mem.env Cluster.two_standbys).
  set (s := Cluster.two_standbys_state).
  assert (Hroster : gateway_currentRaftNodes E = (Cluster.two_standbys, None))
    by reflexivity.
  assert (Hrun : Handover E Cluster.a1 s =
    ((Handover E Cluster.a1 s).1,
     Ok (Cluster.a3,
         Some [mkRaftNode 1 Cluster.a1 RaftVoter; mkRaftNode 2 Cluster.a2 RaftStandBy;
               mkRaftNode 3 Cluster.a3 RaftVoter]))) by (vm_compute; reflexivity).
  repeat (split; [assumption|]).
  exact (Handover_promotes_one E Cluster.a1 _ s _ _ _ Hroster Hrun).
Defined.

(** X15 on a registry of two members. *)
Lemma List_one_entry_per_row_witness :
  let E := Mem.env Cluster.two_voters in
  let s := Cluster.two_members in
  let rows := map Mem.info (Mem.rows (cluster_db s)) in
  Nodes (cluster_db s) = (rows, None) ∧
  List E s =
    (s, Ok [mkClusterMember "n1" "https://10.0.0.1:8443" false "Online"
              "fully operational" [] "x86_64";
            mkClusterMember "n2" "https://10.0.0.2:8443" false "Online"
              "fully operational" [] "x86_64"]) ∧
  Forall2 List_entry_of rows
    [mkClusterMember "n1" "https://10.0.0.1:8443" false "Online"
       "fully operational" [] "x86_64";
     mkClusterMember "n2" "https://10.0.0.2:8443" false "Online"
       "fully operational" [] "x86_64"].
Proof.
  cbv zeta.
  set (E := Mem.env Cluster.two_voters).
  set (s := Cluster.two_members).
  set (rows := map Mem.info (Mem.rows (cluster_db s))).
  assert (Hrows : Nodes (cluster_db s) = (rows, None)) by (vm_compute; reflexivity).
  assert (Hrun : List E s =
    (s, Ok [mkClusterMember "n1" "https://10.0.0.1:8443" false "Online"
              "fully operational" [] "x86_64";
            mkClusterMember "n2" "https://10.0.0.2:8443" false "Online"
              "fully operational" [] "x86_64"])) by (vm_compute; reflexivity).
  repeat (split; [assumption|]).
  exact (proj2 (List_one_entry_per_row E s _ _ _ Hrows Hrun)).
Defined.

(** X16 on a registry with a stale member: it is listed as offline. *)
Lemma List_status_meaning_witness :
  let E := Mem.env Cluster.two_standbys in
  let s := Cluster.two_standbys_state in
  let rows := map Mem.info (Mem.rows (cluster_db s)) in
  let members :=
    [mkClusterMember "n1" "https://10.0.0.1:8443" false "Online"
       "fully operational" [] "x86_64";
     mkClusterMember "n2" "https://10.0.0.2:8443" false "Offline"
       "no heartbeat since " [] "x86_64";
     mkClusterMember "n3" "https://10.0.0.3:8443" false "Online"
       "fully operational" [] "x86_64"] in
  Nodes (cluster_db s) = (rows, None) ∧
  NodeOfflineThreshold (cluster_db s) = (20%Z, None) ∧
  List E s = (s, Ok members) ∧
  Forall2 (List_status_of E 20) rows members.
Proof.
  cbv zeta.
  set (E := Mem.env Cluster.two_standbys).
  set (s := Cluster.two_standbys_state).
  set (rows := map Mem.info (Mem.rows (cluster_db s))).
  assert (Hrows : Nodes (cluster_db s) = (rows, None)) by (vm_compute; reflexivity).
  assert (Hthreshold : NodeOfflineThreshold (cluster_db s) = (20%Z, None))
    by reflexivity.
  assert (Hrun : List E s =
    (s, Ok [mkClusterMember "n1" "https://10.0.0.1:8443" false "Online"
              "fully operational" [] "x86_64";
            mkClusterMember "n2" "https://10.0.0.2:8443" false "Offline"
              "no heartbeat since " [] "x86_64";
            mkClusterMember "n3" "https://10.0.0.3:8443" false "Online"
              "fully operational" [] "x86_64"])) by (vm_compute; reflexivity).
  repeat (split; [assumption|]).
  exact (List_status_meaning E s _ _ _ _ Hrows Hthreshold Hrun).
Defined.

(** X17 on a registry whose second member has an architecture without a
    name. *)
Lemma List_fails_on_first_unnamed_architecture_witness :
  let E := Mem.env Cluster.two_voters in
  let s := Members.foreign_member in
  let first := NodeInfo.mk 1 "n1" Cluster.a1 1 1 990 [] 0 in
  let second := NodeInfo.mk 2 "n2" Cluster.a2 1 1 990 [] 7 in
  Nodes (cluster_db s) = ([first; second], None) ∧
  NodeOfflineThreshold (cluster_db s) = (20%Z, None) ∧
  @List Mem.NodeDB Mem.ClusterDB _ Members.unnamed_architecture E s
    = (s, Err "unknown architecture").
Proof.
  cbv zeta.
  assert (Hrows : Nodes (cluster_db Members.foreign_member)
                  = ([NodeInfo.mk 1 "n1" Cluster.a1 1 1 990 [] 0;
                      NodeInfo.mk 2 "n2" Cluster.a2 1 1 990 [] 7], None))
    by (vm_compute; reflexivity).
  assert (Hthreshold : NodeOfflineThreshold (cluster_db Members.foreign_member)
                       = (20%Z, None)) by reflexivity.
  repeat (split; [assumption|]).
  pose proof (@List_fails_on_first_unnamed_architecture Mem.NodeDB Mem.ClusterDB _
                Members.unnamed_architecture (Mem.env Cluster.two_voters)
                Members.foreign_member _ _ 20 Hrows Hthreshold) as Hfail.
  cbn in Hfail. destruct Hfail as (e & Harch & Hrun).
  injection Harch as <-. exact Hrun.
Defined.

(** X18 for the second of two members, which holds nothing. *)
Lemma membershipCheckClusterStateForLeave_passes_iff_witness :
  let tx := cluster_db Cluster.two_members in
  let nodes := map Mem.info (Mem.rows tx) in
  NodeIsEmpty (ClusterTxMembers := Members.as_first) tx 2 = ("", None) ∧
  Nodes tx = (nodes, None) ∧
  membershipCheckClusterStateForLeave (members := Members.as_first) tx 2 = None.
Proof.
  cbv zeta.
  set (tx := cluster_db Cluster.two_members).
  assert (Hempty : NodeIsEmpty (ClusterTxMembers := Members.as_first) tx 2
                   = ("", None)) by reflexivity.
  assert (Hnodes : Nodes tx = (map Mem.info (Mem.rows tx), None))
    by (vm_compute; reflexivity).
  repeat (split; [assumption|]).
  apply (proj1 (membershipCheckClusterStateForLeave_passes_iff
                  (members := Members.as_first) tx 2 "" _ Hempty Hnodes)).
  split; [reflexivity|vm_compute; lia].
Defined.

(** X19 when the second of two voters leaves: its ID is removed. *)
Lemma Leave_Ok_inv_witness :
  let E := Mem.env Cluster.two_voters in
  let G := MemMembers.gateway_env true 1 in
  let d := Members.daemon Cluster.two_members in
  let d' := (Leave (members := Members.as_first) E G "n2" false d).1 in
  Leave (members := Members.as_first) E G "n2" false d = (d', Ok Cluster.a2) ∧
  d' = mkDaemon (log Cluster.two_members EvGetClient) None [2%Z].
Proof.
  cbv zeta.
  set (E := Mem.env Cluster.two_voters).
  set (G := MemMembers.gateway_env true 1).
  set (d := Members.daemon Cluster.two_members).
  assert (Hrun : Leave (members := Members.as_first) E G "n2" false d
                 = ((Leave (members := Members.as_first) E G "n2" false d).1,
                    Ok Cluster.a2)) by (vm_compute; reflexivity).
  split; [assumption|].
  destruct (Leave_Ok_inv (members := Members.as_first) E G "n2" false d _ _ Hrun)
    as (node & roster & _ & _ & _ & Hroster & Hstate).
  injection Hroster as <-. rewrite Hstate. reflexivity.
Defined.

(** X20 on the same departure. *)
Lemma Leave_keeps_stores_witness :
  let E := Mem.env Cluster.two_voters in
  let G := MemMembers.gateway_env true 1 in
  let d := Members.daemon Cluster.two_members in
  let d' := (Leave (members := Members.as_first) E G "n2" false d).1 in
  Leave (members := Members.as_first) E G "n2" false d = (d', Ok Cluster.a2) ∧
  same_stores (d_state d) (d_state d') ∧
  gateway_info d' = gateway_info d.
Proof.
  cbv zeta.
  set (E := Mem.env Cluster.two_voters).
  set (G := MemMembers.gateway_env true 1).
  set (d := Members.daemon Cluster.two_members).
  assert (Hrun : Leave (members := Members.as_first) E G "n2" false d
                 = ((Leave (members := Members.as_first) E G "n2" false d).1,
                    Ok Cluster.a2)) by (vm_compute; reflexivity).
  split; [assumption|].
  destruct (Leave_keeps_stores (members := Members.as_first) E G "n2" false d _ _
              Hrun) as (Hsame & Hinfo & _).
  split; [exact Hsame|exact Hinfo].
Defined.

(** X21 on the same departure, forced. *)
Lemma Leave_force_skips_check_witness :
  let E := Mem.env Cluster.two_voters in
  let G := MemMembers.gateway_env true 1 in
  let d := Members.daemon Cluster.two_members in
  let d' := (Leave (members := Members.as_first) E G "n2" false d).1 in
  Leave (members := Members.as_first) E G "n2" false d = (d', Ok Cluster.a2) ∧
  Leave (members := Members.as_first) E G "n2" true d = (d', Ok Cluster.a2).
Proof.
  cbv zeta.
  set (E := Mem.env Cluster.two_voters).
  set (G := MemMembers.gateway_env true 1).
  set (d := Members.daemon Cluster.two_members).
  assert (Hrun : Leave (members := Members.as_first) E G "n2" false d
                 = ((Leave (members := Members.as_first) E G "n2" false d).1,
                    Ok Cluster.a2)) by (vm_compute; reflexivity).
  split; [assumption|].
  exact (Leave_force_skips_check (members := Members.as_first) E G "n2" d _ _ Hrun).
Defined.

(** X22 when the second of two members is purged: its row is gone. *)
Lemma Purge_all_or_nothing_witness :
  let s := Cluster.two_members in
  let s' := (Purge (members := Members.as_first) "n2" s).1 in
  Purge (members := Members.as_first) "n2" s = (s', Ok tt) ∧
  ∃ node cd1 cd2,
    NodeByName (ClusterTxMembers := Members.as_first) (cluster_db s) "n2"
      = (node, None) ∧
    NodeClear (ClusterTxMembers := Members.as_first) (cluster_db s) (NodeInfo.ID node)
      = (cd1, None) ∧
    NodeRemove (ClusterTxMembers := Members.as_first) cd1 (NodeInfo.ID node)
      = (cd2, None) ∧
    s' = set_cluster_db s cd2.
Proof.
  cbv zeta.
  assert (Hrun : Purge (members := Members.as_first) "n2" Cluster.two_members
                 = ((Purge (members := Members.as_first) "n2"
                       Cluster.two_members).1, Ok tt))
    by (vm_compute; reflexivity).
  split; [assumption|].
  exact (Purge_all_or_nothing (members := Members.as_first) "n2"
           Cluster.two_members _ _ Hrun).
Defined.

(** X23 on the first member, handed a roster that leaves it out. *)
Lemma Assign_refuses_unlisted_member_witness :
  let E := Mem.env Cluster.two_voters in
  let G := MemMembers.gateway_env true 1 in
  let d := Members.daemon Cluster.two_members in
  let nodes := [mkRaftNode 2 Cluster.a2 RaftVoter] in
  NodeAddress (ClusterTxMembers := Members.as_first) (cluster_db (d_state d))
    = (Cluster.a1, None) ∧
  (Cluster.a1 = "" ∨ Forall (λ n, Address n ≠ Cluster.a1) nodes) ∧
  Assign (members := Members.as_first) E G nodes d =
    (d, Err "This node is not included in the given list of database nodes").
Proof.
  cbv zeta.
  set (E := Mem.env Cluster.two_voters).
  set (G := MemMembers.gateway_env true 1).
  set (d := Members.daemon Cluster.two_members).
  assert (Haddress : NodeAddress (ClusterTxMembers := Members.as_first)
                       (cluster_db (d_state d)) = (Cluster.a1, None))
    by reflexivity.
  assert (Hcase : Cluster.a1 = "" ∨
                  Forall (λ n, Address n ≠ Cluster.a1)
                         [mkRaftNode 2 Cluster.a2 RaftVoter]).
  { right. constructor; [discriminate|constructor]. }
  repeat (split; [assumption|]).
  exact (Assign_refuses_unlisted_member (members := Members.as_first) E G _ d _
           Haddress Hcase).
Defined.

(** X24 on the second member, made a stand-by while its dqlite node
    runs. *)
Lemma Assign_Ok_inv_witness :
  let E := Mem.env Cluster.two_voters in
  let G := MemMembers.gateway_env true 2 in
  let d := Members.daemon Cluster.two_members in
  let d' := (Assign (members := Members.as_second) E G Members.second_standby d).1 in
  Assign (members := Members.as_second) E G Members.second_standby d = (d', Ok tt) ∧
  gateway_info d' = Some (mkRaftNode 2 Cluster.a2 RaftStandBy) ∧
  trace (d_state d') =
    [EvFindLeader; EvClientAssign 2 RaftStandBy; EvHeartbeatNode Cluster.a1].
Proof.
  cbv zeta.
  set (E := Mem.env Cluster.two_voters).
  set (G := MemMembers.gateway_env true 2).
  set (d := Members.daemon Cluster.two_members).
  assert (Hrun : Assign (members := Members.as_second) E G Members.second_standby d
                 = ((Assign (members := Members.as_second) E G
                       Members.second_standby d).1, Ok tt))
    by (vm_compute; reflexivity).
  split; [assumption|].
  pose proof (Assign_Ok_inv (members := Members.as_second) E G
                Members.second_standby d _ Hrun) as Hinv.
  cbv zeta in Hinv.
  destruct Hinv as (address & info & nd & cd & Haddress & _ & Hlast & _ & _ & Hstate).
  injection Haddress as <-. injection Hlast as <-.
  rewrite Hstate. split; reflexivity.
Defined.

(** X25 on the second member when the cluster handle names a member that
    has no row. *)
Lemma Assign_registry_failure_after_assignment_witness :
  let E := Mem.env Cluster.two_voters in
  let G := MemMembers.gateway_env true 9 in
  let d := Members.daemon Cluster.two_members in
  let s := d_state d in
  let info := mkRaftNode 2 Cluster.a2 RaftStandBy in
  let nd := Mem.mkNodeDB Cluster.a1 Members.second_standby in
  NodeAddress (ClusterTxMembers := Members.as_second) (cluster_db s)
    = (Cluster.a2, None) ∧
  Cluster.a2 ≠ "" ∧
  last (filter (λ n, Address n = Cluster.a2) Members.second_standby) = Some info ∧
  RaftNodesReplace (node_db s) Members.second_standby = (nd, None) ∧
  gateway_IsDqliteNode G = true ∧
  client_FindLeader E = None ∧
  client_Assign E (ID info) (Role info) = None ∧
  (if decide (Role info = RaftVoter) then NodeAddRole else NodeRemoveRole)
    (cluster_db s) (cluster_GetNodeID G) ClusterRoleDatabase
    = (cluster_db s, Some "No such object") ∧
  Assign (members := Members.as_second) E G Members.second_standby d =
    (mkDaemon
       (mkState (VarDir s) (fs s) nd (cluster_db s) (gateway_cert s)
          (trace s ++ [EvFindLeader; EvClientAssign (ID info) (Role info)]))
       (Some info) (client_removed d),
     Err ("Cluster database initialization failed: " +:+
          "Failed to change role for the node: " +:+ "No such object")).
Proof.
  cbv zeta.
  set (E := Mem.env Cluster.two_voters).
  set (G := MemMembers.gateway_env true 9).
  set (d := Members.daemon Cluster.two_members).
  set (info := mkRaftNode 2 Cluster.a2 RaftStandBy).
  assert (Haddress : NodeAddress (ClusterTxMembers := Members.as_second)
                       (cluster_db (d_state d)) = (Cluster.a2, None))
    by reflexivity.
  assert (Hset : Cluster.a2 ≠ "") by discriminate.
  assert (Hlast : last (filter (λ n, Address n = Cluster.a2) Members.second_standby)
                  = Some info) by (vm_compute; reflexivity).
  assert (Hreplace : RaftNodesReplace (node_db (d_state d)) Members.second_standby
                     = (Mem.mkNodeDB Cluster.a1 Members.second_standby, None))
    by reflexivity.
  assert (Hrunning : gateway_IsDqliteNode G = true) by reflexivity.
  assert (Hleader : client_FindLeader E = None) by reflexivity.
  assert (Hassign : client_Assign E (ID info) (Role info) = None) by reflexivity.
  assert (Hrole : (if decide (Role info = RaftVoter)
                   then NodeAddRole else NodeRemoveRole)
                    (cluster_db (d_state d)) (cluster_GetNodeID G) ClusterRoleDatabase
                  = (cluster_db (d_state d), Some "No such object"))
    by (vm_compute; reflexivity).
  repeat (split; [assumption|]).
  exact (Assign_registry_failure_after_assignment (members := Members.as_second)
           E G Members.second_standby d Cluster.a2 info _ _ _
           Haddress Hset Hlast Hreplace Hrunning Hleader Hassign Hrole).
Defined.
